(** * Spice Source Hub: the marketplace front-end over its hosted backend

    A shallow embedding of the data-handling code of the React pages
    (VendorDashboard, GroupOrderModal, SupplierDashboard, Analytics) and of
    the part of the hosted relational backend these pages talk to.

    Modelling conventions.
    - A JavaScript [number] is an exact rational ([Qc]); IEEE rounding is
      not modelled.  A number is truthy exactly when it is not zero.
    - A timestamp column ([expires_at], [created_at]) and [new Date()] are
      integers, milliseconds since the epoch; ISO strings of timestamps
      compare as these integers do.
    - A table is the list of its rows, in insertion order.  A query
      [.select().eq(..).gt(..)] is a [filter]; [.insert] appends one row,
      with the columns the payload leaves out filled by the database
      ([Generated]); [.update(..).eq('id', k)] rewrites every row whose id
      is [k].  Calls to the backend succeed, except [maybeSingle], which
      reports an error when several rows match.
    - A React component is its state record; an event handler maps the
      state and the database to the new state and database.  The handlers
      run one after the other.
    - [Math.random()] reads the next value of an explicit random source
      that the computation threads along.
    - A [Date] is its time value; the time zone of the browser is a
      parameter of the code that reads or sets local calendar fields.  *)

From Stdlib Require Import String List ZArith QArith Qcanon Qround Bool Lia.
From Stdlib Require Import Permutation Sorted Lqa.
Import ListNotations.

Local Open Scope string_scope.
Local Open Scope list_scope.

(** ** JavaScript values *)

Definition number := Qc.
Definition timestamp := Z.

Definition num (z : Z) : number := Q2Qc (inject_Z z).

(** [if (x)] on a number. *)
Definition truthy (x : number) : bool := negb (Qc_eq_bool x (num 0)).

(** [Array.prototype.includes] on an array of strings. *)
Definition includes (l : list string) (x : string) : bool :=
  existsb (String.eqb x) l.

(** [a > b] and [a >= b] on numbers. *)
Definition gtb (a b : number) : bool :=
  match Qccompare a b with Gt => true | _ => false end.
Definition geb (a b : number) : bool :=
  match Qccompare a b with Lt => false | _ => true end.

(** ** The backend tables *)

Module Materials.
Record Row := mk {
  id : string;
  name : string;
  description : option string;
  price : number;
  stock : number;
  unit : string;
  supplier_id : string
}.
End Materials.

Module GroupOrders.
Record Row := mk {
  id : string;
  material_id : string;
  total_quantity : number;
  current_price : number;
  min_quantity : number;
  participants : list string;
  expires_at : timestamp;
  status : string
}.

(** The payload of [.update({ participants, total_quantity })]. *)
Definition update_participants_total
    (ps : list string) (tq : number) (r : Row) : Row :=
  mk (id r) (material_id r) tq (current_price r) (min_quantity r) ps
     (expires_at r) (status r).
End GroupOrders.

Module Orders.
Record Row := mk {
  id : string;
  vendor_id : string;
  supplier_id : string;
  material_id : string;
  quantity : number;
  total_price : number;
  type : string;
  status : string;
  created_at : timestamp
}.

(** The payload of [.update({ status })]. *)
Definition update_status (s : string) (r : Row) : Row :=
  mk (id r) (vendor_id r) (supplier_id r) (material_id r) (quantity r)
     (total_price r) (type r) s (created_at r).
End Orders.

Module CartItems.
Record Row := mk {
  id : string;
  vendor_id : string;
  material_id : string;
  quantity : number
}.

(** The payload of [.update({ quantity })]. *)
Definition update_quantity (q : number) (r : Row) : Row :=
  mk (id r) (vendor_id r) (material_id r) q.
End CartItems.

Module GroupOrderParticipants.
Record Row := mk {
  group_order_id : string;
  vendor_id : string;
  quantity : number
}.
End GroupOrderParticipants.

Module OrderSummaryLogs.
(** The summary text is kept as the values it is built from. *)
Record Summary := mkSummary {
  material : string;
  quantity : number;
  unit : string;
  price_per_unit : number;
  total : number;
  supplier : string
}.
Record Row := mk {
  vendor_id : string;
  order_id : string;
  summary : Summary
}.
End OrderSummaryLogs.

Module PriceHistory.
Record Row := mk {
  id : string;
  material_id : string;
  date : timestamp;
  price : number;
  supplier_id : string
}.
End PriceHistory.

Module Supabase.

Record Database := mkDatabase {
  materials : list Materials.Row;
  group_orders : list GroupOrders.Row;
  orders : list Orders.Row;
  cart_items : list CartItems.Row;
  group_order_participants : list GroupOrderParticipants.Row;
  order_summary_logs : list OrderSummaryLogs.Row;
  price_history : list PriceHistory.Row
}.

(** The columns an insert payload leaves to the database. *)
Record Generated := mkGenerated {
  gen_id : string;
  gen_created_at : timestamp;
  gen_status : string
}.

Definition with_group_orders (f : list GroupOrders.Row -> list GroupOrders.Row)
    (db : Database) : Database :=
  mkDatabase (materials db) (f (group_orders db)) (orders db) (cart_items db)
    (group_order_participants db) (order_summary_logs db) (price_history db).

Definition with_orders (f : list Orders.Row -> list Orders.Row)
    (db : Database) : Database :=
  mkDatabase (materials db) (group_orders db) (f (orders db)) (cart_items db)
    (group_order_participants db) (order_summary_logs db) (price_history db).

Definition with_cart_items (f : list CartItems.Row -> list CartItems.Row)
    (db : Database) : Database :=
  mkDatabase (materials db) (group_orders db) (orders db) (f (cart_items db))
    (group_order_participants db) (order_summary_logs db) (price_history db).

Definition with_group_order_participants
    (f : list GroupOrderParticipants.Row -> list GroupOrderParticipants.Row)
    (db : Database) : Database :=
  mkDatabase (materials db) (group_orders db) (orders db) (cart_items db)
    (f (group_order_participants db)) (order_summary_logs db) (price_history db).

Definition with_order_summary_logs
    (f : list OrderSummaryLogs.Row -> list OrderSummaryLogs.Row)
    (db : Database) : Database :=
  mkDatabase (materials db) (group_orders db) (orders db) (cart_items db)
    (group_order_participants db) (f (order_summary_logs db)) (price_history db).

(** [.insert(row)]: one row appended. *)
Definition insert {A : Type} (row : A) (table : list A) : list A :=
  table ++ [row].

(** [.update(payload).eq('id', k)]. *)
Definition update_eq_id {A : Type} (key : A -> string) (payload : A -> A)
    (k : string) (table : list A) : list A :=
  map (fun r => if String.eqb (key r) k then payload r else r) table.

(** [.maybeSingle()]: no row gives null, one row gives the row, several
    rows give an error and null data. *)
Definition maybeSingle {A : Type} (rows : list A) : option A :=
  match rows with
  | [r] => Some r
  | _ => None
  end.

(** The embedded resource [materials] of a select: the row the
    foreign key [material_id] points to. *)
Definition embed_material (db : Database) (material_id : string)
    : option Materials.Row :=
  find (fun m => String.eqb (Materials.id m) material_id) (materials db).

End Supabase.

(** ** Signed-in user and profile (useAuth, useProfile) *)

Record User := mkUser { user_id : string }.

Record Profile := mkProfile {
  profile_user_id : string;
  full_name : string;
  role : string
}.

(** The [GroupOrder] object of the vendor dashboard: a [group_orders] row
    with the material it refers to embedded. *)
Record GroupOrder := mkGroupOrder {
  row : GroupOrders.Row;
  go_materials : option Materials.Row
}.

(** The select of [fetchGroupOrders], the same in both versions of the
    vendor dashboard:
    [.eq('status', 'open').gt('expires_at', new Date().toISOString())]. *)
Definition open_and_unexpired (now : timestamp) (r : GroupOrders.Row) : bool :=
  String.eqb (GroupOrders.status r) "open" && Z.ltb now (GroupOrders.expires_at r).

Definition select_group_orders (now : timestamp) (db : Supabase.Database)
    : list GroupOrder :=
  map (fun r => mkGroupOrder r (Supabase.embed_material db (GroupOrders.material_id r)))
      (filter (open_and_unexpired now) (Supabase.group_orders db)).

(** The select of the vendor's [fetchMaterials]: [.gt('stock', 0)]. *)
Definition select_materials_in_stock (db : Supabase.Database)
    : list Materials.Row :=
  filter (fun m => gtb (Materials.stock m) (num 0)) (Supabase.materials db).

(** ** VendorDashboard.tsx, first version (no cart, no quantity on join) *)

Module VendorDashboardV1.
Import Supabase.

Record State := mkState {
  user : option User;
  profile : option Profile;
  materials : list Materials.Row;
  groupOrders : list GroupOrder;
  loading : bool;
  toasts : list string
}.

Definition setMaterials (ms : list Materials.Row) (st : State) : State :=
  mkState (user st) (profile st) ms (groupOrders st) (loading st) (toasts st).
Definition setGroupOrders (gs : list GroupOrder) (st : State) : State :=
  mkState (user st) (profile st) (materials st) gs (loading st) (toasts st).
Definition setLoading (b : bool) (st : State) : State :=
  mkState (user st) (profile st) (materials st) (groupOrders st) b (toasts st).
Definition toast (title : string) (st : State) : State :=
  mkState (user st) (profile st) (materials st) (groupOrders st) (loading st)
    (toasts st ++ [title]).

Definition fetchMaterials (st : State) (db : Database) : State :=
  setMaterials (select_materials_in_stock db) st.

Definition fetchGroupOrders (now : timestamp) (st : State) (db : Database)
    : State :=
  setLoading false (setGroupOrders (select_group_orders now db) st).

Definition placeIndividualOrder (materialId : string) (quantity : number)
    (g : Generated) (st : State) (db : Database) : State * Database :=
  match user st, profile st with
  | Some u, Some _ =>
      match find (fun m => String.eqb (Materials.id m) materialId) (materials st) with
      | None => (st, db)
      | Some material =>
          let db' :=
            with_orders
              (insert
                 (Orders.mk (gen_id g) (user_id u) (Materials.supplier_id material)
                    materialId quantity (Materials.price material * quantity)
                    "individual" (gen_status g) (gen_created_at g)))
              db in
          (toast "Order placed!" st, db')
      end
  | _, _ => (st, db)
  end.

(** [now] is the clock read by the [fetchGroupOrders] that ends a
    successful join. *)
Definition joinGroupOrder (groupOrderId : string) (now : timestamp)
    (st : State) (db : Database) : State * Database :=
  match user st with
  | None => (st, db)
  | Some u =>
      match find (fun go => String.eqb (GroupOrders.id (row go)) groupOrderId)
              (groupOrders st) with
      | None => (st, db)
      | Some groupOrder =>
          if includes (GroupOrders.participants (row groupOrder)) (user_id u)
          then (toast "Already joined" st, db)
          else
            let db' :=
              with_group_orders
                (update_eq_id GroupOrders.id
                   (GroupOrders.update_participants_total
                      (GroupOrders.participants (row groupOrder) ++ [user_id u])
                      (GroupOrders.total_quantity (row groupOrder) + num 1))
                   groupOrderId)
                db in
            (fetchGroupOrders now (toast "Joined group order!" st) db', db')
      end
  end.

(** The price badge of a group-order card. *)
Definition cardPrice (go : GroupOrder) : number :=
  GroupOrders.current_price (row go).

End VendorDashboardV1.

(** ** VendorDashboard.tsx, second version (cart, order summary, quantity) *)

Module VendorDashboard.
Import Supabase.

Record State := mkState {
  user : option User;
  profile : option Profile;
  materials : list Materials.Row;
  groupOrders : list GroupOrder;
  loading : bool;
  isCartOpen : bool;
  isGroupOrderModalOpen : bool;
  selectedMaterial : option Materials.Row;
  orderSummary : option OrderSummaryLogs.Summary;
  showOrderSummary : bool;
  toasts : list string
}.

Definition setMaterials (ms : list Materials.Row) (st : State) : State :=
  mkState (user st) (profile st) ms (groupOrders st) (loading st)
    (isCartOpen st) (isGroupOrderModalOpen st) (selectedMaterial st)
    (orderSummary st) (showOrderSummary st) (toasts st).
Definition setGroupOrders (gs : list GroupOrder) (st : State) : State :=
  mkState (user st) (profile st) (materials st) gs (loading st)
    (isCartOpen st) (isGroupOrderModalOpen st) (selectedMaterial st)
    (orderSummary st) (showOrderSummary st) (toasts st).
Definition setLoading (b : bool) (st : State) : State :=
  mkState (user st) (profile st) (materials st) (groupOrders st) b
    (isCartOpen st) (isGroupOrderModalOpen st) (selectedMaterial st)
    (orderSummary st) (showOrderSummary st) (toasts st).
Definition setSelectedMaterial (m : option Materials.Row) (st : State) : State :=
  mkState (user st) (profile st) (materials st) (groupOrders st) (loading st)
    (isCartOpen st) (isGroupOrderModalOpen st) m
    (orderSummary st) (showOrderSummary st) (toasts st).
Definition setOrderSummary (s : OrderSummaryLogs.Summary) (st : State) : State :=
  mkState (user st) (profile st) (materials st) (groupOrders st) (loading st)
    (isCartOpen st) (isGroupOrderModalOpen st) (selectedMaterial st)
    (Some s) (showOrderSummary st) (toasts st).
Definition setShowOrderSummary (b : bool) (st : State) : State :=
  mkState (user st) (profile st) (materials st) (groupOrders st) (loading st)
    (isCartOpen st) (isGroupOrderModalOpen st) (selectedMaterial st)
    (orderSummary st) b (toasts st).
Definition toast (title : string) (st : State) : State :=
  mkState (user st) (profile st) (materials st) (groupOrders st) (loading st)
    (isCartOpen st) (isGroupOrderModalOpen st) (selectedMaterial st)
    (orderSummary st) (showOrderSummary st) (toasts st ++ [title]).

Definition fetchMaterials (st : State) (db : Database) : State :=
  setMaterials (select_materials_in_stock db) st.

Definition fetchGroupOrders (now : timestamp) (st : State) (db : Database)
    : State :=
  setLoading false (setGroupOrders (select_group_orders now db) st).

(** The cart rows of [.eq('vendor_id', user.id).eq('material_id', materialId)]. *)
Definition cart_rows_of (vendor materialId : string) (db : Database)
    : list CartItems.Row :=
  filter (fun c => String.eqb (CartItems.vendor_id c) vendor
                   && String.eqb (CartItems.material_id c) materialId)
         (cart_items db).

(** [quantity] defaults to 1 at the call. *)
Definition addToCart (materialId : string) (quantity : number)
    (g : Generated) (st : State) (db : Database) : State * Database :=
  match user st with
  | None => (st, db)
  | Some u =>
      let existingItem := maybeSingle (cart_rows_of (user_id u) materialId db) in
      let insert_new :=
        with_cart_items
          (insert (CartItems.mk (gen_id g) (user_id u) materialId quantity)) db in
      let db' :=
        match existingItem with
        | Some item =>
            if truthy (CartItems.quantity item)
            then with_cart_items
                   (update_eq_id CartItems.id
                      (CartItems.update_quantity (CartItems.quantity item + quantity))
                      (CartItems.id item))
                   db
            else insert_new
        | None => insert_new
        end in
      (toast "Added to cart!" st, db')
  end.

(** The Add to Cart button of a material card, the one call of
    [addToCart]: [addToCart(material.id, 1)]. *)
Definition onAddToCartClick (material : Materials.Row)
    : Generated -> State -> Database -> State * Database :=
  addToCart (Materials.id material) (num 1).

(** The closure [confirmOrder] that [placeIndividualOrder] returns. *)
Definition ConfirmOrder : Type := Generated -> State -> Database -> State * Database.

Definition placeIndividualOrder (materialId : string) (quantity : number)
    (st : State) : State * option ConfirmOrder :=
  match user st, profile st with
  | Some u, Some _ =>
      match find (fun m => String.eqb (Materials.id m) materialId) (materials st) with
      | None => (st, None)
      | Some material =>
          let summary :=
            OrderSummaryLogs.mkSummary (Materials.name material) quantity
              (Materials.unit material) (Materials.price material)
              (Materials.price material * quantity)
              (Materials.supplier_id material) in
          let confirmOrder : ConfirmOrder := fun g st1 db =>
            let db1 :=
              with_orders
                (insert
                   (Orders.mk (gen_id g) (user_id u) (Materials.supplier_id material)
                      materialId quantity (Materials.price material * quantity)
                      "individual" (gen_status g) (gen_created_at g)))
                db in
            let db2 :=
              with_order_summary_logs
                (insert (OrderSummaryLogs.mk (user_id u) "" summary)) db1 in
            (setShowOrderSummary false (toast "Order placed!" st1), db2) in
          (setShowOrderSummary true (setOrderSummary summary st), Some confirmOrder)
      end
  | _, _ => (st, None)
  end.

(** The handler of the confirm button of the summary dialog. *)
Definition confirmIndividualOrder (g : Generated) (st : State) (db : Database)
    : State * Database :=
  let materialId :=
    match selectedMaterial st with
    | Some m => Materials.id m
    | None => ""
    end in
  match placeIndividualOrder materialId (num 1) st with
  | (st1, Some confirmOrder) => confirmOrder g st1 db
  | (st1, None) => (st1, db)
  end.

(** [quantity] defaults to 1 at the call; [now] is the clock read by the
    [fetchGroupOrders] that ends a successful join. *)
Definition joinGroupOrder (groupOrderId : string) (quantity : number)
    (now : timestamp) (st : State) (db : Database) : State * Database :=
  match user st with
  | None => (st, db)
  | Some u =>
      match find (fun go => String.eqb (GroupOrders.id (row go)) groupOrderId)
              (groupOrders st) with
      | None => (st, db)
      | Some groupOrder =>
          if includes (GroupOrders.participants (row groupOrder)) (user_id u)
          then (toast "Already joined" st, db)
          else
            let db1 :=
              with_group_order_participants
                (insert (GroupOrderParticipants.mk groupOrderId (user_id u) quantity))
                db in
            let db2 :=
              with_group_orders
                (update_eq_id GroupOrders.id
                   (GroupOrders.update_participants_total
                      (GroupOrders.participants (row groupOrder) ++ [user_id u])
                      (GroupOrders.total_quantity (row groupOrder) + quantity))
                   groupOrderId)
                db1 in
            (fetchGroupOrders now (toast "Joined group order!" st) db2, db2)
      end
  end.

(** The price badge of a group-order card. *)
Definition cardPrice (go : GroupOrder) : number :=
  GroupOrders.current_price (row go).

End VendorDashboard.

(** ** The built-in [Date] *)

Module JsDate.

Definition msPerDay : Z := 86400000.

(** The time zone of the host: the offset of local time from UTC, in
    milliseconds, at a UTC time and for a local time.  For a local time
    that a clock change skips, the offset is the one before the change. *)
Record TimeZone := mkTimeZone {
  offset_at : timestamp -> Z;
  offset_of_local : Z -> Z
}.

Definition LocalTime (tz : TimeZone) (t : timestamp) : Z :=
  (t + offset_at tz t)%Z.

Definition UTC (tz : TimeZone) (local : Z) : Z :=
  (local - offset_of_local tz local)%Z.

Definition Day (t : Z) : Z := (t / msPerDay)%Z.

Definition TimeWithinDay (t : Z) : Z := (t mod msPerDay)%Z.

(** The day of the month, 1 to 31, of the day [Day t] in the Gregorian
    calendar; day 0 is 1 January 1970.  The count runs over years that
    begin on 1 March, in cycles of 400 years (146097 days). *)
Definition DateFromTime (t : Z) : Z :=
  let z := (Day t + 719468)%Z in
  let era := (z / 146097)%Z in
  let doe := (z - era * 146097)%Z in
  let yoe := ((doe - doe / 1460 + doe / 36524 - doe / 146096) / 365)%Z in
  let doy := (doe - (365 * yoe + yoe / 4 - yoe / 100))%Z in
  let mp := ((5 * doy + 2) / 153)%Z in
  (doy - (153 * mp + 2) / 5 + 1)%Z.

(** [ToIntegerOrInfinity] on a finite number: the fraction is dropped,
    towards 0. *)
Definition ToIntegerOrInfinity (x : number) : Z :=
  if gtb (num 0) x then Qceiling x else Qfloor x.

(** A time value reaches 8.64e15 milliseconds either side of the epoch;
    beyond, the Date is invalid ([None]). *)
Definition maxTime : Z := 8640000000000000.

Definition TimeClip (t : Z) : option timestamp :=
  if (Z.abs t <=? maxTime)%Z then Some t else None.

(** [d.getDate()] on a valid Date of time value [t]. *)
Definition getDate (tz : TimeZone) (t : timestamp) : Z :=
  DateFromTime (LocalTime tz t).

(** [d.setDate(date)] on a valid Date of time value [t]: the day [date] of
    the local month of [t], counted from the first day of that month
    ([MakeDay]), at the local time of day of [t] ([MakeDate]); the new time
    value, or [None] for an invalid Date. *)
Definition setDate (tz : TimeZone) (date : number) (t : timestamp)
    : option timestamp :=
  let local := LocalTime tz t in
  let first_of_month := (Day local - DateFromTime local + 1)%Z in
  let day := (first_of_month + ToIntegerOrInfinity date - 1)%Z in
  TimeClip (UTC tz (day * msPerDay + TimeWithinDay local)).

(** A zone with one offset all year: India, five and a half hours ahead
    of UTC. *)
Definition kolkata : TimeZone :=
  mkTimeZone (fun _ => 19800000%Z) (fun _ => 19800000%Z).

(** A zone one hour ahead of UTC that puts its clocks forward by one hour
    at the UTC time [change]. *)
Definition spring_forward (change : timestamp) : TimeZone :=
  mkTimeZone
    (fun t => if (t <? change)%Z then 3600000%Z else 7200000%Z)
    (fun local => if (local <? change + 7200000)%Z then 3600000%Z else 7200000%Z).

(** Central Europe around its clock change of 29 March 2026, 01:00 UTC. *)
Definition berlin_2026 : TimeZone := spring_forward 1774746000000%Z.

End JsDate.

(** ** GroupOrderModal.tsx *)

Module GroupOrderModal.
Import Supabase.

(** The three number fields hold [Number(e.target.value)] of a number
    input: any finite number, whole or not. *)
Record FormData := mkFormData {
  minQuantity : number;
  discountedPrice : number;
  expiryDays : number;
  description : string
}.

Record State := mkState {
  loading : bool;
  formData : FormData;
  toasts : list string
}.

Definition nine_tenths : number := Q2Qc (9 # 10).

(** The initial value of [useState] for the form; [material] is the prop
    at the first render. *)
Definition initialFormData (material : option Materials.Row) : FormData :=
  mkFormData (num 100)
    (match material with
     | Some m => if truthy (Materials.price m)
                 then Materials.price m * nine_tenths
                 else num 0
     | None => num 0
     end)
    (num 7) "".

(** The effect that runs after the first render and when the [material]
    prop changes. *)
Definition onMaterialChange (material : option Materials.Row) (prev : FormData)
    : FormData :=
  match material with
  | Some m =>
      mkFormData (minQuantity prev) (Materials.price m * nine_tenths)
        (expiryDays prev) (description prev)
  | None => prev
  end.

(** The [onChange] of the expiry input:
    [setFormData(prev => ({ ...prev, expiryDays: Number(e.target.value) }))]. *)
Definition setExpiryDays (days : number) (prev : FormData) : FormData :=
  mkFormData (minQuantity prev) (discountedPrice prev) days (description prev).

(** The form as the dialog shows it for [material] before any edit. *)
Definition defaultFormData (material : option Materials.Row) : FormData :=
  onMaterialChange material (initialFormData material).

(** [expiryDate.setDate(expiryDate.getDate() + formData.expiryDays)] on
    [expiryDate = new Date()]: the time value that [toISOString] prints,
    or [None] where the Date is invalid and [toISOString] throws. *)
Definition expiryDate (tz : JsDate.TimeZone) (now : timestamp) (form : FormData)
    : option timestamp :=
  JsDate.setDate tz (num (JsDate.getDate tz now) + expiryDays form) now.

(** [now] is the clock read by [new Date()].  The boolean tells whether
    [onClose] and [onSuccess] were called.  The exception of
    [toISOString] is caught before anything is sent to the backend. *)
Definition createGroupOrder (tz : JsDate.TimeZone) (user : option User)
    (material : option Materials.Row) (now : timestamp) (g : Generated)
    (st : State) (db : Database) : State * Database * bool :=
  match user, material with
  | Some u, Some m =>
      match expiryDate tz now (formData st) with
      | Some expires_at =>
          let db' :=
            with_group_orders
              (insert
                 (GroupOrders.mk (gen_id g) (Materials.id m) (num 1)
                    (discountedPrice (formData st)) (minQuantity (formData st))
                    [user_id u] expires_at (gen_status g)))
              db in
          (mkState false (formData st) (toasts st ++ ["Group order created!"]),
           db', true)
      | None =>
          (mkState false (formData st) (toasts st ++ ["Error"]), db, false)
      end
  | _, _ => (st, db, false)
  end.

End GroupOrderModal.

(** ** Stable sorting, for [ORDER BY ... DESC] and [Array.prototype.sort] *)

Section StableSort.
Context {A : Type} (precedes : A -> A -> bool).

Fixpoint insert_sorted (a : A) (l : list A) : list A :=
  match l with
  | [] => [a]
  | x :: xs => if precedes a x then a :: l else x :: insert_sorted a xs
  end.

Definition stable_sort (l : list A) : list A :=
  fold_right insert_sorted [] l.
End StableSort.

(** ** SupplierDashboard.tsx *)

Module SupplierDashboard.
Import Supabase.

(** The [Order] object: an [orders] row with its material embedded. *)
Record Order := mkOrder {
  order_row : Orders.Row;
  order_materials : option Materials.Row
}.

Record State := mkState {
  user : option User;
  materials : list Materials.Row;
  orders : list Order;
  loading : bool;
  toasts : list string
}.

(** [.from('materials').select('*').eq('supplier_id', user.id)] *)
Definition select_materials (uid : string) (db : Database) : list Materials.Row :=
  filter (fun m => String.eqb (Materials.supplier_id m) uid) (Supabase.materials db).

(** [.from('orders').select(..).eq('supplier_id', user.id)
     .order('created_at', { ascending: false })] *)
Definition select_orders (uid : string) (db : Database) : list Order :=
  map (fun r => mkOrder r (embed_material db (Orders.material_id r)))
    (stable_sort
       (fun a b => Z.leb (Orders.created_at b) (Orders.created_at a))
       (filter (fun r => String.eqb (Orders.supplier_id r) uid) (Supabase.orders db))).

Definition fetchMaterials (st : State) (db : Database) : State :=
  match user st with
  | None => st
  | Some u =>
      mkState (user st) (select_materials (user_id u) db) (orders st)
        (loading st) (toasts st)
  end.

Definition fetchOrders (st : State) (db : Database) : State :=
  match user st with
  | None => st
  | Some u =>
      mkState (user st) (materials st) (select_orders (user_id u) db)
        false (toasts st)
  end.

Definition updateOrderStatus (orderId : string) (status : string)
    (st : State) (db : Database) : State * Database :=
  let db' :=
    with_orders (update_eq_id Orders.id (Orders.update_status status) orderId) db in
  let st' :=
    mkState (user st) (materials st) (orders st) (loading st)
      (toasts st ++ ["Order updated!"]) in
  (fetchOrders st' db', db').

(** The status buttons rendered on the card of an order: the new
    statuses the card can pass to [updateOrderStatus]. *)
Definition orderActions (o : Order) : list string :=
  (if String.eqb (Orders.status (order_row o)) "pending"
   then ["confirmed"; "cancelled"] else [])
  ++
  (if String.eqb (Orders.status (order_row o)) "confirmed"
   then ["delivered"] else []).

(** One click on a rendered status button of a listed order. *)
Inductive click : State -> Database -> State -> Database -> Prop :=
| click_action : forall st db o status,
    In o (orders st) ->
    In status (orderActions o) ->
    click st db
      (fst (updateOrderStatus (Orders.id (order_row o)) status st db))
      (snd (updateOrderStatus (Orders.id (order_row o)) status st db)).

End SupplierDashboard.

(** ** Analytics.tsx *)

Module Analytics.
Import Supabase.

Record MaterialVolatility := mkMaterialVolatility {
  material_name : string;
  volatility : number;
  avg_price : number;
  price_changes : number
}.

(** The source of [Math.random()]: the sequence of its future results and
    the number of draws made so far. *)
Record Rng := mkRng {
  draws : nat -> number;
  drawn : nat
}.

Definition Math_random (r : Rng) : number * Rng :=
  (draws r (drawn r), mkRng (draws r) (S (drawn r))).

Definition Math_floor (x : number) : number := num (Qfloor x).

(** [Number(x.toFixed(2))]: the nearest multiple of 1/100, the larger one
    on a tie; a negative [x] is rounded through [-x]. *)
Definition nearest_hundredth (x : number) : number :=
  num (Qfloor (x * num 100 + Q2Qc (1 # 2))) / num 100.

Definition toFixed2 (x : number) : number :=
  if gtb (num 0) x then - nearest_hundredth (- x) else nearest_hundredth x.

(** The body of [materials.map(material => ...)], threading the random
    source through the materials from first to last. *)
Fixpoint simulate (ms : list Materials.Row) (r : Rng)
    : list MaterialVolatility * Rng :=
  match ms with
  | [] => ([], r)
  | material :: rest =>
      let (x, r1) := Math_random r in
      let volatility := x * num 20 in
      let (y, r2) := Math_random r1 in
      let price_changes := Math_floor (y * num 10) + num 1 in
      let fig :=
        mkMaterialVolatility (Materials.name material) (toFixed2 volatility)
          (Materials.price material) price_changes in
      let (figs, r3) := simulate rest r2 in
      (fig :: figs, r3)
  end.

(** [calculateVolatility]: the value passed to [setVolatileMaterials]. *)
Definition calculateVolatility (db : Database) (r : Rng)
    : list MaterialVolatility * Rng :=
  let (figs, r') := simulate (Supabase.materials db) r in
  (firstn 8
     (stable_sort (fun a b => geb (volatility a) (volatility b)) figs),
   r').

End Analytics.

(** ** The claims' own terms *)

(** What the claim says a join does to the row it joins: [q] more in
    [total_quantity], the vendor's id at the end of [participants], every
    other column as it was. *)
Definition join_effect (vendor : string) (q : number) (r : GroupOrders.Row)
    : GroupOrders.Row :=
  GroupOrders.mk (GroupOrders.id r) (GroupOrders.material_id r)
    (GroupOrders.total_quantity r + q) (GroupOrders.current_price r)
    (GroupOrders.min_quantity r) (GroupOrders.participants r ++ [vendor])
    (GroupOrders.expires_at r) (GroupOrders.status r).

(** The columns of [group_orders] a join writes. *)
Definition joined_columns (db : Supabase.Database)
    : list (string * list string * Q) :=
  map (fun r => (GroupOrders.id r, GroupOrders.participants r,
                 this (GroupOrders.total_quantity r)))
      (Supabase.group_orders db).

(** What the claim says a join of group order [k] does to the table. *)
Definition joined_as_claimed (vendor : string) (q : number) (k : string)
    (db db' : Supabase.Database) : Prop :=
  Supabase.group_orders db'
  = map (fun r => if String.eqb (GroupOrders.id r) k
                  then join_effect vendor q r else r)
      (Supabase.group_orders db).

(** What the claim says forming a group order does: one more row, of the
    creator alone, with quantity 1, at the price of the form, expiring the
    form's number of days (of 24 hours) after the creation time. *)
Definition formed_as_claimed (u : User) (now : timestamp)
    (form : GroupOrderModal.FormData) (db db' : Supabase.Database) : Prop :=
  exists r,
    Supabase.group_orders db' = Supabase.group_orders db ++ [r]
    /\ GroupOrders.participants r = [user_id u]
    /\ GroupOrders.total_quantity r = num 1
    /\ GroupOrders.current_price r = GroupOrderModal.discountedPrice form
    /\ num (GroupOrders.expires_at r)
       = (num now + GroupOrderModal.expiryDays form * num JsDate.msPerDay)%Qc.

(** ** Sample data: a small database and signed-in users *)

Module SampleData.
Import Supabase.

Definition turmeric : Materials.Row :=
  Materials.mk "m1" "Turmeric" (Some "Ground turmeric") (num 100) (num 50) "kg" "s1".
Definition chili : Materials.Row :=
  Materials.mk "m2" "Chili" None (num 80) (num 0) "kg" "s2".

Definition open_order : GroupOrders.Row :=
  GroupOrders.mk "g1" "m1" (num 1) (num 90) (num 100) ["v1"] 2000%Z "open".
Definition closed_order : GroupOrders.Row :=
  GroupOrders.mk "g2" "m1" (num 3) (num 85) (num 10) ["v1"] 2000%Z "closed".
Definition expired_order : GroupOrders.Row :=
  GroupOrders.mk "g3" "m2" (num 2) (num 70) (num 10) ["v3"] 500%Z "open".

Definition order1 : Orders.Row :=
  Orders.mk "o1" "v1" "s1" "m1" (num 2) (num 200) "individual" "pending" 10%Z.
Definition order2 : Orders.Row :=
  Orders.mk "o2" "v2" "s2" "m2" (num 1) (num 80) "individual" "confirmed" 20%Z.
Definition order3 : Orders.Row :=
  Orders.mk "o3" "v2" "s1" "m1" (num 1) (num 100) "individual" "delivered" 30%Z.

Definition db0 : Database :=
  mkDatabase [turmeric; chili] [open_order; closed_order; expired_order]
    [order1; order2; order3] [] [] []
    [PriceHistory.mk "p1" "m1" 5%Z (num 95) "s1"].

Definition vendor2 : User := mkUser "v2".
Definition vendor2_profile : Profile := mkProfile "v2" "Vendor Two" "vendor".
Definition supplier1 : User := mkUser "s1".

Definition gen1 : Generated := mkGenerated "new1" 1000%Z "pending".
(** A new group order is live at once: its status column defaults to
    'open'. *)
Definition gen_open : Generated := mkGenerated "g9" 1000%Z "open".

Definition v1_state : VendorDashboardV1.State :=
  VendorDashboardV1.fetchGroupOrders 1000%Z
    (VendorDashboardV1.fetchMaterials
       (VendorDashboardV1.mkState (Some vendor2) (Some vendor2_profile) [] [] true [])
       db0)
    db0.

Definition v2_state : VendorDashboard.State :=
  VendorDashboard.fetchGroupOrders 1000%Z
    (VendorDashboard.fetchMaterials
       (VendorDashboard.mkState (Some vendor2) (Some vendor2_profile) [] [] true
          false false None None false [])
       db0)
    db0.

Definition supplier_state : SupplierDashboard.State :=
  SupplierDashboard.mkState (Some supplier1) [] [] true [].

(** Vendor v2, in India, forms a group order for turmeric with the form
    untouched. *)
Definition modal_state : GroupOrderModal.State :=
  GroupOrderModal.mkState false (GroupOrderModal.defaultFormData (Some turmeric)) [].

Definition db_created : Database :=
  snd (fst (GroupOrderModal.createGroupOrder JsDate.kolkata (Some vendor2)
              (Some turmeric) 1000%Z gen_open modal_state db0)).

Definition created_order : GroupOrders.Row :=
  GroupOrders.mk "g9" "m1" (num 1) (num 100 * GroupOrderModal.nine_tenths) (num 100)
    ["v2"] 604801000%Z "open".
End SampleData.

(** ** Two joins in a row on one page *)

Module JoinTwice.
Import Supabase.

Definition once_v1 (k : string) (now1 : timestamp)
    (st : VendorDashboardV1.State) (db : Database) : Database :=
  snd (VendorDashboardV1.joinGroupOrder k now1 st db).

(** The second call runs on the state the first call left, refetched
    list included. *)
Definition twice_v1 (k : string) (now1 now2 : timestamp)
    (st : VendorDashboardV1.State) (db : Database) : Database :=
  let r := VendorDashboardV1.joinGroupOrder k now1 st db in
  snd (VendorDashboardV1.joinGroupOrder k now2 (fst r) (snd r)).

(** The second call runs on the list the first call used (a second
    click before the refetch arrives). *)
Definition twice_on_same_list_v1 (k : string) (now1 now2 : timestamp)
    (st : VendorDashboardV1.State) (db : Database) : Database :=
  snd (VendorDashboardV1.joinGroupOrder k now2 st
         (snd (VendorDashboardV1.joinGroupOrder k now1 st db))).

Definition once (k : string) (q : number) (now1 : timestamp)
    (st : VendorDashboard.State) (db : Database) : Database :=
  snd (VendorDashboard.joinGroupOrder k q now1 st db).

Definition twice (k : string) (q : number) (now1 now2 : timestamp)
    (st : VendorDashboard.State) (db : Database) : Database :=
  let r := VendorDashboard.joinGroupOrder k q now1 st db in
  snd (VendorDashboard.joinGroupOrder k q now2 (fst r) (snd r)).

Definition twice_on_same_list (k : string) (q : number) (now1 now2 : timestamp)
    (st : VendorDashboard.State) (db : Database) : Database :=
  snd (VendorDashboard.joinGroupOrder k q now2 st
         (snd (VendorDashboard.joinGroupOrder k q now1 st db))).

End JoinTwice.

(** ** The unit price of a group order *)

(** The claim: below the threshold the group order goes at the regular
    price of its material, from the threshold on at the discounted price. *)
Definition discount_unlocked_at_threshold (go : GroupOrder) (material : Materials.Row)
    : Prop :=
  ((GroupOrders.total_quantity (row go) < GroupOrders.min_quantity (row go))%Qc ->
   VendorDashboard.cardPrice go = Materials.price material)
  /\ ((GroupOrders.min_quantity (row go) <= GroupOrders.total_quantity (row go))%Qc ->
      VendorDashboard.cardPrice go = GroupOrders.current_price (row go)).

(** The columns of [group_orders] that carry the price, the threshold and
    the status. *)
Definition pricing_columns (db : Supabase.Database)
    : list (string * number * number * string) :=
  map (fun r => (GroupOrders.id r, GroupOrders.current_price r,
                 GroupOrders.min_quantity r, GroupOrders.status r))
      (Supabase.group_orders db).

(** ** Order status and cart invariants *)

(** The three status changes the claim allows. *)
Definition allowed_transition (old new : string) : Prop :=
  (old = "pending" /\ new = "confirmed")
  \/ (old = "pending" /\ new = "cancelled")
  \/ (old = "confirmed" /\ new = "delivered").

(** A row before and after a click: untouched, or changed in its status
    only, along an allowed transition. *)
Definition kept_or_allowed (r r' : Orders.Row) : Prop :=
  r' = r
  \/ (r' = Orders.update_status (Orders.status r') r
      /\ allowed_transition (Orders.status r) (Orders.status r')).

(** A row before and after a click, whatever list the click was made
    on: untouched, or changed in its status only, to one of the three
    statuses the buttons carry. *)
Definition kept_or_restatused (r r' : Orders.Row) : Prop :=
  r' = r
  \/ (r' = Orders.update_status (Orders.status r') r
      /\ In (Orders.status r') ["confirmed"; "cancelled"; "delivered"]).

(** At most one cart row for each vendor and material. *)
Definition one_row_per_pair (db : Supabase.Database) : Prop :=
  forall vendor material,
    (length (VendorDashboard.cart_rows_of vendor material db) <= 1)%nat.

Module CartSample.
Import Supabase.

Definition cart_state : VendorDashboard.State :=
  VendorDashboard.mkState (Some SampleData.vendor2)
    (Some SampleData.vendor2_profile) [SampleData.turmeric] [] false
    false false None None false [].

Definition gen_a : Generated := mkGenerated "c1" 1000%Z "".
Definition gen_b : Generated := mkGenerated "c2" 1001%Z "".

Definition empty_cart_db : Database :=
  mkDatabase [SampleData.turmeric] [] [] [] [] [] [].

(** A cart holding one row of quantity 0 for (v2, m1). *)
Definition zero_row_db : Database :=
  mkDatabase [SampleData.turmeric] [] []
    [CartItems.mk "c1" "v2" "m1" (num 0)] [] [] [].

(** A cart holding one row of quantity 2 for (v2, m1). *)
Definition two_units_db : Database :=
  mkDatabase [SampleData.turmeric] [] []
    [CartItems.mk "c1" "v2" "m1" (num 2)] [] [] [].
End CartSample.

(** ** The analytics figures *)

(** The claim: the figures depend on the fetched data alone. *)
Definition figures_determined_by_fetched_data : Prop :=
  forall db r1 r2,
    fst (Analytics.calculateVolatility db r1)
    = fst (Analytics.calculateVolatility db r2).

(** [Math.random()] returns a number from 0 (included) to 1 (excluded). *)
Definition in_unit_interval (r : Analytics.Rng) : Prop :=
  forall i, (num 0 <= Analytics.draws r i)%Qc /\ (Analytics.draws r i < num 1)%Qc.

(** Two random sources that agree on their next [n] draws. *)
Definition same_next_draws (n : nat) (r1 r2 : Analytics.Rng) : Prop :=
  forall i, (i < n)%nat ->
    Analytics.draws r1 (Analytics.drawn r1 + i)
    = Analytics.draws r2 (Analytics.drawn r2 + i).

(** What one figure may be, whatever [Math.random] returns. *)
Definition plausible_figure (ms : list Materials.Row) (f : Analytics.MaterialVolatility)
    : Prop :=
  (exists m, In m ms
             /\ Analytics.material_name f = Materials.name m
             /\ Analytics.avg_price f = Materials.price m)
  /\ (num 0 <= Analytics.volatility f)%Qc
  /\ (Analytics.volatility f <= num 20)%Qc
  /\ (exists z, (1 <= z <= 10)%Z /\ Analytics.price_changes f = num z).

Module RandomSample.
Definition always_zero : Analytics.Rng := Analytics.mkRng (fun _ => num 0) 0.
Definition always_half : Analytics.Rng := Analytics.mkRng (fun _ => Q2Qc (1 # 2)) 0.
End RandomSample.

(** ** Object literals used as maps *)

Module JsObject.

(** The property names an object literal inherits from [Object.prototype]:
    reading one of them on [{}] gives a function or an object, never
    [undefined]. *)
Definition prototype_keys : list string :=
  ["constructor"; "__defineGetter__"; "__defineSetter__"; "hasOwnProperty";
   "__lookupGetter__"; "__lookupSetter__"; "isPrototypeOf";
   "propertyIsEnumerable"; "toString"; "valueOf"; "__proto__";
   "toLocaleString"].

Definition inherited (k : string) : bool :=
  existsb (String.eqb k) prototype_keys.

(** The own properties of an object, in the order of their creation. *)
Definition t (V : Type) : Type := list (string * V).

Fixpoint push_own {V : Type} (k : string) (v : V) (o : t (list V)) : t (list V) :=
  match o with
  | [] => [(k, [v])]
  | (k', vs) :: rest =>
      if String.eqb k' k then (k', vs ++ [v]) :: rest
      else (k', vs) :: push_own k v rest
  end.

(** [if (!o[k]) o[k] = []; o[k].push(v)].  For an inherited name [o[k]] is
    truthy and has no [push]: the call throws ([None]). *)
Definition group_push {V : Type} (k : string) (v : V) (o : t (list V))
    : option (t (list V)) :=
  if inherited k then None else Some (push_own k v o).

Definition digit (c : Ascii.ascii) : option N :=
  let n := Ascii.N_of_ascii c in
  if (N.leb 48 n && N.leb n 57)%bool then Some (n - 48)%N else None.

Fixpoint digits_value (s : string) (acc : N) : option N :=
  match s with
  | EmptyString => Some acc
  | String c rest =>
      match digit c with
      | Some d => digits_value rest (acc * 10 + d)%N
      | None => None
      end
  end.

(** A key is an array index when it is the canonical decimal form of an
    integer from 0 to 2^32 - 2. *)
Definition array_index (k : string) : option N :=
  match k with
  | EmptyString => None
  | String c _ =>
      match digits_value k 0 with
      | Some n =>
          if ((String.eqb k "0" || negb (Ascii.eqb c (Ascii.ascii_of_N 48)))
              && N.leb n 4294967294)%bool
          then Some n else None
      | None => None
      end
  end.

Definition is_index (k : string) : bool :=
  match array_index k with Some _ => true | None => false end.

Definition index_value (k : string) : N :=
  match array_index k with Some n => n | None => 0%N end.

(** [Object.entries]: array-index keys first, in ascending numeric order,
    then the other keys in the order of their creation. *)
Definition entries {V : Type} (o : t V) : list (string * V) :=
  stable_sort (fun a b => N.leb (index_value (fst a)) (index_value (fst b)))
    (filter (fun kv => is_index (fst kv)) o)
  ++ filter (fun kv => negb (is_index (fst kv))) o.

End JsObject.

(** ** Cart.tsx *)

Module Cart.
Import Supabase.

(** The [CartItem] object: a [cart_items] row with its material embedded. *)
Record CartItem := mkCartItem {
  item_row : CartItems.Row;
  item_materials : option Materials.Row
}.

Record State := mkState {
  cartItems : list CartItem;
  loading : bool;
  checkingOut : bool;
  toasts : list string
}.

(** [.from('cart_items').select(..).eq('vendor_id', user.id)] *)
Definition select_cart_items (uid : string) (db : Database) : list CartItem :=
  map (fun r => mkCartItem r (embed_material db (CartItems.material_id r)))
    (filter (fun r => String.eqb (CartItems.vendor_id r) uid) (cart_items db)).

Definition fetchCartItems (user : option User) (st : State) (db : Database)
    : State :=
  match user with
  | None => st
  | Some u =>
      mkState (select_cart_items (user_id u) db) false (checkingOut st) (toasts st)
  end.

Definition removeFromCart (cartItemId : string) (st : State) (db : Database)
    : State * Database :=
  let db' :=
    with_cart_items
      (filter (fun r => negb (String.eqb (CartItems.id r) cartItemId))) db in
  (mkState
     (filter (fun item => negb (String.eqb (CartItems.id (item_row item)) cartItemId))
        (cartItems st))
     (loading st) (checkingOut st) (toasts st ++ ["Item removed"]),
   db').

Definition updateQuantity (cartItemId : string) (newQuantity : number)
    (st : State) (db : Database) : State * Database :=
  if geb (num 0) newQuantity
  then removeFromCart cartItemId st db
  else
    let db' :=
      with_cart_items
        (update_eq_id CartItems.id (CartItems.update_quantity newQuantity)
           cartItemId)
        db in
    (mkState
       (map (fun item =>
               if String.eqb (CartItems.id (item_row item)) cartItemId
               then mkCartItem (CartItems.update_quantity newQuantity (item_row item))
                      (item_materials item)
               else item)
          (cartItems st))
       (loading st) (checkingOut st) (toasts st),
     db').

(** The minus button of an item: disabled at a quantity of 1 or less. *)
Definition minusDisabled (item : CartItem) : bool :=
  geb (num 1) (CartItems.quantity (item_row item)).

Definition onMinusClick (item : CartItem) (st : State) (db : Database)
    : State * Database :=
  updateQuantity (CartItems.id (item_row item))
    (CartItems.quantity (item_row item) - num 1) st db.

(** The first loop of [checkout]: the items grouped by the supplier of
    their material.  [None] stands for the exception a missing material or
    an inherited key raises. *)
Fixpoint group_by_supplier (items : list CartItem)
    (acc : JsObject.t (list (CartItems.Row * Materials.Row)))
    : option (JsObject.t (list (CartItems.Row * Materials.Row))) :=
  match items with
  | [] => Some acc
  | item :: rest =>
      match item_materials item with
      | None => None
      | Some m =>
          match JsObject.group_push (Materials.supplier_id m) (item_row item, m) acc with
          | None => None
          | Some acc' => group_by_supplier rest acc'
          end
      end
  end.

(** One element of the array passed to [.insert(orders)], before the
    database fills its generated columns. *)
Definition order_payload (uid supplierId : string) (item : CartItems.Row)
    (m : Materials.Row) (g : Generated) : Orders.Row :=
  Orders.mk (gen_id g) uid supplierId (CartItems.material_id item)
    (CartItems.quantity item) (Materials.price m * CartItems.quantity item)
    "individual" (gen_status g) (gen_created_at g).

Definition supplier_orders (uid : string)
    (group : string * list (CartItems.Row * Materials.Row))
    : list (Generated -> Orders.Row) :=
  map (fun im => order_payload uid (fst group) (fst im) (snd im)) (snd group).

(** The inserts of all suppliers, one after the other; [gen i] holds the
    generated columns of the [i]-th inserted row. *)
Definition insert_rows {A : Type} (payloads : list (Generated -> A))
    (gen : nat -> Generated) (table : list A) : list A :=
  table ++ map (fun p => snd p (gen (fst p)))
             (combine (seq 0 (length payloads)) payloads).

(** The items with their material at hand; past the grouping loop every
    item has one. *)
Definition resolved (items : list CartItem) : list (CartItems.Row * Materials.Row) :=
  flat_map (fun item =>
              match item_materials item with
              | Some m => [(item_row item, m)]
              | None => []
              end)
    items.

(** [cartItems.reduce((sum, item) => sum + item.materials.price * item.quantity, 0)] *)
Definition totalAmount (items : list (CartItems.Row * Materials.Row)) : number :=
  fold_left (fun sum im => sum + Materials.price (snd im) * CartItems.quantity (fst im))
    items (num 0).

(** The values the checkout summary text is built from: the number of
    items and the total. *)
Definition checkout_summary (totalItems : nat) (total : number)
    : OrderSummaryLogs.Summary :=
  OrderSummaryLogs.mkSummary "" (num (Z.of_nat totalItems)) "" (num 0) total "".

(** The boolean tells whether [onClose] and [onRefresh] were called.  An
    insert without a select returns no data, so the logged [order_id] is
    the empty string. *)
Definition checkout (user : option User) (gen : nat -> Generated)
    (st : State) (db : Database) : State * Database * bool :=
  match user with
  | None => (st, db, false)
  | Some u =>
      match cartItems st with
      | [] => (st, db, false)
      | _ :: _ =>
          match group_by_supplier (cartItems st) [] with
          | None =>
              (mkState (cartItems st) (loading st) false
                 (toasts st ++ ["Checkout failed"]), db, false)
          | Some ordersBySupplier =>
              let payloads :=
                concat (map (supplier_orders (user_id u))
                          (JsObject.entries ordersBySupplier)) in
              let db1 := with_orders (insert_rows payloads gen) db in
              let total := totalAmount (resolved (cartItems st)) in
              let db2 :=
                with_order_summary_logs
                  (insert (OrderSummaryLogs.mk (user_id u) ""
                             (checkout_summary (length (cartItems st)) total)))
                  db1 in
              let db3 :=
                with_cart_items
                  (filter (fun r => negb (String.eqb (CartItems.vendor_id r) (user_id u))))
                  db2 in
              (mkState [] (loading st) false
                 (toasts st ++ ["Checkout successful!"]), db3, true)
          end
      end
  end.

End Cart.

(** ** SupplierDashboard.tsx: the add-material dialog *)

Module SupplierCatalog.
Import Supabase.

Record NewMaterial := mkNewMaterial {
  name : string;
  description : string;
  price : number;
  stock : number;
  unit : string
}.

(** The form as [useState] creates it and as [addMaterial] resets it. *)
Definition emptyForm : NewMaterial := mkNewMaterial "" "" (num 0) (num 0) "kg".

Record Dialog := mkDialog {
  newMaterial : NewMaterial;
  isAddingMaterial : bool
}.

Definition with_materials (f : list Materials.Row -> list Materials.Row)
    (db : Database) : Database :=
  mkDatabase (f (materials db)) (group_orders db) (orders db) (cart_items db)
    (group_order_participants db) (order_summary_logs db) (price_history db).

Definition addMaterial (g : Generated) (dlg : Dialog)
    (st : SupplierDashboard.State) (db : Database)
    : Dialog * SupplierDashboard.State * Database :=
  match SupplierDashboard.user st with
  | None => (dlg, st, db)
  | Some u =>
      let form := newMaterial dlg in
      let db' :=
        with_materials
          (insert (Materials.mk (gen_id g) (name form) (Some (description form))
                     (price form) (stock form) (unit form) (user_id u)))
          db in
      let st' :=
        SupplierDashboard.mkState (SupplierDashboard.user st)
          (SupplierDashboard.materials st) (SupplierDashboard.orders st)
          (SupplierDashboard.loading st)
          (SupplierDashboard.toasts st ++ ["Material added!"]) in
      (mkDialog emptyForm false, SupplierDashboard.fetchMaterials st' db', db')
  end.

(** [getStatusColor] *)
Definition getStatusColor (status : string) : string :=
  if String.eqb status "pending" then "warning"
  else if String.eqb status "confirmed" then "success"
  else if String.eqb status "delivered" then "secondary"
  else if String.eqb status "cancelled" then "destructive"
  else "secondary".

End SupplierCatalog.

(** ** useProfile.ts and Dashboard.tsx *)

Module Routing.

Record ProfileState := mkProfileState {
  profile : option Profile;
  loading : bool;
  error : bool
}.

(** The state [useProfile] settles in for the signed-in user and the rows
    of [profiles]: [.eq('user_id', user.id).maybeSingle()]. *)
Definition useProfile (user : option User) (profiles : list Profile) : ProfileState :=
  match user with
  | None => mkProfileState None false false
  | Some u =>
      match filter (fun p => String.eqb (profile_user_id p) (user_id u)) profiles with
      | [] => mkProfileState None false false
      | [p] => mkProfileState (Some p) false false
      | _ :: _ :: _ => mkProfileState None false true
      end
  end.

Inductive View :=
| LoadingView
| ProfileSetupRequired
| VendorDashboardView
| SupplierDashboardView
| UnknownRole.

Definition Dashboard (ps : ProfileState) : View :=
  if loading ps then LoadingView
  else
    match profile ps with
    | None => ProfileSetupRequired
    | Some p =>
        if String.eqb (role p) "vendor" then VendorDashboardView
        else if String.eqb (role p) "supplier" then SupplierDashboardView
        else UnknownRole
    end.

End Routing.

(** ** Analytics.tsx: the price history and its charts *)

Module PriceCharts.
Import Supabase.
Module Table := PriceHistory.

(** An element of the [priceHistory] state. *)
Record PriceHistory := mkPriceHistory {
  material_id : string;
  date : timestamp;
  price : number;
  material_name : string
}.

(** [(item.materials as any)?.name || 'Unknown'] *)
Definition name_or_unknown (m : option Materials.Row) : string :=
  match m with
  | Some r => if String.eqb (Materials.name r) "" then "Unknown" else Materials.name r
  | None => "Unknown"
  end.

(** [.order('date', { ascending: true }).limit(100)], then the map to the
    chart records. *)
Definition fetchPriceHistory (db : Database) : list PriceHistory :=
  map (fun r =>
         mkPriceHistory (Table.material_id r)
           (Table.date r) (Table.price r)
           (name_or_unknown (embed_material db (Table.material_id r))))
    (firstn 100
       (stable_sort
          (fun a b => Z.leb (Table.date a) (Table.date b))
          (price_history db))).

(** [groupedPriceData]: the [(date, price)] points of each material name.
    [None] stands for the exception an inherited name raises. *)
Fixpoint groupedPriceData_from (history : list PriceHistory)
    (acc : JsObject.t (list (timestamp * number)))
    : option (JsObject.t (list (timestamp * number))) :=
  match history with
  | [] => Some acc
  | item :: rest =>
      match JsObject.group_push (material_name item) (date item, price item) acc with
      | None => None
      | Some acc' => groupedPriceData_from rest acc'
      end
  end.

Definition groupedPriceData (history : list PriceHistory)
    : option (JsObject.t (list (timestamp * number))) :=
  groupedPriceData_from history [].

(** The [change] of a bar: the number 0 for a single point, else the text
    of the percentage with two decimals, which is not a finite number when
    the previous price is 0. *)
Inductive Change :=
| Zero
| Fixed (percent : number)
| NotFinite.

Record Bar := mkBar {
  bar_name : string;
  bar_price : number;
  bar_change : Change
}.

Definition last_two {A : Type} (l : list A) : option (option A * A) :=
  match rev l with
  | [] => None
  | z :: [] => Some (None, z)
  | z :: y :: _ => Some (Some y, z)
  end.

Definition bar_of (entry : string * list (timestamp * number)) : Bar :=
  match last_two (snd entry) with
  | None => mkBar (fst entry) (num 0) Zero
  | Some (None, z) =>
      mkBar (fst entry) (if truthy (snd z) then snd z else num 0) Zero
  | Some (Some y, z) =>
      mkBar (fst entry) (if truthy (snd z) then snd z else num 0)
        (if truthy (snd y)
         then Fixed (Analytics.toFixed2 ((snd z - snd y) / snd y * num 100))
         else NotFinite)
  end.

(** [latestPrices] *)
Definition latestPrices (grouped : JsObject.t (list (timestamp * number)))
    : list Bar :=
  firstn 6 (map bar_of (JsObject.entries grouped)).

(** The count on the card of high-volatility items. *)
Definition highVolatilityCount (figs : list Analytics.MaterialVolatility) : nat :=
  length (filter (fun m => gtb (Analytics.volatility m) (num 10)) figs).

End PriceCharts.

(** ** GroupOrderModal.tsx: the discount badge *)

Module DiscountBadge.

(** [Math.round]: the nearest integer, the larger one on a tie. *)
Definition Math_round (x : number) : number := num (Qfloor (x + Q2Qc (1 # 2))%Qc).

(** [discountPercentage]; [None] when the regular price is 0 and the
    quotient is not a finite number. *)
Definition discountPercentage (material : Materials.Row)
    (form : GroupOrderModal.FormData) : option number :=
  if truthy (Materials.price material)
  then Some (Math_round
               ((Materials.price material - GroupOrderModal.discountedPrice form)
                / Materials.price material * num 100))
  else None.

End DiscountBadge.

(** ** VendorDashboard.tsx: the search box *)

Module VendorSearch.

(** [s.includes(t)] on strings. *)
Definition string_includes (s t : string) : bool :=
  match String.index 0 t s with
  | Some _ => true
  | None => false
  end.

Section WithLowerCase.

(** [String.prototype.toLowerCase], a built-in the code relies on. *)
Variable toLowerCase : string -> string.

Definition matches (searchTerm : string) (material : Materials.Row) : bool :=
  string_includes (toLowerCase (Materials.name material)) (toLowerCase searchTerm)
  || match Materials.description material with
     | Some d => string_includes (toLowerCase d) (toLowerCase searchTerm)
     | None => false
     end.

Definition filteredMaterials (searchTerm : string) (materials : list Materials.Row)
    : list Materials.Row :=
  filter (matches searchTerm) materials.

End WithLowerCase.

End VendorSearch.

(** ** Cart invariants *)

(** Every cart row has a quantity above 0. *)
Definition positive_quantities (db : Supabase.Database) : Prop :=
  forall r, In r (Supabase.cart_items db) -> (num 0 < CartItems.quantity r)%Qc.

Module CartFlow.
Import Supabase.

Definition cart_view : Cart.State :=
  Cart.fetchCartItems (Some SampleData.vendor2) (Cart.mkState [] true false [])
    CartSample.two_units_db.

(** Two vendors' carts over two suppliers. *)
Definition saffron : Materials.Row :=
  Materials.mk "m3" "Saffron" None (num 500) (num 5) "g" "s2".

Definition market_db : Database :=
  mkDatabase [SampleData.turmeric; SampleData.chili; saffron] [] []
    [CartItems.mk "c1" "v2" "m1" (num 2);
     CartItems.mk "c2" "v1" "m1" (num 1);
     CartItems.mk "c3" "v2" "m3" (num 3);
     CartItems.mk "c4" "v2" "m1" (num 4)] [] [] [].

Definition market_view : Cart.State :=
  Cart.fetchCartItems (Some SampleData.vendor2) (Cart.mkState [] true false [])
    market_db.

Definition gen_seq (i : nat) : Generated :=
  mkGenerated (String (Ascii.ascii_of_nat (97 + i)) "") 3000%Z "pending".

(** The Add to Cart button of turmeric clicked twice by vendor v2 on an
    empty cart. *)
Definition added_twice : Database :=
  snd (VendorDashboard.onAddToCartClick SampleData.turmeric CartSample.gen_b
         CartSample.cart_state
         (snd (VendorDashboard.onAddToCartClick SampleData.turmeric CartSample.gen_a
                 CartSample.cart_state CartSample.empty_cart_db))).

(** The databases the application can leave, from a [cart_items] table
    that is empty: by the Add to Cart button, by the handlers of the cart
    dialog with any argument, and by any handler that leaves [cart_items]
    alone. *)
Inductive reachable : Database -> Prop :=
| reach_empty : forall db,
    cart_items db = [] -> reachable db
| reach_add : forall db material g st,
    reachable db ->
    reachable (snd (VendorDashboard.onAddToCartClick material g st db))
| reach_update : forall db cartItemId newQuantity st,
    reachable db ->
    reachable (snd (Cart.updateQuantity cartItemId newQuantity st db))
| reach_remove : forall db cartItemId st,
    reachable db ->
    reachable (snd (Cart.removeFromCart cartItemId st db))
| reach_checkout : forall db user gen st,
    reachable db ->
    reachable (snd (fst (Cart.checkout user gen st db)))
| reach_other : forall db db',
    reachable db ->
    cart_items db' = cart_items db ->
    reachable db'.
End CartFlow.

(** ** What a checkout writes *)

(** The columns of an order row the vendor's code chooses. *)
Definition order_view (r : Orders.Row)
    : string * string * string * number * number * string :=
  (Orders.vendor_id r, Orders.supplier_id r, Orders.material_id r,
   Orders.quantity r, Orders.total_price r, Orders.type r).

(** The order a cart item stands for. *)
Definition item_order (uid : string) (im : CartItems.Row * Materials.Row)
    : string * string * string * number * number * string :=
  (uid, Materials.supplier_id (snd im), CartItems.material_id (fst im),
   CartItems.quantity (fst im),
   (Materials.price (snd im) * CartItems.quantity (fst im))%Qc, "individual").

Definition sum_numbers (l : list number) : number := fold_left Qcplus l (num 0).

(** Every item has its material, and no supplier id is a name that
    objects inherit. *)
Definition groupable (items : list Cart.CartItem) : Prop :=
  forall item, In item items ->
    exists m, Cart.item_materials item = Some m
              /\ JsObject.inherited (Materials.supplier_id m) = false.

(** ** Several vendors joining one group order *)

Module GroupFlow.
Import Supabase.

(** The dashboard of vendor [v] as it mounts. *)
Definition vendor_state (v : User) : VendorDashboard.State :=
  VendorDashboard.mkState (Some v) None [] [] true false false None None false [].

(** Vendor [v] opens the dashboard at time [t], which fetches the group
    orders, and joins group order [k] with quantity [q]. *)
Definition join_in_turn (k : string) (db : Database)
    (joiner : User * number * timestamp) : Database :=
  let '(v, q, t) := joiner in
  snd (VendorDashboard.joinGroupOrder k q t
         (VendorDashboard.fetchGroupOrders t (vendor_state v) db) db).

Definition join_all (k : string) (joiners : list (User * number * timestamp))
    (db : Database) : Database :=
  fold_left (join_in_turn k) joiners db.

(** The row [r] with the joiners appended and their quantities added. *)
Definition joined_by (joiners : list (User * number * timestamp))
    (r : GroupOrders.Row) : GroupOrders.Row :=
  GroupOrders.mk (GroupOrders.id r) (GroupOrders.material_id r)
    (GroupOrders.total_quantity r
     + sum_numbers (map (fun j => snd (fst j)) joiners))
    (GroupOrders.current_price r) (GroupOrders.min_quantity r)
    (GroupOrders.participants r ++ map (fun j => user_id (fst (fst j))) joiners)
    (GroupOrders.expires_at r) (GroupOrders.status r).

Definition three_joiners : list (User * number * timestamp) :=
  [(mkUser "v2", num 5, 1100%Z); (mkUser "v3", num 10, 1200%Z);
   (mkUser "v4", num 1, 1300%Z)].
End GroupFlow.

(** ** A page that shows an older list *)

Module TwoPages.
Import Supabase.

(** A page of the second version has loaded its list at time [t] from the
    table [listed]; the vendor clicks join on it when the table is
    [current].  [t'] is the clock of the refetch that ends the join. *)
Definition join_from (k : string) (q : number) (t t' : timestamp)
    (page : VendorDashboard.State) (listed current : Database) : Database :=
  snd (VendorDashboard.joinGroupOrder k q t'
         (VendorDashboard.fetchGroupOrders t page listed) current).

(** The same on a page of the first version. *)
Definition join_from_v1 (k : string) (t t' : timestamp)
    (page : VendorDashboardV1.State) (listed current : Database) : Database :=
  snd (VendorDashboardV1.joinGroupOrder k t'
         (VendorDashboardV1.fetchGroupOrders t page listed) current).

Definition vendor3 : User := mkUser "v3".

Definition vendor_state_v1 (v : User) : VendorDashboardV1.State :=
  VendorDashboardV1.mkState (Some v) None [] [] true [].

(** Vendor v3 loads the dashboard at 1050 and joins g1. *)
Definition db_v3_joined : Database :=
  join_from "g1" (num 1) 1050%Z 1060%Z (GroupFlow.vendor_state vendor3)
    SampleData.db0 SampleData.db0.

Definition db_v3_joined_v1 : Database :=
  join_from_v1 "g1" 1050%Z 1060%Z (vendor_state_v1 vendor3)
    SampleData.db0 SampleData.db0.

(** Vendor v2 joins g1 at 1200 on the page loaded at 1000, before v3
    joined. *)
Definition db_v2_joined_late : Database :=
  join_from "g1" (num 1) 1000%Z 1200%Z (GroupFlow.vendor_state SampleData.vendor2)
    SampleData.db0 db_v3_joined.

Definition db_v2_joined_late_v1 : Database :=
  join_from_v1 "g1" 1000%Z 1200%Z (vendor_state_v1 SampleData.vendor2)
    SampleData.db0 db_v3_joined_v1.
End TwoPages.

(** ** An order list behind the table *)

Module StaleOrders.
Import Supabase.

(** The order list of supplier s1 as fetched from the sample database:
    o1 is pending and its card has both buttons. *)
Definition listed : SupplierDashboard.State :=
  SupplierDashboard.fetchOrders SampleData.supplier_state SampleData.db0.

(** The supplier declines o1 ... *)
Definition db_declined : Database :=
  snd (SupplierDashboard.updateOrderStatus "o1" "cancelled" listed SampleData.db0).

(** ... and accepts it on the card the page still shows. *)
Definition db_accepted : Database :=
  snd (SupplierDashboard.updateOrderStatus "o1" "confirmed" listed db_declined).
End StaleOrders.

(** ** Sample expiry dates *)

Module ExpirySample.
Import Supabase.

(** 25 March 2026, 11:00 UTC: noon in Berlin, four days before the clocks
    go forward. *)
Definition noon_25_march : timestamp := 1774436400000%Z.

Definition in_days (days : number) : GroupOrderModal.State :=
  GroupOrderModal.mkState false
    (GroupOrderModal.setExpiryDays days
       (GroupOrderModal.defaultFormData (Some SampleData.turmeric)))
    [].

(** The database after vendor v2 has formed a group order for turmeric. *)
Definition formed (tz : JsDate.TimeZone) (now : timestamp) (days : number)
    : Database :=
  snd (fst (GroupOrderModal.createGroupOrder tz (Some SampleData.vendor2)
              (Some SampleData.turmeric) now SampleData.gen_open (in_days days)
              SampleData.db0)).
End ExpirySample.

(** ** Sample profiles and a lower-casing for plain letters *)

Module RoutingSample.
Definition profiles : list Profile :=
  [mkProfile "v2" "Vendor Two" "vendor"; mkProfile "s1" "Supplier One" "supplier";
   mkProfile "d1" "Double" "vendor"; mkProfile "d1" "Double" "supplier"].
End RoutingSample.

Module SearchSample.
Definition lower_char (c : Ascii.ascii) : Ascii.ascii :=
  let n := Ascii.nat_of_ascii c in
  if (Nat.leb 65 n && Nat.leb n 90)%bool then Ascii.ascii_of_nat (n + 32) else c.

Fixpoint lower (s : string) : string :=
  match s with
  | EmptyString => EmptyString
  | String c rest => String (lower_char c) (lower rest)
  end.
End SearchSample.

(** ** The grouping of the price history *)

(** What the grouping has built once the records [seen] are processed:
    distinct names, under each name the points of its records in their
    order, and a group for every record. *)
Definition grouped_so_far (acc : JsObject.t (list (timestamp * number)))
    (seen : list PriceCharts.PriceHistory) : Prop :=
  NoDup (map fst acc)
  /\ (forall k pts, In (k, pts) acc ->
        pts = map (fun h => (PriceCharts.date h, PriceCharts.price h))
                (filter (fun h => String.eqb (PriceCharts.material_name h) k) seen)
        /\ pts <> [])
  /\ (forall h, In h seen -> In (PriceCharts.material_name h) (map fst acc)).

(** ** Sample price history *)

Module ChartSample.
Import Supabase.

Definition history_db : Database :=
  mkDatabase
    [SampleData.turmeric; SampleData.chili;
     Materials.mk "m7" "constructor" None (num 5) (num 1) "kg" "s1"]
    [] [] [] [] []
    [PriceHistory.mk "p1" "m1" 30%Z (num 100) "s1";
     PriceHistory.mk "p2" "m2" 10%Z (num 80) "s2";
     PriceHistory.mk "p3" "m1" 20%Z (num 90) "s1";
     PriceHistory.mk "p4" "mX" 40%Z (num 7) "s9"].

Definition broken_db : Database :=
  mkDatabase (materials history_db) [] [] [] [] []
    (price_history history_db ++ [PriceHistory.mk "p5" "m7" 50%Z (num 5) "s1"]).
End ChartSample.

(** * Properties *)

(** ** Generic facts on the backend operations *)

Lemma insert_sorted_perm {A : Type} (p : A -> A -> bool) (a : A) (l : list A) :
  Permutation (insert_sorted p a l) (a :: l).
Proof.
  induction l as [|x xs IH]; simpl.
  - apply Permutation_refl.
  - destruct (p a x).
    + apply Permutation_refl.
    + eapply Permutation_trans.
      * apply perm_skip, IH.
      * apply perm_swap.
Qed.

Lemma stable_sort_perm {A : Type} (p : A -> A -> bool) (l : list A) :
  Permutation (stable_sort p l) l.
Proof.
  induction l as [|x xs IH]; simpl.
  - apply perm_nil.
  - eapply Permutation_trans.
    + apply insert_sorted_perm.
    + apply perm_skip, IH.
Qed.

Lemma stable_sort_In {A : Type} (p : A -> A -> bool) (l : list A) (a : A) :
  In a (stable_sort p l) <-> In a l.
Proof.
  split; apply Permutation_in.
  - apply stable_sort_perm.
  - apply Permutation_sym, stable_sort_perm.
Qed.

Lemma stable_sort_length {A : Type} (p : A -> A -> bool) (l : list A) :
  length (stable_sort p l) = length l.
Proof. apply Permutation_length, stable_sort_perm. Qed.

Lemma select_group_orders_In (now : timestamp) (db : Supabase.Database)
    (go : GroupOrder) :
  In go (select_group_orders now db) ->
  In (row go) (Supabase.group_orders db)
  /\ GroupOrders.status (row go) = "open"
  /\ (now < GroupOrders.expires_at (row go))%Z.
Proof.
  unfold select_group_orders. rewrite in_map_iff.
  intros [r [Hgo Hr]]. subst go. simpl.
  apply filter_In in Hr. destruct Hr as [Hin Hb].
  unfold open_and_unexpired in Hb. apply andb_true_iff in Hb.
  destruct Hb as [Hs He].
  apply String.eqb_eq in Hs. apply Z.ltb_lt in He. auto.
Qed.

Lemma find_none_of_all_differ (l : list GroupOrder) (k : string) :
  (forall go, In go l -> GroupOrders.id (row go) <> k) ->
  find (fun go => String.eqb (GroupOrders.id (row go)) k) l = None.
Proof.
  intros H. induction l as [|x xs IH]; simpl; [reflexivity|].
  destruct (String.eqb_spec (GroupOrders.id (row x)) k) as [E|E].
  - exfalso. apply (H x); [left; reflexivity | exact E].
  - apply IH. intros go Hgo. apply H. right. exact Hgo.
Qed.

(** ** The list of group orders on the vendor dashboard *)

Example sample_group_order_list :
  map (fun go => GroupOrders.id (row go))
      (VendorDashboard.groupOrders SampleData.v2_state) = ["g1"].
Proof. reflexivity. Qed.

(** C8. After [fetchGroupOrders], in either version of the vendor
    dashboard, every group order of the displayed list has status 'open'
    and an [expires_at] strictly later than the clock read by the fetch.
    The join handler looks the group order up in that list, so a join for
    an id the list does not hold (a closed or expired group order) leaves
    the state and the database as they are. *)
Theorem group_order_list_open_and_unexpired
    (now : timestamp) (db : Supabase.Database)
    (st1 : VendorDashboardV1.State) (st2 : VendorDashboard.State) :
  let s1 := VendorDashboardV1.fetchGroupOrders now st1 db in
  let s2 := VendorDashboard.fetchGroupOrders now st2 db in
  (forall go,
      In go (VendorDashboardV1.groupOrders s1)
      \/ In go (VendorDashboard.groupOrders s2) ->
      GroupOrders.status (row go) = "open"
      /\ (now < GroupOrders.expires_at (row go))%Z)
  /\ (forall k now' db',
         (forall go, In go (VendorDashboardV1.groupOrders s1) ->
                     GroupOrders.id (row go) <> k) ->
         VendorDashboardV1.joinGroupOrder k now' s1 db' = (s1, db'))
  /\ (forall k q now' db',
         (forall go, In go (VendorDashboard.groupOrders s2) ->
                     GroupOrders.id (row go) <> k) ->
         VendorDashboard.joinGroupOrder k q now' s2 db' = (s2, db')).
Proof.
  intros s1 s2. split; [|split].
  - intros go [H|H]; simpl in H;
      apply select_group_orders_In in H; tauto.
  - intros k now' db' Hk. unfold VendorDashboardV1.joinGroupOrder.
    destruct (VendorDashboardV1.user s1); [|reflexivity].
    rewrite (find_none_of_all_differ _ _ Hk). reflexivity.
  - intros k q now' db' Hk. unfold VendorDashboard.joinGroupOrder.
    destruct (VendorDashboard.user s2); [|reflexivity].
    rewrite (find_none_of_all_differ _ _ Hk). reflexivity.
Qed.

Lemma group_order_list_open_and_unexpired_witness :
  (GroupOrders.status SampleData.open_order = "open"
   /\ (1000 < GroupOrders.expires_at SampleData.open_order)%Z)
  /\ VendorDashboard.joinGroupOrder "g2" (num 1) 1500%Z SampleData.v2_state
       SampleData.db0
     = (SampleData.v2_state, SampleData.db0).
Proof.
  pose proof (group_order_list_open_and_unexpired 1000%Z SampleData.db0
                SampleData.v1_state SampleData.v2_state) as [Hopen [_ Hjoin]].
  split.
  - apply (Hopen (mkGroupOrder SampleData.open_order (Some SampleData.turmeric))).
    right. simpl. left. reflexivity.
  - apply (Hjoin "g2" (num 1) 1500%Z SampleData.db0).
    intros go Hgo. simpl in Hgo. destruct Hgo as [Hgo|[]]. subst go. simpl.
    discriminate.
Defined.

(** ** The supplier dashboard's fetches *)

(** C6. For a signed-in supplier, [fetchMaterials] and [fetchOrders] store
    exactly the rows owned by that supplier: a material or an order is
    listed if and only if it is a row of its table whose [supplier_id] is
    the user's id, and the listed orders are a rearrangement of the owned
    rows, none dropped or repeated. *)
Theorem supplier_fetches_exactly_own_rows
    (db : Supabase.Database) (st : SupplierDashboard.State) (u : User) :
  SupplierDashboard.user st = Some u ->
  let st' := SupplierDashboard.fetchOrders (SupplierDashboard.fetchMaterials st db) db in
  (forall m, In m (SupplierDashboard.materials st') <->
             In m (Supabase.materials db) /\ Materials.supplier_id m = user_id u)
  /\ (forall r, In r (map SupplierDashboard.order_row (SupplierDashboard.orders st')) <->
                In r (Supabase.orders db) /\ Orders.supplier_id r = user_id u)
  /\ SupplierDashboard.materials st'
     = filter (fun m => String.eqb (Materials.supplier_id m) (user_id u))
         (Supabase.materials db)
  /\ Permutation
       (map SupplierDashboard.order_row (SupplierDashboard.orders st'))
       (filter (fun r => String.eqb (Orders.supplier_id r) (user_id u))
          (Supabase.orders db)).
Proof.
  intros Hu st'.
  assert (Hm : SupplierDashboard.materials st'
               = SupplierDashboard.select_materials (user_id u) db).
  { unfold st', SupplierDashboard.fetchOrders, SupplierDashboard.fetchMaterials.
    rewrite Hu. simpl. reflexivity. }
  assert (Ho : map SupplierDashboard.order_row (SupplierDashboard.orders st')
               = stable_sort
                   (fun a b => Z.leb (Orders.created_at b) (Orders.created_at a))
                   (filter (fun r => String.eqb (Orders.supplier_id r) (user_id u))
                      (Supabase.orders db))).
  { unfold st', SupplierDashboard.fetchOrders, SupplierDashboard.fetchMaterials.
    rewrite Hu. simpl.
    unfold SupplierDashboard.select_orders. rewrite map_map. simpl.
    apply map_id. }
  split; [|split; [|split]].
  - intros m. rewrite Hm. unfold SupplierDashboard.select_materials.
    rewrite filter_In, String.eqb_eq. tauto.
  - intros r. rewrite Ho, stable_sort_In, filter_In, String.eqb_eq. tauto.
  - exact Hm.
  - rewrite Ho. apply stable_sort_perm.
Qed.

Example supplier_fetch_sample :
  let st' := SupplierDashboard.fetchOrders
               (SupplierDashboard.fetchMaterials SampleData.supplier_state
                  SampleData.db0) SampleData.db0 in
  SupplierDashboard.materials st' = [SampleData.turmeric]
  /\ map SupplierDashboard.order_row (SupplierDashboard.orders st')
     = [SampleData.order3; SampleData.order1].
Proof. split; reflexivity. Qed.

Lemma supplier_fetches_exactly_own_rows_witness :
  In SampleData.order1
    (map SupplierDashboard.order_row
       (SupplierDashboard.orders
          (SupplierDashboard.fetchOrders
             (SupplierDashboard.fetchMaterials SampleData.supplier_state
                SampleData.db0) SampleData.db0)))
  <-> In SampleData.order1 (Supabase.orders SampleData.db0)
      /\ Orders.supplier_id SampleData.order1 = user_id SampleData.supplier1.
Proof.
  apply (proj1 (proj2 (supplier_fetches_exactly_own_rows SampleData.db0
                         SampleData.supplier_state SampleData.supplier1
                         eq_refl))).
Defined.

(** ** Joining a group order *)

Lemma unique_key {A : Type} (key : A -> string) (l : list A) (a b : A) :
  NoDup (map key l) -> In a l -> In b l -> key a = key b -> a = b.
Proof.
  induction l as [|x xs IH]; simpl; intros Hnd Ha Hb Hk; [contradiction|].
  inversion Hnd as [|? ? Hnotin Hnd']; subst.
  destruct Ha as [Ha|Ha], Hb as [Hb|Hb]; subst.
  - reflexivity.
  - exfalso. apply Hnotin. rewrite Hk. apply in_map. exact Hb.
  - exfalso. apply Hnotin. rewrite <- Hk. apply in_map. exact Ha.
  - apply IH; assumption.
Qed.

(** On a freshly fetched list, the lookup of a listed group order by id
    yields the stored row of that id. *)
Lemma find_listed_group_order (now : timestamp) (db : Supabase.Database)
    (go : GroupOrder) :
  NoDup (map GroupOrders.id (Supabase.group_orders db)) ->
  In go (select_group_orders now db) ->
  exists go',
    find (fun g => String.eqb (GroupOrders.id (row g)) (GroupOrders.id (row go)))
      (select_group_orders now db) = Some go'
    /\ row go' = row go.
Proof.
  intros Hnd Hin.
  destruct (find (fun g => String.eqb (GroupOrders.id (row g)) (GroupOrders.id (row go)))
              (select_group_orders now db)) as [go'|] eqn:Hf.
  - exists go'. split; [reflexivity|].
    apply find_some in Hf. destruct Hf as [Hin' Hid].
    apply String.eqb_eq in Hid.
    apply select_group_orders_In in Hin. apply select_group_orders_In in Hin'.
    apply (unique_key GroupOrders.id (Supabase.group_orders db)); tauto.
  - exfalso. apply (find_none _ _ Hf) in Hin.
    rewrite String.eqb_refl in Hin. discriminate.
Qed.

(** Rewriting the row of id [k] with values read from that same row. *)
Lemma update_from_own_row (k vendor : string) (q : number)
    (r0 : GroupOrders.Row) (l : list GroupOrders.Row) :
  (forall r, In r l -> GroupOrders.id r = k -> r = r0) ->
  Supabase.update_eq_id GroupOrders.id
    (GroupOrders.update_participants_total
       (GroupOrders.participants r0 ++ [vendor])
       (GroupOrders.total_quantity r0 + q)) k l
  = map (fun r => if String.eqb (GroupOrders.id r) k
                  then join_effect vendor q r else r) l.
Proof.
  intros Hown. unfold Supabase.update_eq_id.
  apply map_ext_in. intros r Hr.
  destruct (String.eqb_spec (GroupOrders.id r) k) as [E|E]; [|reflexivity].
  rewrite (Hown r Hr E). reflexivity.
Qed.

Lemma includes_false_iff (l : list string) (x : string) :
  includes l x = false <-> ~ In x l.
Proof.
  unfold includes. split.
  - intros H Hin. assert (Ht : existsb (String.eqb x) l = true).
    { apply existsb_exists. exists x. split; [exact Hin | apply String.eqb_refl]. }
    congruence.
  - intros Hn. destruct (existsb (String.eqb x) l) eqn:E; [|reflexivity].
    apply existsb_exists in E. destruct E as [y [Hy Hxy]].
    apply String.eqb_eq in Hxy. subst y. contradiction.
Qed.

(** A join writes the values of the copy its page holds. *)
Lemma join_writes_copy_v1 (k : string) (now' : timestamp) (u : User)
    (copy : GroupOrder) (page : VendorDashboardV1.State) (db : Supabase.Database) :
  VendorDashboardV1.user page = Some u ->
  find (fun g => String.eqb (GroupOrders.id (row g)) k)
    (VendorDashboardV1.groupOrders page) = Some copy ->
  includes (GroupOrders.participants (row copy)) (user_id u) = false ->
  Supabase.group_orders (snd (VendorDashboardV1.joinGroupOrder k now' page db))
  = Supabase.update_eq_id GroupOrders.id
      (GroupOrders.update_participants_total
         (GroupOrders.participants (row copy) ++ [user_id u])
         (GroupOrders.total_quantity (row copy) + num 1))
      k (Supabase.group_orders db).
Proof.
  intros Hu Hfind Hnew. unfold VendorDashboardV1.joinGroupOrder.
  rewrite Hu, Hfind, Hnew. reflexivity.
Qed.

Lemma join_writes_copy (k : string) (q : number) (now' : timestamp) (u : User)
    (copy : GroupOrder) (page : VendorDashboard.State) (db : Supabase.Database) :
  VendorDashboard.user page = Some u ->
  find (fun g => String.eqb (GroupOrders.id (row g)) k)
    (VendorDashboard.groupOrders page) = Some copy ->
  includes (GroupOrders.participants (row copy)) (user_id u) = false ->
  Supabase.group_orders (snd (VendorDashboard.joinGroupOrder k q now' page db))
  = Supabase.update_eq_id GroupOrders.id
      (GroupOrders.update_participants_total
         (GroupOrders.participants (row copy) ++ [user_id u])
         (GroupOrders.total_quantity (row copy) + q))
      k (Supabase.group_orders db).
Proof.
  intros Hu Hfind Hnew. unfold VendorDashboard.joinGroupOrder.
  rewrite Hu, Hfind, Hnew. reflexivity.
Qed.

(** C2, as stated, fails where the page shows an older list.  Vendor v2
    loads the dashboard at 1000, when g1 has the participant v1 and
    total_quantity 1; v3 joins at 1050, which makes that v1, v3 and 2.
    The group order is still open and v2 is not among its participants,
    but the join v2 makes at 1200 on the page loaded at 1000 leaves v1, v2
    and 2 in the row, not v1, v3, v2 and 3; in both versions. *)
Lemma join_on_older_list_overwrites :
  joined_columns TwoPages.db_v3_joined
  = [("g1", ["v1"; "v3"], 2%Q); ("g2", ["v1"], 3%Q); ("g3", ["v3"], 2%Q)]
  /\ (exists r,
         In r (Supabase.group_orders TwoPages.db_v3_joined)
         /\ GroupOrders.id r = "g1"
         /\ open_and_unexpired 1200%Z r = true
         /\ includes (GroupOrders.participants r) "v2" = false)
  /\ joined_columns TwoPages.db_v2_joined_late
     = [("g1", ["v1"; "v2"], 2%Q); ("g2", ["v1"], 3%Q); ("g3", ["v3"], 2%Q)]
  /\ ~ joined_as_claimed "v2" (num 1) "g1"
         TwoPages.db_v3_joined TwoPages.db_v2_joined_late
  /\ ~ joined_as_claimed "v2" (num 1) "g1"
         TwoPages.db_v3_joined_v1 TwoPages.db_v2_joined_late_v1.
Proof.
  split; [reflexivity|]. split.
  - exists (join_effect "v3" (num 1) SampleData.open_order).
    split; [left; reflexivity|]. repeat split.
  - split; [reflexivity|]. split.
    + intros H. apply (f_equal (map GroupOrders.participants)) in H.
      vm_compute in H. discriminate.
    + intros H. apply (f_equal (map GroupOrders.participants)) in H.
      vm_compute in H. discriminate.
Qed.

(** C2, amended.  A join of a listed group order by a vendor who is not
    among the participants the page shows rewrites the rows of that id
    with two values taken from the copy the page holds: the copy's
    [participants] with the vendor appended and the copy's
    [total_quantity] plus [q] (1 in the first version); [material_id],
    [min_quantity], [current_price], [expires_at] and [status] are kept,
    and so is every other row.  On a freshly fetched list and a table
    whose ids are unique the copy is the stored row, and the join does to
    the table what [join_effect] says. *)
Theorem join_updates_two_fields_of_one_row
    (now now' : timestamp) (db : Supabase.Database) (u : User) (go : GroupOrder)
    (q : number)
    (st1 : VendorDashboardV1.State) (st2 : VendorDashboard.State) :
  NoDup (map GroupOrders.id (Supabase.group_orders db)) ->
  VendorDashboardV1.user st1 = Some u ->
  VendorDashboard.user st2 = Some u ->
  In go (select_group_orders now db) ->
  includes (GroupOrders.participants (row go)) (user_id u) = false ->
  let k := GroupOrders.id (row go) in
  let expected v :=
    map (fun r => if String.eqb (GroupOrders.id r) k
                  then join_effect (user_id u) v r else r)
        (Supabase.group_orders db) in
  let written (copy : GroupOrder) v (table : Supabase.Database) :=
    map (fun r => if String.eqb (GroupOrders.id r) k
                  then GroupOrders.mk (GroupOrders.id r) (GroupOrders.material_id r)
                         (GroupOrders.total_quantity (row copy) + v)
                         (GroupOrders.current_price r) (GroupOrders.min_quantity r)
                         (GroupOrders.participants (row copy) ++ [user_id u])
                         (GroupOrders.expires_at r) (GroupOrders.status r)
                  else r)
        (Supabase.group_orders table) in
  Supabase.group_orders
    (snd (VendorDashboardV1.joinGroupOrder k now'
            (VendorDashboardV1.fetchGroupOrders now st1 db) db))
  = expected (num 1)
  /\ Supabase.group_orders
       (snd (VendorDashboard.joinGroupOrder k q now'
               (VendorDashboard.fetchGroupOrders now st2 db) db))
     = expected q
  /\ (forall page copy table,
         VendorDashboardV1.user page = Some u ->
         find (fun g => String.eqb (GroupOrders.id (row g)) k)
           (VendorDashboardV1.groupOrders page) = Some copy ->
         includes (GroupOrders.participants (row copy)) (user_id u) = false ->
         Supabase.group_orders (snd (VendorDashboardV1.joinGroupOrder k now' page table))
         = written copy (num 1) table)
  /\ (forall page copy table,
         VendorDashboard.user page = Some u ->
         find (fun g => String.eqb (GroupOrders.id (row g)) k)
           (VendorDashboard.groupOrders page) = Some copy ->
         includes (GroupOrders.participants (row copy)) (user_id u) = false ->
         Supabase.group_orders (snd (VendorDashboard.joinGroupOrder k q now' page table))
         = written copy q table).
Proof.
  intros Hnd Hu1 Hu2 Hin Hnew k expected written.
  destruct (find_listed_group_order now db go Hnd Hin) as [go' [Hfind Hrow]].
  assert (Hown : forall r, In r (Supabase.group_orders db) ->
                           GroupOrders.id r = k -> r = row go).
  { intros r Hr Hk. apply select_group_orders_In in Hin.
    apply (unique_key GroupOrders.id (Supabase.group_orders db)); tauto. }
  fold k in Hfind. rewrite <- Hrow in Hnew.
  split; [|split; [|split]].
  - rewrite (join_writes_copy_v1 k now' u go'
               (VendorDashboardV1.fetchGroupOrders now st1 db) db Hu1 Hfind Hnew).
    rewrite Hrow. apply update_from_own_row. exact Hown.
  - rewrite (join_writes_copy k q now' u go'
               (VendorDashboard.fetchGroupOrders now st2 db) db Hu2 Hfind Hnew).
    rewrite Hrow. apply update_from_own_row. exact Hown.
  - intros page copy table Hu Hf Hc.
    rewrite (join_writes_copy_v1 k now' u copy page table Hu Hf Hc). reflexivity.
  - intros page copy table Hu Hf Hc.
    rewrite (join_writes_copy k q now' u copy page table Hu Hf Hc). reflexivity.
Qed.

Lemma join_updates_two_fields_of_one_row_witness :
  Supabase.group_orders
    (snd (VendorDashboard.joinGroupOrder "g1" (num 5) 1500%Z
            SampleData.v2_state SampleData.db0))
  = [join_effect "v2" (num 5) SampleData.open_order;
     SampleData.closed_order; SampleData.expired_order].
Proof.
  refine (proj1 (proj2 (join_updates_two_fields_of_one_row 1000%Z 1500%Z
                   SampleData.db0 SampleData.vendor2
                   (mkGroupOrder SampleData.open_order (Some SampleData.turmeric))
                   (num 5)
                   (VendorDashboardV1.fetchMaterials
                      (VendorDashboardV1.mkState (Some SampleData.vendor2)
                         (Some SampleData.vendor2_profile) [] [] true [])
                      SampleData.db0)
                   (VendorDashboard.fetchMaterials
                      (VendorDashboard.mkState (Some SampleData.vendor2)
                         (Some SampleData.vendor2_profile) [] [] true
                         false false None None false [])
                      SampleData.db0)
                   _ eq_refl eq_refl _ eq_refl))).
  - simpl. repeat constructor; simpl; intuition discriminate.
  - simpl. left. reflexivity.
Defined.

(** *** Joining twice *)

(** Case analysis on the guards of a join: signed in, listed, already a
    participant. *)
Ltac join_guards :=
  repeat match goal with
         | |- context [match ?x with Some _ => _ | None => _ end] => destruct x
         | |- context [if includes ?l ?v then _ else _] => destruct (includes l v)
         end.

Lemma update_eq_id_twice (ps : list string) (tq : number) (k : string)
    (l : list GroupOrders.Row) :
  Supabase.update_eq_id GroupOrders.id (GroupOrders.update_participants_total ps tq) k
    (Supabase.update_eq_id GroupOrders.id (GroupOrders.update_participants_total ps tq) k l)
  = Supabase.update_eq_id GroupOrders.id (GroupOrders.update_participants_total ps tq) k l.
Proof.
  unfold Supabase.update_eq_id. rewrite map_map. apply map_ext. intros r.
  destruct (String.eqb (GroupOrders.id r) k) eqn:E; simpl; rewrite E; reflexivity.
Qed.

Lemma updated_row_participants (ps : list string) (tq : number) (k : string)
    (l : list GroupOrders.Row) (r : GroupOrders.Row) :
  In r (Supabase.update_eq_id GroupOrders.id
          (GroupOrders.update_participants_total ps tq) k l) ->
  GroupOrders.id r = k ->
  GroupOrders.participants r = ps.
Proof.
  unfold Supabase.update_eq_id. rewrite in_map_iff.
  intros [r0 [Hr Hin]] Hk.
  destruct (String.eqb_spec (GroupOrders.id r0) k) as [E|E]; subst r.
  - reflexivity.
  - contradiction.
Qed.

Lemma includes_appended (l : list string) (x : string) :
  includes (l ++ [x]) x = true.
Proof.
  unfold includes. rewrite existsb_app. simpl.
  rewrite String.eqb_refl. apply orb_true_r.
Qed.

(** After a table update that put [ps ++ [vendor]] into every row of id
    [k], a lookup of [k] in a list fetched from that table finds either
    nothing or a group order that already has the vendor. *)
Lemma refetched_lookup_has_vendor (now : timestamp) (db : Supabase.Database)
    (ps : list string) (tq : number) (k vendor : string) :
  match find (fun g => String.eqb (GroupOrders.id (row g)) k)
          (select_group_orders now
             (Supabase.with_group_orders
                (Supabase.update_eq_id GroupOrders.id
                   (GroupOrders.update_participants_total (ps ++ [vendor]) tq) k)
                db)) with
  | Some g => includes (GroupOrders.participants (row g)) vendor = true
  | None => True
  end.
Proof.
  destruct (find _ _) as [g|] eqn:Hf; [|exact I].
  apply find_some in Hf. destruct Hf as [Hin Hid].
  apply String.eqb_eq in Hid.
  apply select_group_orders_In in Hin. destruct Hin as [Hin _].
  simpl in Hin.
  rewrite (updated_row_participants _ _ _ _ _ Hin Hid).
  apply includes_appended.
Qed.

Lemma v1_second_join_after_refetch (k : string) (now1 now2 : timestamp)
    (st : VendorDashboardV1.State) (db : Supabase.Database) :
  snd (VendorDashboardV1.joinGroupOrder k now2
         (fst (VendorDashboardV1.joinGroupOrder k now1 st db))
         (snd (VendorDashboardV1.joinGroupOrder k now1 st db)))
  = snd (VendorDashboardV1.joinGroupOrder k now1 st db).
Proof.
  destruct (VendorDashboardV1.joinGroupOrder k now1 st db) as [s1 d1] eqn:E1.
  unfold VendorDashboardV1.joinGroupOrder in E1.
  destruct (VendorDashboardV1.user st) as [u|] eqn:Hu.
  - destruct (find _ (VendorDashboardV1.groupOrders st)) as [g|] eqn:Hf.
    + destruct (includes _ _) eqn:Hi; inversion E1; subst s1 d1; clear E1;
        unfold VendorDashboardV1.joinGroupOrder; simpl; rewrite Hu.
      * rewrite Hf, Hi. reflexivity.
      * pose proof (refetched_lookup_has_vendor now1 db
                      (GroupOrders.participants (row g))
                      (GroupOrders.total_quantity (row g) + num 1)
                      k (user_id u)) as Hl.
        destruct (find _ (select_group_orders _ _)) as [g'|]; [|reflexivity].
        rewrite Hl. reflexivity.
    + inversion E1; subst s1 d1; clear E1.
      unfold VendorDashboardV1.joinGroupOrder. simpl. rewrite Hu, Hf. reflexivity.
  - inversion E1; subst s1 d1; clear E1.
    unfold VendorDashboardV1.joinGroupOrder. simpl. rewrite Hu. reflexivity.
Qed.

Lemma v2_second_join_after_refetch (k : string) (q : number) (now1 now2 : timestamp)
    (st : VendorDashboard.State) (db : Supabase.Database) :
  snd (VendorDashboard.joinGroupOrder k q now2
         (fst (VendorDashboard.joinGroupOrder k q now1 st db))
         (snd (VendorDashboard.joinGroupOrder k q now1 st db)))
  = snd (VendorDashboard.joinGroupOrder k q now1 st db).
Proof.
  destruct (VendorDashboard.joinGroupOrder k q now1 st db) as [s1 d1] eqn:E1.
  unfold VendorDashboard.joinGroupOrder in E1.
  destruct (VendorDashboard.user st) as [u|] eqn:Hu.
  - destruct (find _ (VendorDashboard.groupOrders st)) as [g|] eqn:Hf.
    + destruct (includes _ _) eqn:Hi; inversion E1; subst s1 d1; clear E1;
        unfold VendorDashboard.joinGroupOrder; simpl; rewrite Hu.
      * rewrite Hf, Hi. reflexivity.
      * pose proof (refetched_lookup_has_vendor now1
                      (Supabase.with_group_order_participants
                         (Supabase.insert
                            (GroupOrderParticipants.mk k (user_id u) q)) db)
                      (GroupOrders.participants (row g))
                      (GroupOrders.total_quantity (row g) + q)
                      k (user_id u)) as Hl.
        destruct (find _ (select_group_orders _ _)) as [g'|]; [|reflexivity].
        rewrite Hl. reflexivity.
    + inversion E1; subst s1 d1; clear E1.
      unfold VendorDashboard.joinGroupOrder. simpl. rewrite Hu, Hf. reflexivity.
  - inversion E1; subst s1 d1; clear E1.
    unfold VendorDashboard.joinGroupOrder. simpl. rewrite Hu. reflexivity.
Qed.

(** A second call on the list the first call used writes the values the
    first call wrote. *)
Lemma v1_second_join_on_same_list (k : string) (now1 now2 : timestamp)
    (st : VendorDashboardV1.State) (db : Supabase.Database) :
  snd (VendorDashboardV1.joinGroupOrder k now2 st
         (snd (VendorDashboardV1.joinGroupOrder k now1 st db)))
  = snd (VendorDashboardV1.joinGroupOrder k now1 st db).
Proof.
  unfold VendorDashboardV1.joinGroupOrder.
  join_guards; try reflexivity.
  simpl. unfold Supabase.with_group_orders. simpl.
  rewrite update_eq_id_twice. reflexivity.
Qed.

Lemma v2_second_join_on_same_list_group_orders (k : string) (q : number)
    (now1 now2 : timestamp) (st : VendorDashboard.State) (db : Supabase.Database) :
  Supabase.group_orders
    (snd (VendorDashboard.joinGroupOrder k q now2 st
            (snd (VendorDashboard.joinGroupOrder k q now1 st db))))
  = Supabase.group_orders (snd (VendorDashboard.joinGroupOrder k q now1 st db)).
Proof.
  unfold VendorDashboard.joinGroupOrder.
  join_guards; try reflexivity.
  simpl. apply update_eq_id_twice.
Qed.

(** Two calls on one page.  A second call on the state the first call
    left (list refetched) is stopped by the participant check and leaves
    the database as one call leaves it; a second call on the list the
    first call used writes the same values again and leaves [group_orders]
    as one call leaves it, but adds a second row to
    [group_order_participants] in the version with a quantity. *)
Theorem second_join_on_one_page :
  (forall k now1 now2 st db,
      JoinTwice.twice_v1 k now1 now2 st db = JoinTwice.once_v1 k now1 st db
      /\ JoinTwice.twice_on_same_list_v1 k now1 now2 st db
         = JoinTwice.once_v1 k now1 st db)
  /\ (forall k q now1 now2 st db,
         JoinTwice.twice k q now1 now2 st db = JoinTwice.once k q now1 st db
         /\ Supabase.group_orders (JoinTwice.twice_on_same_list k q now1 now2 st db)
            = Supabase.group_orders (JoinTwice.once k q now1 st db))
  /\ (exists k q now1 now2 st db,
         Supabase.group_order_participants
           (JoinTwice.twice_on_same_list k q now1 now2 st db)
         <> Supabase.group_order_participants (JoinTwice.once k q now1 st db)).
Proof.
  split; [|split].
  - intros k now1 now2 st db. split.
    + apply v1_second_join_after_refetch.
    + apply v1_second_join_on_same_list.
  - intros k q now1 now2 st db. split.
    + apply v2_second_join_after_refetch.
    + apply v2_second_join_on_same_list_group_orders.
  - exists "g1", (num 1), 1100%Z, 1200%Z, SampleData.v2_state, SampleData.db0.
    vm_compute. discriminate.
Qed.

(** *** Joining again from a page loaded earlier *)

(** A listed group order is found on a page that has just loaded. *)
Lemma listed_copy (t : timestamp) (db : Supabase.Database) (r : GroupOrders.Row) :
  NoDup (map GroupOrders.id (Supabase.group_orders db)) ->
  In r (Supabase.group_orders db) ->
  GroupOrders.status r = "open" ->
  (t < GroupOrders.expires_at r)%Z ->
  exists copy,
    find (fun g => String.eqb (GroupOrders.id (row g)) (GroupOrders.id r))
      (select_group_orders t db) = Some copy
    /\ row copy = r.
Proof.
  intros Hnd Hin Hopen Hlive.
  set (go := mkGroupOrder r (Supabase.embed_material db (GroupOrders.material_id r))).
  assert (Hlisted : In go (select_group_orders t db)).
  { unfold select_group_orders. apply in_map_iff. exists r. split; [reflexivity|].
    apply filter_In. split; [exact Hin|]. unfold open_and_unexpired.
    rewrite Hopen. simpl. apply Z.ltb_lt. exact Hlive. }
  destruct (find_listed_group_order t db go Hnd Hlisted) as [copy [Hfind Hrow]].
  exists copy. split; assumption.
Qed.

(** The join from a page that loaded its list from [listed], made when
    the table is [current]. *)
Lemma join_from_writes (q : number) (t t' : timestamp) (v : User)
    (listed current : Supabase.Database) (r : GroupOrders.Row) :
  NoDup (map GroupOrders.id (Supabase.group_orders listed)) ->
  In r (Supabase.group_orders listed) ->
  GroupOrders.status r = "open" ->
  (t < GroupOrders.expires_at r)%Z ->
  ~ In (user_id v) (GroupOrders.participants r) ->
  Supabase.group_orders
    (TwoPages.join_from (GroupOrders.id r) q t t' (GroupFlow.vendor_state v)
       listed current)
  = Supabase.update_eq_id GroupOrders.id
      (GroupOrders.update_participants_total
         (GroupOrders.participants r ++ [user_id v])
         (GroupOrders.total_quantity r + q))
      (GroupOrders.id r) (Supabase.group_orders current).
Proof.
  intros Hnd Hin Hopen Hlive Hnew.
  destruct (listed_copy t listed r Hnd Hin Hopen Hlive) as [copy [Hfind Hrow]].
  apply includes_false_iff in Hnew. rewrite <- Hrow in Hnew.
  unfold TwoPages.join_from.
  rewrite (join_writes_copy (GroupOrders.id r) q t' v copy
             (VendorDashboard.fetchGroupOrders t (GroupFlow.vendor_state v) listed)
             current eq_refl Hfind Hnew).
  rewrite Hrow. reflexivity.
Qed.

Lemma join_from_writes_v1 (t t' : timestamp) (v : User)
    (listed current : Supabase.Database) (r : GroupOrders.Row) :
  NoDup (map GroupOrders.id (Supabase.group_orders listed)) ->
  In r (Supabase.group_orders listed) ->
  GroupOrders.status r = "open" ->
  (t < GroupOrders.expires_at r)%Z ->
  ~ In (user_id v) (GroupOrders.participants r) ->
  Supabase.group_orders
    (TwoPages.join_from_v1 (GroupOrders.id r) t t' (TwoPages.vendor_state_v1 v)
       listed current)
  = Supabase.update_eq_id GroupOrders.id
      (GroupOrders.update_participants_total
         (GroupOrders.participants r ++ [user_id v])
         (GroupOrders.total_quantity r + num 1))
      (GroupOrders.id r) (Supabase.group_orders current).
Proof.
  intros Hnd Hin Hopen Hlive Hnew.
  destruct (listed_copy t listed r Hnd Hin Hopen Hlive) as [copy [Hfind Hrow]].
  apply includes_false_iff in Hnew. rewrite <- Hrow in Hnew.
  unfold TwoPages.join_from_v1.
  rewrite (join_writes_copy_v1 (GroupOrders.id r) t' v copy
             (VendorDashboardV1.fetchGroupOrders t (TwoPages.vendor_state_v1 v) listed)
             current eq_refl Hfind Hnew).
  rewrite Hrow. reflexivity.
Qed.

(** The three writes of the scenario, on the rows alone: vendor [w]
    joins, vendor [u] joins on a list that shows [w], and [u] joins again
    with the values of the row as it was before [w] joined. *)
Lemma two_page_rows (rows rows1 once twice : list GroupOrders.Row)
    (r : GroupOrders.Row) (u w : string) (q qw : number) :
  NoDup (map GroupOrders.id rows) ->
  In r rows ->
  let k := GroupOrders.id r in
  let r1 := join_effect w qw r in
  let write ps tq :=
    Supabase.update_eq_id GroupOrders.id
      (GroupOrders.update_participants_total ps tq) k in
  rows1 = write (GroupOrders.participants r ++ [w])
            (GroupOrders.total_quantity r + qw) rows ->
  once = write (GroupOrders.participants r1 ++ [u])
           (GroupOrders.total_quantity r1 + q) rows1 ->
  twice = write (GroupOrders.participants r ++ [u])
            (GroupOrders.total_quantity r + q) once ->
  once = map (fun x => if String.eqb (GroupOrders.id x) k
                       then join_effect u q (join_effect w qw x) else x) rows
  /\ twice = map (fun x => if String.eqb (GroupOrders.id x) k
                           then join_effect u q x else x) rows
  /\ map GroupOrders.participants twice <> map GroupOrders.participants once.
Proof.
  intros Hnd Hin k r1 write H1 Honce Htwice.
  assert (Hown : forall x, In x rows -> GroupOrders.id x = k -> x = r).
  { intros x Hx Hk. apply (unique_key GroupOrders.id rows); assumption. }
  assert (E1 : once = map (fun x => if String.eqb (GroupOrders.id x) k
                                    then join_effect u q (join_effect w qw x) else x)
                        rows).
  { rewrite Honce, H1. unfold write, Supabase.update_eq_id. rewrite map_map.
    apply map_ext_in. intros x Hx.
    destruct (String.eqb_spec (GroupOrders.id x) k) as [E|E].
    - rewrite (Hown x Hx E). simpl. fold k. rewrite String.eqb_refl. reflexivity.
    - destruct (String.eqb_spec (GroupOrders.id x) k); [contradiction | reflexivity]. }
  assert (E2 : twice = map (fun x => if String.eqb (GroupOrders.id x) k
                                     then join_effect u q x else x) rows).
  { rewrite Htwice, E1. unfold write, Supabase.update_eq_id. rewrite map_map.
    apply map_ext_in. intros x Hx.
    destruct (String.eqb_spec (GroupOrders.id x) k) as [E|E].
    - rewrite (Hown x Hx E). simpl. fold k. rewrite String.eqb_refl. reflexivity.
    - destruct (String.eqb_spec (GroupOrders.id x) k); [contradiction | reflexivity]. }
  split; [exact E1|]. split; [exact E2|].
  rewrite E1, E2, !map_map. intros H.
  rewrite map_ext_in_iff in H. specialize (H r Hin). simpl in H.
  fold k in H. rewrite String.eqb_refl in H. simpl in H.
  rewrite <- app_assoc in H. apply app_inv_head in H. simpl in H.
  inversion H.
Qed.

(** The table after a vendor who was not a participant has joined. *)
Lemma after_join (rows rows1 : list GroupOrders.Row) (r : GroupOrders.Row)
    (w : string) (qw : number) :
  NoDup (map GroupOrders.id rows) ->
  In r rows ->
  rows1 = Supabase.update_eq_id GroupOrders.id
            (GroupOrders.update_participants_total
               (GroupOrders.participants r ++ [w])
               (GroupOrders.total_quantity r + qw))
            (GroupOrders.id r) rows ->
  NoDup (map GroupOrders.id rows1) /\ In (join_effect w qw r) rows1.
Proof.
  intros Hnd Hin H1. subst rows1. unfold Supabase.update_eq_id. split.
  - rewrite map_map. erewrite map_ext; [exact Hnd|]. intros x. simpl.
    destruct (String.eqb (GroupOrders.id x) (GroupOrders.id r)); reflexivity.
  - apply in_map_iff. exists r. rewrite String.eqb_refl. split; [reflexivity|exact Hin].
Qed.

(** C3.  The join has no idempotency guarantee.  Take an open group order
    [r] and two vendors [u] and [w] that are not among its participants.
    Vendor [u] has the dashboard open on a page loaded at [t0]; vendor [w]
    loads the dashboard and joins; [u] loads the dashboard anew and joins
    (the first join), then joins again on the page loaded at [t0] (the
    second join), which still shows [u] as no participant.  One join
    leaves the participants of [r] followed by [w] and [u]; two joins
    leave the participants of [r] followed by [u] alone, and the quantity
    of [w] is gone from [total_quantity].  In both versions of the
    dashboard. *)
Theorem join_twice_differs_from_once
    (db : Supabase.Database) (r : GroupOrders.Row) (u w : User) (q qw : number)
    (t0 t0' tw tw' t1 t1' : timestamp) :
  NoDup (map GroupOrders.id (Supabase.group_orders db)) ->
  In r (Supabase.group_orders db) ->
  GroupOrders.status r = "open" ->
  (t0 < GroupOrders.expires_at r)%Z ->
  (tw < GroupOrders.expires_at r)%Z ->
  (t1 < GroupOrders.expires_at r)%Z ->
  ~ In (user_id u) (GroupOrders.participants r) ->
  ~ In (user_id w) (GroupOrders.participants r) ->
  user_id u <> user_id w ->
  let k := GroupOrders.id r in
  let other := TwoPages.join_from k qw tw tw' (GroupFlow.vendor_state w) db db in
  let once := TwoPages.join_from k q t1 t1' (GroupFlow.vendor_state u) other other in
  let twice := TwoPages.join_from k q t0 t0' (GroupFlow.vendor_state u) db once in
  let other1 := TwoPages.join_from_v1 k tw tw' (TwoPages.vendor_state_v1 w) db db in
  let once1 :=
    TwoPages.join_from_v1 k t1 t1' (TwoPages.vendor_state_v1 u) other1 other1 in
  let twice1 := TwoPages.join_from_v1 k t0 t0' (TwoPages.vendor_state_v1 u) db once1 in
  (Supabase.group_orders once
   = map (fun x => if String.eqb (GroupOrders.id x) k
                   then join_effect (user_id u) q (join_effect (user_id w) qw x)
                   else x)
       (Supabase.group_orders db)
   /\ Supabase.group_orders twice
      = map (fun x => if String.eqb (GroupOrders.id x) k
                      then join_effect (user_id u) q x else x)
          (Supabase.group_orders db)
   /\ joined_columns twice <> joined_columns once)
  /\ (Supabase.group_orders once1
      = map (fun x => if String.eqb (GroupOrders.id x) k
                      then join_effect (user_id u) (num 1)
                             (join_effect (user_id w) (num 1) x)
                      else x)
          (Supabase.group_orders db)
      /\ Supabase.group_orders twice1
         = map (fun x => if String.eqb (GroupOrders.id x) k
                         then join_effect (user_id u) (num 1) x else x)
             (Supabase.group_orders db)
      /\ joined_columns twice1 <> joined_columns once1).
Proof.
  intros Hnd Hin Hopen Hl0 Hlw Hl1 Hu Hw Huw k other once twice other1 once1 twice1.
  assert (Hu1 : forall qw', ~ In (user_id u)
                              (GroupOrders.participants
                                 (join_effect (user_id w) qw' r))).
  { intros qw' Hp. simpl in Hp. apply in_app_iff in Hp.
    destruct Hp as [Hp|[Hp|[]]]; [exact (Hu Hp) | exact (Huw (eq_sym Hp))]. }
  assert (Hcols : forall a b : Supabase.Database,
             map GroupOrders.participants (Supabase.group_orders a)
             <> map GroupOrders.participants (Supabase.group_orders b) ->
             joined_columns a <> joined_columns b).
  { intros a b Hne Heq. apply Hne. unfold joined_columns in Heq.
    apply (f_equal (map (fun c : string * list string * Q => snd (fst c)))) in Heq.
    rewrite !map_map in Heq. exact Heq. }
  split.
  - pose proof (join_from_writes qw tw tw' w db db r Hnd Hin Hopen Hlw Hw) as E0.
    fold k other in E0.
    destruct (after_join _ _ r (user_id w) qw Hnd Hin E0) as [Hnd1 Hin1].
    pose proof (join_from_writes q t1 t1' u other other
                  (join_effect (user_id w) qw r) Hnd1 Hin1 Hopen Hl1 (Hu1 qw)) as E1.
    change (GroupOrders.id (join_effect (user_id w) qw r)) with k in E1.
    fold once in E1.
    pose proof (join_from_writes q t0 t0' u db once r Hnd Hin Hopen Hl0 Hu) as E2.
    fold k twice in E2.
    destruct (two_page_rows _ _ _ _ r (user_id u) (user_id w) q qw
                Hnd Hin E0 E1 E2) as [R1 [R2 R3]].
    split; [exact R1|]. split; [exact R2|]. apply Hcols. exact R3.
  - pose proof (join_from_writes_v1 tw tw' w db db r Hnd Hin Hopen Hlw Hw) as E0.
    fold k other1 in E0.
    destruct (after_join _ _ r (user_id w) (num 1) Hnd Hin E0) as [Hnd1 Hin1].
    pose proof (join_from_writes_v1 t1 t1' u other1 other1
                  (join_effect (user_id w) (num 1) r) Hnd1 Hin1 Hopen Hl1
                  (Hu1 (num 1))) as E1.
    change (GroupOrders.id (join_effect (user_id w) (num 1) r)) with k in E1.
    fold once1 in E1.
    pose proof (join_from_writes_v1 t0 t0' u db once1 r Hnd Hin Hopen Hl0 Hu) as E2.
    fold k twice1 in E2.
    destruct (two_page_rows _ _ _ _ r (user_id u) (user_id w) (num 1) (num 1)
                Hnd Hin E0 E1 E2) as [R1 [R2 R3]].
    split; [exact R1|]. split; [exact R2|]. apply Hcols. exact R3.
Qed.

(** Vendor v2 has the page of 1000 open; v3 joins g1 at 1050; v2 joins at
    1100 on a new page and once more at 1200 on the page of 1000. *)
Lemma join_twice_differs_from_once_witness :
  let other :=
    TwoPages.join_from "g1" (num 1) 1050%Z 1060%Z
      (GroupFlow.vendor_state TwoPages.vendor3) SampleData.db0 SampleData.db0 in
  let once :=
    TwoPages.join_from "g1" (num 1) 1100%Z 1110%Z
      (GroupFlow.vendor_state SampleData.vendor2) other other in
  let twice :=
    TwoPages.join_from "g1" (num 1) 1000%Z 1200%Z
      (GroupFlow.vendor_state SampleData.vendor2) SampleData.db0 once in
  joined_columns twice <> joined_columns once.
Proof.
  refine (proj2 (proj2 (proj1
            (join_twice_differs_from_once SampleData.db0 SampleData.open_order
               SampleData.vendor2 TwoPages.vendor3 (num 1) (num 1)
               1000%Z 1200%Z 1050%Z 1060%Z 1100%Z 1110%Z
               _ _ eq_refl eq_refl eq_refl eq_refl _ _ _)))).
  - simpl. repeat constructor; simpl; intuition discriminate.
  - simpl. left. reflexivity.
  - simpl. intuition discriminate.
  - simpl. intuition discriminate.
  - simpl. discriminate.
Defined.

Example join_twice_on_two_pages_sample :
  let other :=
    TwoPages.join_from "g1" (num 1) 1050%Z 1060%Z
      (GroupFlow.vendor_state TwoPages.vendor3) SampleData.db0 SampleData.db0 in
  let once :=
    TwoPages.join_from "g1" (num 1) 1100%Z 1110%Z
      (GroupFlow.vendor_state SampleData.vendor2) other other in
  let twice :=
    TwoPages.join_from "g1" (num 1) 1000%Z 1200%Z
      (GroupFlow.vendor_state SampleData.vendor2) SampleData.db0 once in
  joined_columns once
  = [("g1", ["v1"; "v3"; "v2"], 3%Q); ("g2", ["v1"], 3%Q); ("g3", ["v3"], 2%Q)]
  /\ joined_columns twice
     = [("g1", ["v1"; "v2"], 2%Q); ("g2", ["v1"], 3%Q); ("g3", ["v3"], 2%Q)].
Proof. split; reflexivity. Qed.

Example join_twice_sample :
  map GroupOrderParticipants.vendor_id
    (Supabase.group_order_participants
       (JoinTwice.twice_on_same_list "g1" (num 1) 1100%Z 1200%Z
          SampleData.v2_state SampleData.db0)) = ["v2"; "v2"]
  /\ map GroupOrderParticipants.vendor_id
       (Supabase.group_order_participants
          (JoinTwice.once "g1" (num 1) 1100%Z
             SampleData.v2_state SampleData.db0)) = ["v2"]
  /\ map GroupOrders.participants
       (Supabase.group_orders
          (JoinTwice.twice_on_same_list "g1" (num 1) 1100%Z 1200%Z
             SampleData.v2_state SampleData.db0))
     = [["v1"; "v2"]; ["v1"]; ["v3"]].
Proof. repeat split. Qed.

(** ** The price of a group order *)

Example created_order_listed :
  map row (select_group_orders 2000%Z SampleData.db_created)
  = [SampleData.created_order].
Proof. reflexivity. Qed.

(** C1, as stated, fails: the group order that vendor v2 forms for
    turmeric (regular price 100, form untouched) is listed with
    total_quantity 1 below min_quantity 100, and its price is 90, not the
    regular price. *)
Lemma fresh_group_order_already_discounted :
  exists go,
    In go (select_group_orders 2000%Z SampleData.db_created)
    /\ go_materials go = Some SampleData.turmeric
    /\ ~ discount_unlocked_at_threshold go SampleData.turmeric.
Proof.
  exists (mkGroupOrder SampleData.created_order (Some SampleData.turmeric)).
  split; [left; reflexivity|]. split; [reflexivity|].
  intros [Hbelow _].
  assert (Hlt : (GroupOrders.total_quantity SampleData.created_order
                 < GroupOrders.min_quantity SampleData.created_order)%Qc)
    by reflexivity.
  specialize (Hbelow Hlt).
  apply (f_equal this) in Hbelow. vm_compute in Hbelow. discriminate.
Qed.

Lemma update_keeps_pricing_columns (ps : list string) (tq : number) (k : string)
    (f : Supabase.Database -> Supabase.Database) (db : Supabase.Database) :
  Supabase.group_orders (f db) = Supabase.group_orders db ->
  pricing_columns
    (Supabase.with_group_orders
       (Supabase.update_eq_id GroupOrders.id
          (GroupOrders.update_participants_total ps tq) k) (f db))
  = pricing_columns db.
Proof.
  intros Hf. unfold pricing_columns, Supabase.with_group_orders,
    Supabase.update_eq_id. simpl. rewrite Hf, map_map.
  apply map_ext. intros r.
  destruct (String.eqb (GroupOrders.id r) k); reflexivity.
Qed.

(** C1, amended.  A group order has one unit price, [current_price]: the
    form's discounted price from the moment the group order is created
    (no row is created where the expiry date is out of range), shown on
    its card whatever total_quantity is.  A join, in either
    version, leaves [current_price], [min_quantity] and [status] of every
    group order as they are and inserts no order row, so reaching
    min_quantity changes no price and charges nobody. *)
Theorem group_order_price_fixed_at_creation :
  (forall tz u m now g st db,
      map GroupOrders.current_price
        (Supabase.group_orders
           (snd (fst (GroupOrderModal.createGroupOrder tz (Some u) (Some m) now g
                        st db))))
      = map GroupOrders.current_price (Supabase.group_orders db)
        ++ match GroupOrderModal.expiryDate tz now (GroupOrderModal.formData st) with
           | Some _ => [GroupOrderModal.discountedPrice (GroupOrderModal.formData st)]
           | None => []
           end)
  /\ (forall now db go,
         In go (select_group_orders now db) ->
         exists r, In r (Supabase.group_orders db)
                   /\ GroupOrders.id r = GroupOrders.id (row go)
                   /\ VendorDashboardV1.cardPrice go = GroupOrders.current_price r
                   /\ VendorDashboard.cardPrice go = GroupOrders.current_price r)
  /\ (forall k now st db,
         pricing_columns (snd (VendorDashboardV1.joinGroupOrder k now st db))
         = pricing_columns db
         /\ Supabase.orders (snd (VendorDashboardV1.joinGroupOrder k now st db))
            = Supabase.orders db)
  /\ (forall k q now st db,
         pricing_columns (snd (VendorDashboard.joinGroupOrder k q now st db))
         = pricing_columns db
         /\ Supabase.orders (snd (VendorDashboard.joinGroupOrder k q now st db))
            = Supabase.orders db).
Proof.
  split; [|split; [|split]].
  - intros tz u m now g st db. unfold GroupOrderModal.createGroupOrder.
    destruct (GroupOrderModal.expiryDate tz now (GroupOrderModal.formData st)); simpl.
    + unfold Supabase.insert. rewrite map_app. reflexivity.
    + symmetry. apply app_nil_r.
  - intros now db go Hin. exists (row go).
    apply select_group_orders_In in Hin. destruct Hin as [Hin _].
    repeat split; auto.
  - intros k now st db. unfold VendorDashboardV1.joinGroupOrder.
    join_guards; split; try reflexivity.
    apply (update_keeps_pricing_columns _ _ _ (fun d => d)). reflexivity.
  - intros k q now st db. unfold VendorDashboard.joinGroupOrder.
    join_guards; split; try reflexivity.
    match goal with
    | |- context [Supabase.insert ?p] =>
        apply (update_keeps_pricing_columns _ _ _
                 (Supabase.with_group_order_participants (Supabase.insert p)))
    end.
    reflexivity.
Qed.

(** ** Forming a group order *)

Lemma nine_tenths_is_90_percent :
  GroupOrderModal.nine_tenths = (num 90 / num 100)%Qc.
Proof. apply Qc_is_canon. reflexivity. Qed.

(** *** The expiry date *)

Lemma DateFromTime_range (t : Z) : (1 <= JsDate.DateFromTime t <= 31)%Z.
Proof.
  unfold JsDate.DateFromTime. cbv zeta.
  Z.to_euclidean_division_equations. lia.
Qed.

Lemma this_le_num (z : Z) (x : Qc) : (num z <= x)%Qc -> (inject_Z z <= this x)%Q.
Proof.
  unfold Qcle, num. change (this (Q2Qc (inject_Z z))) with (Qred (inject_Z z)).
  rewrite Qred_correct. trivial.
Qed.

Lemma this_sum (x y : Qc) : (this (x + y)%Qc == this x + this y)%Q.
Proof. unfold Qcplus. apply Qred_correct. Qed.

(** Adding a whole number moves the integer part by that number. *)
Lemma floor_of_shifted (z : Z) (x : Qc) :
  Qfloor (num z + x)%Qc = (z + Qfloor x)%Z.
Proof.
  assert (Hsum : (this (num z + x)%Qc == inject_Z z + this x)%Q).
  { rewrite this_sum. unfold num.
    change (this (Q2Qc (inject_Z z))) with (Qred (inject_Z z)).
    rewrite Qred_correct. reflexivity. }
  rewrite (Qfloor_comp _ _ Hsum).
  pose proof (Qfloor_le (this x)) as Hlo. pose proof (Qlt_floor (this x)) as Hhi.
  assert (H1 : (z + Qfloor x <= Qfloor (inject_Z z + this x))%Z).
  { rewrite <- (Qfloor_Z (z + Qfloor x)). apply Qfloor_resp_le.
    rewrite inject_Z_plus. lra. }
  assert (H2 : (Qfloor (inject_Z z + this x) < z + Qfloor x + 1)%Z).
  { pose proof (Qfloor_le (inject_Z z + this x)) as Hf.
    rewrite Zlt_Qlt. rewrite !inject_Z_plus in *. simpl inject_Z at 3. lra. }
  lia.
Qed.

(** A day count of 0 or more, whole or not, counts by its integer part,
    whatever the day of the month. *)
Lemma days_counted (date : Z) (x : number) :
  (0 <= date)%Z -> (num 0 <= x)%Qc ->
  JsDate.ToIntegerOrInfinity (num date + x) = (date + Qfloor x)%Z.
Proof.
  intros Hd Hx. unfold JsDate.ToIntegerOrInfinity, gtb.
  destruct (Qccompare (num 0) (num date + x)) eqn:E;
    try apply floor_of_shifted.
  exfalso. unfold Qccompare in E. rewrite <- Qgt_alt in E.
  apply this_le_num in Hx. rewrite this_sum in E.
  assert (Hn : (this (num 0) == 0)%Q) by reflexivity.
  assert (Hdq : (this (num date) == inject_Z date)%Q).
  { unfold num. change (this (Q2Qc (inject_Z date))) with (Qred (inject_Z date)).
    apply Qred_correct. }
  rewrite Hn, Hdq in E. change (inject_Z 0) with 0%Q in Hx.
  assert (H0 : (0 <= inject_Z date)%Q) by (change 0%Q with (inject_Z 0); rewrite <- Zle_Qle; exact Hd).
  lra.
Qed.

(** [setDate(getDate() + x)] moves the local time by whole days. *)
Lemma expiryDate_local_days (tz : JsDate.TimeZone) (now : timestamp)
    (form : GroupOrderModal.FormData) :
  (num 0 <= GroupOrderModal.expiryDays form)%Qc ->
  GroupOrderModal.expiryDate tz now form
  = JsDate.TimeClip
      (JsDate.UTC tz
         (JsDate.LocalTime tz now
          + Qfloor (GroupOrderModal.expiryDays form) * JsDate.msPerDay)).
Proof.
  intros Hx. unfold GroupOrderModal.expiryDate, JsDate.setDate, JsDate.getDate.
  rewrite days_counted;
    [| pose proof (DateFromTime_range (JsDate.LocalTime tz now)); lia | exact Hx].
  f_equal. f_equal.
  unfold JsDate.Day, JsDate.TimeWithinDay, JsDate.msPerDay.
  pose proof (Z.div_mod (JsDate.LocalTime tz now) 86400000) as Hdm.
  lia.
Qed.




Example create_group_order_sample :
  Supabase.group_orders SampleData.db_created
  = Supabase.group_orders SampleData.db0 ++ [SampleData.created_order]
  /\ Qeq (GroupOrders.current_price SampleData.created_order) 90
  /\ GroupOrderModal.expiryDate JsDate.kolkata 1000%Z
       (GroupOrderModal.formData SampleData.modal_state)
     = Some (1000 + 7 * 86400000)%Z.
Proof. repeat split. Qed.

Example day_of_month_sample :
  map JsDate.DateFromTime
    [0; 58 * 86400000; 59 * 86400000; 11016 * 86400000; 19782 * 86400000;
     -1; ExpirySample.noon_25_march]%Z
  = [1; 28; 1; 29; 29; 31; 25]%Z.
Proof. reflexivity. Qed.

(** ** Placing an individual order *)

(** A select keeps the ids of a table distinct. *)
Lemma filter_keeps_unique_keys {A : Type} (key : A -> string) (keep : A -> bool) :
  forall rows, NoDup (map key rows) -> NoDup (map key (filter keep rows)).
Proof.
  assert (Hsub : forall rows k, In k (map key (filter keep rows)) -> In k (map key rows)).
  { intros rows k Hk. apply in_map_iff in Hk. destruct Hk as [a [Ha Hin]].
    apply filter_In in Hin. subst k. apply in_map. tauto. }
  intros rows. induction rows as [|a rest IH]; intros Hnd.
  - exact Hnd.
  - apply NoDup_cons_iff in Hnd. destruct Hnd as [Hfresh Hrest].
    simpl. destruct (keep a); [simpl; apply NoDup_cons|]; auto.
Qed.

(** In a catalog fetched from a table with unique ids, the lookup by the
    id of a listed material yields that material. *)
Lemma find_listed_material (db : Supabase.Database) (m : Materials.Row) :
  NoDup (map Materials.id (Supabase.materials db)) ->
  In m (select_materials_in_stock db) ->
  find (fun x => String.eqb (Materials.id x) (Materials.id m))
    (select_materials_in_stock db) = Some m.
Proof.
  intros Hnd Hin.
  destruct (find _ _) as [m'|] eqn:Hf.
  - f_equal. apply find_some in Hf. destruct Hf as [Hin' Hid].
    apply String.eqb_eq in Hid.
    apply (unique_key Materials.id (select_materials_in_stock db)); auto.
    unfold select_materials_in_stock. apply filter_keeps_unique_keys. exact Hnd.
  - exfalso. apply (find_none _ _ Hf) in Hin.
    rewrite String.eqb_refl in Hin. discriminate.
Qed.

(** C5. For a signed-in vendor with a profile, a material [m] of the
    fetched catalog and a quantity [q], placing an individual order
    appends one row to [orders]: [vendor_id] the user's id, [supplier_id]
    that of [m], quantity [q], [total_price] the price of [m] times [q],
    type 'individual'.  In the first version [placeIndividualOrder]
    inserts it; in the second version it returns the closure that inserts
    it when run, and the confirm button runs that closure for the selected
    material with quantity 1. *)
Theorem place_individual_order_inserts_one_row
    (u : User) (p : Profile) (m : Materials.Row) (q : number)
    (g : Supabase.Generated) (db : Supabase.Database)
    (st1 : VendorDashboardV1.State) (st2 : VendorDashboard.State) :
  NoDup (map Materials.id (Supabase.materials db)) ->
  VendorDashboardV1.user st1 = Some u ->
  VendorDashboardV1.profile st1 = Some p ->
  VendorDashboard.user st2 = Some u ->
  VendorDashboard.profile st2 = Some p ->
  In m (select_materials_in_stock db) ->
  let s1 := VendorDashboardV1.fetchMaterials st1 db in
  let s2 := VendorDashboard.fetchMaterials st2 db in
  let order_of n :=
    Orders.mk (Supabase.gen_id g) (user_id u) (Materials.supplier_id m)
      (Materials.id m) n (Materials.price m * n) "individual"
      (Supabase.gen_status g) (Supabase.gen_created_at g) in
  Supabase.orders (snd (VendorDashboardV1.placeIndividualOrder (Materials.id m) q g s1 db))
  = Supabase.orders db ++ [order_of q]
  /\ (exists confirmOrder,
         snd (VendorDashboard.placeIndividualOrder (Materials.id m) q s2)
         = Some confirmOrder
         /\ forall s db1,
              Supabase.orders (snd (confirmOrder g s db1))
              = Supabase.orders db1 ++ [order_of q])
  /\ Supabase.orders
       (snd (VendorDashboard.confirmIndividualOrder g
               (VendorDashboard.setSelectedMaterial (Some m) s2) db))
     = Supabase.orders db ++ [order_of (num 1)].
Proof.
  intros Hnd Hu1 Hp1 Hu2 Hp2 Hin s1 s2 order_of.
  pose proof (find_listed_material db m Hnd Hin) as Hfind.
  split; [|split].
  - unfold VendorDashboardV1.placeIndividualOrder. simpl.
    rewrite Hu1, Hp1, Hfind. reflexivity.
  - unfold VendorDashboard.placeIndividualOrder. simpl.
    rewrite Hu2, Hp2, Hfind. simpl.
    eexists. split; [reflexivity|]. intros s db1. reflexivity.
  - unfold VendorDashboard.confirmIndividualOrder,
      VendorDashboard.placeIndividualOrder. simpl.
    rewrite Hu2, Hp2, Hfind. reflexivity.
Qed.

Lemma place_individual_order_inserts_one_row_witness :
  Supabase.orders
    (snd (VendorDashboardV1.placeIndividualOrder "m1" (num 3) SampleData.gen1
            SampleData.v1_state SampleData.db0))
  = Supabase.orders SampleData.db0
    ++ [Orders.mk "new1" "v2" "s1" "m1" (num 3) (num 100 * num 3) "individual"
          "pending" 1000%Z].
Proof.
  refine (proj1 (place_individual_order_inserts_one_row SampleData.vendor2
                   SampleData.vendor2_profile SampleData.turmeric (num 3)
                   SampleData.gen1 SampleData.db0
                   (VendorDashboardV1.mkState (Some SampleData.vendor2)
                      (Some SampleData.vendor2_profile) [] [] true [])
                   (VendorDashboard.mkState (Some SampleData.vendor2)
                      (Some SampleData.vendor2_profile) [] [] true
                      false false None None false [])
                   _ eq_refl eq_refl eq_refl eq_refl _)).
  - simpl. repeat constructor; simpl; intuition discriminate.
  - simpl. left. reflexivity.
Defined.

(** ** Order status on the supplier dashboard *)

Lemma Forall2_map_of {A : Type} (R : A -> A -> Prop) (f : A -> A) (l : list A) :
  (forall a, In a l -> R a (f a)) -> Forall2 R l (map f l).
Proof.
  induction l as [|x xs IH]; simpl; intros H; constructor.
  - apply H. left. reflexivity.
  - apply IH. intros a Ha. apply H. right. exact Ha.
Qed.

Lemma order_actions_allowed (o : SupplierDashboard.Order) (s : string) :
  In s (SupplierDashboard.orderActions o) ->
  allowed_transition (Orders.status (SupplierDashboard.order_row o)) s.
Proof.
  unfold SupplierDashboard.orderActions, allowed_transition.
  destruct (String.eqb_spec (Orders.status (SupplierDashboard.order_row o)) "pending")
    as [Ep|Ep];
  destruct (String.eqb_spec (Orders.status (SupplierDashboard.order_row o)) "confirmed")
    as [Ec|Ec]; simpl; intuition (subst; auto).
Qed.

Lemma listed_order_is_stored (uid : string) (db : Supabase.Database)
    (o : SupplierDashboard.Order) :
  In o (SupplierDashboard.select_orders uid db) ->
  In (SupplierDashboard.order_row o) (Supabase.orders db).
Proof.
  unfold SupplierDashboard.select_orders. rewrite in_map_iff.
  intros [r [Ho Hr]]. subst o. simpl.
  apply stable_sort_In in Hr. apply filter_In in Hr. tauto.
Qed.

(** C9, as stated, fails on a list that is behind the table.  Supplier
    s1 sees o1 as pending, with both buttons.  A click on Decline makes o1
    cancelled; a click on Accept on the card the page still shows (the
    refetch is not awaited, and no handler checks the stored status) makes
    it confirmed: a change out of the cancelled state. *)
Lemma click_on_older_list_leaves_cancelled :
  SupplierDashboard.click StaleOrders.listed SampleData.db0
    (fst (SupplierDashboard.updateOrderStatus "o1" "cancelled" StaleOrders.listed
            SampleData.db0))
    StaleOrders.db_declined
  /\ SupplierDashboard.click StaleOrders.listed StaleOrders.db_declined
       (fst (SupplierDashboard.updateOrderStatus "o1" "confirmed" StaleOrders.listed
               StaleOrders.db_declined))
       StaleOrders.db_accepted
  /\ map (fun r => (Orders.id r, Orders.status r))
       (Supabase.orders StaleOrders.db_declined)
     = [("o1", "cancelled"); ("o2", "confirmed"); ("o3", "delivered")]
  /\ map (fun r => (Orders.id r, Orders.status r))
       (Supabase.orders StaleOrders.db_accepted)
     = [("o1", "confirmed"); ("o2", "confirmed"); ("o3", "delivered")]
  /\ ~ Forall2 kept_or_allowed
         (Supabase.orders StaleOrders.db_declined)
         (Supabase.orders StaleOrders.db_accepted).
Proof.
  assert (Hlisted : In (SupplierDashboard.mkOrder SampleData.order1
                          (Some SampleData.turmeric))
                       (SupplierDashboard.orders StaleOrders.listed))
    by (simpl; right; left; reflexivity).
  split; [|split; [|split; [|split]]].
  - apply (SupplierDashboard.click_action StaleOrders.listed SampleData.db0
             (SupplierDashboard.mkOrder SampleData.order1 (Some SampleData.turmeric))
             "cancelled" Hlisted).
    simpl. right. left. reflexivity.
  - apply (SupplierDashboard.click_action StaleOrders.listed StaleOrders.db_declined
             (SupplierDashboard.mkOrder SampleData.order1 (Some SampleData.turmeric))
             "confirmed" Hlisted).
    simpl. left. reflexivity.
  - reflexivity.
  - reflexivity.
  - intros H. inversion H as [|r r' l l' Hrow Hrest]; subst.
    destruct Hrow as [Hsame|[_ Hallowed]].
    + discriminate Hsame.
    + unfold allowed_transition in Hallowed. simpl in Hallowed.
      destruct Hallowed as [[Hold _]|[[Hold _]|[Hold _]]]; discriminate Hold.
Qed.

(** C9, amended.  One click on a status button, on whatever list, leaves
    every order row untouched or changed in its status only, to confirmed,
    cancelled or delivered.  Where the list is the one fetched from the
    table as it is and the ids of the table are unique, the change is from
    pending to confirmed, from pending to cancelled or from confirmed to
    delivered.  The card of a delivered or cancelled order carries no
    status button. *)
Theorem supplier_clicks_follow_allowed_transitions
    (st st' : SupplierDashboard.State) (db db' : Supabase.Database) :
  SupplierDashboard.click st db st' db' ->
  Forall2 kept_or_restatused (Supabase.orders db) (Supabase.orders db')
  /\ (forall u,
         NoDup (map Orders.id (Supabase.orders db)) ->
         SupplierDashboard.orders st = SupplierDashboard.select_orders (user_id u) db ->
         Forall2 kept_or_allowed (Supabase.orders db) (Supabase.orders db'))
  /\ (forall o,
         Orders.status (SupplierDashboard.order_row o) = "delivered"
         \/ Orders.status (SupplierDashboard.order_row o) = "cancelled" ->
         SupplierDashboard.orderActions o = []).
Proof.
  intros Hclick. split; [|split].
  - inversion Hclick as [st0 db0 o s Ho Hs]; subst. simpl.
    unfold Supabase.update_eq_id. apply Forall2_map_of.
    intros r Hr.
    destruct (String.eqb (Orders.id r) (Orders.id (SupplierDashboard.order_row o)));
      [|left; reflexivity].
    right. split; [reflexivity|]. simpl.
    unfold SupplierDashboard.orderActions in Hs. apply in_app_iff in Hs.
    destruct Hs as [Hs|Hs].
    + destruct (String.eqb _ "pending"); [|contradiction].
      destruct Hs as [Hs|[Hs|[]]]; subst s; simpl; tauto.
    + destruct (String.eqb _ "confirmed"); [|contradiction].
      destruct Hs as [Hs|[]]; subst s; simpl; tauto.
  - intros u Hnd Hfresh.
    inversion Hclick as [st0 db0 o s Ho Hs]; subst. simpl.
    unfold Supabase.update_eq_id. apply Forall2_map_of.
    intros r Hr.
    destruct (String.eqb_spec (Orders.id r) (Orders.id (SupplierDashboard.order_row o)))
      as [E|E]; [|left; reflexivity].
    right. split; [reflexivity|]. simpl.
    rewrite Hfresh in Ho. apply listed_order_is_stored in Ho.
    rewrite (unique_key Orders.id _ _ _ Hnd Hr Ho E).
    apply order_actions_allowed. exact Hs.
  - intros o [Hd|Hc]; unfold SupplierDashboard.orderActions.
    + rewrite Hd. reflexivity.
    + rewrite Hc. reflexivity.
Qed.

Example supplier_click_sample :
  map Orders.status
    (Supabase.orders
       (snd (SupplierDashboard.updateOrderStatus "o1" "confirmed"
               (SupplierDashboard.fetchOrders SampleData.supplier_state SampleData.db0)
               SampleData.db0)))
  = ["confirmed"; "confirmed"; "delivered"].
Proof. reflexivity. Qed.

Lemma supplier_clicks_follow_allowed_transitions_witness :
  Forall2 kept_or_allowed
    (Supabase.orders SampleData.db0)
    (Supabase.orders
       (snd (SupplierDashboard.updateOrderStatus "o1" "confirmed"
               (SupplierDashboard.fetchOrders SampleData.supplier_state SampleData.db0)
               SampleData.db0))).
Proof.
  refine (proj1 (proj2 (supplier_clicks_follow_allowed_transitions
                   (SupplierDashboard.fetchOrders SampleData.supplier_state
                      SampleData.db0)
                   _ SampleData.db0 _
                   (SupplierDashboard.click_action _ _
                      (SupplierDashboard.mkOrder SampleData.order1
                         (Some SampleData.turmeric))
                      "confirmed" _ _)))
            SampleData.supplier1 _ eq_refl).
  - simpl. right. left. reflexivity.
  - simpl. left. reflexivity.
  - simpl. repeat constructor; simpl; intuition discriminate.
Defined.

(** ** Adding to the cart *)

Lemma filter_map_length {A : Type} (p : A -> bool) (f : A -> A) (l : list A) :
  (forall a, p (f a) = p a) ->
  length (filter p (map f l)) = length (filter p l).
Proof.
  intros Hp. induction l as [|x xs IH]; simpl; [reflexivity|].
  rewrite Hp. destruct (p x); simpl; rewrite IH; reflexivity.
Qed.

(** Where every cart row of the pair has a quantity other than 0,
    [addToCart] keeps the invariant. *)
Lemma add_to_cart_keeps_one_row_per_pair
    (u : User) (materialId : string) (q : number) (g : Supabase.Generated)
    (st : VendorDashboard.State) (db : Supabase.Database) :
  VendorDashboard.user st = Some u ->
  one_row_per_pair db ->
  (forall c, In c (VendorDashboard.cart_rows_of (user_id u) materialId db) ->
             truthy (CartItems.quantity c) = true) ->
  one_row_per_pair (snd (VendorDashboard.addToCart materialId q g st db)).
Proof.
  intros Hu Hinv Hq. unfold VendorDashboard.addToCart. rewrite Hu.
  pose proof (Hinv (user_id u) materialId) as Hlen.
  destruct (VendorDashboard.cart_rows_of (user_id u) materialId db)
    as [|c [|c' rest]] eqn:Hrows; simpl.
  - intros v m. unfold VendorDashboard.cart_rows_of, Supabase.insert. simpl.
    rewrite filter_app, length_app. simpl.
    destruct (String.eqb_spec (user_id u) v) as [Ev|Ev];
      destruct (String.eqb_spec materialId m) as [Em|Em]; simpl;
      try (rewrite Nat.add_0_r; apply Hinv).
    subst v m. unfold VendorDashboard.cart_rows_of in Hrows.
    rewrite Hrows. simpl. apply le_n.
  - rewrite (Hq c (or_introl eq_refl)). simpl.
    intros v m. unfold VendorDashboard.cart_rows_of, Supabase.update_eq_id. simpl.
    rewrite filter_map_length; [apply Hinv|].
    intros a. destruct (String.eqb (CartItems.id a) (CartItems.id c)); reflexivity.
  - simpl in Hlen. lia.
Qed.

(** The existence test of [addToCart] is [existingItem &&
    existingItem.quantity]: on a row of quantity 0 it takes the insert
    branch.  No handler leaves such a row: the quantities of the cart stay
    above 0. *)
Example add_to_cart_on_row_of_quantity_zero :
  Supabase.cart_items
    (snd (VendorDashboard.addToCart "m1" (num 1) CartSample.gen_b
            CartSample.cart_state CartSample.zero_row_db))
  = [CartItems.mk "c1" "v2" "m1" (num 0); CartItems.mk "c2" "v2" "m1" (num 1)].
Proof. reflexivity. Qed.

Example add_to_cart_sample :
  Supabase.cart_items
    (snd (VendorDashboard.addToCart "m1" (num 1) CartSample.gen_b
            CartSample.cart_state CartSample.two_units_db))
  = [CartItems.mk "c1" "v2" "m1" (num 2 + num 1)].
Proof. reflexivity. Qed.

(** ** The analytics figures *)

(** *** Arithmetic of the modelled numbers *)

Lemma this_num (z : Z) : this (num z) = inject_Z z.
Proof.
  unfold num. change (this (Q2Qc (inject_Z z))) with (Qred (inject_Z z)).
  apply Qred_identity. simpl. apply Z.gcd_1_r.
Qed.

Lemma this_mult (x y : Qc) : (this (x * y)%Qc == this x * this y)%Q.
Proof. unfold Qcmult. apply Qred_correct. Qed.

Lemma num_add (a b : Z) : (num a + num b)%Qc = num (a + b).
Proof.
  apply Qc_is_canon. rewrite this_num. unfold Qcplus.
  change (this (Q2Qc (num a + num b))) with (Qred (num a + num b)).
  rewrite Qred_correct, !this_num, inject_Z_plus. reflexivity.
Qed.

Lemma num_le (a b : Z) : (a <= b)%Z -> (num a <= num b)%Qc.
Proof.
  intros H. unfold Qcle. rewrite !this_num. rewrite <- Zle_Qle. exact H.
Qed.

Lemma le_num_this (z : Z) (x : Qc) : (num z <= x)%Qc -> (inject_Z z <= this x)%Q.
Proof. unfold Qcle. rewrite this_num. trivial. Qed.

Lemma lt_num_this (x : Qc) (z : Z) : (x < num z)%Qc -> (this x < inject_Z z)%Q.
Proof. unfold Qclt. rewrite this_num. trivial. Qed.

Lemma floor_bounds (x : Q) (lo hi : Z) :
  (inject_Z lo <= x)%Q -> (x < inject_Z (hi + 1))%Q ->
  (lo <= Qfloor x <= hi)%Z.
Proof.
  intros Hlo Hhi. split.
  - rewrite <- (Qfloor_Z lo). apply Qfloor_resp_le. exact Hlo.
  - pose proof (Qfloor_le x) as H.
    assert (Hlt : (inject_Z (Qfloor x) < inject_Z (hi + 1))%Q)
      by (eapply Qle_lt_trans; eauto).
    rewrite <- Zlt_Qlt in Hlt. lia.
Qed.

Lemma price_changes_range (y : Qc) :
  (num 0 <= y)%Qc -> (y < num 1)%Qc ->
  exists z, (1 <= z <= 10)%Z
            /\ (Analytics.Math_floor (y * num 10) + num 1)%Qc = num z.
Proof.
  intros H0 H1. apply le_num_this in H0. apply lt_num_this in H1.
  unfold Analytics.Math_floor.
  exists (Qfloor (y * num 10)%Qc + 1)%Z. split.
  - assert (Hb : (0 <= Qfloor (y * num 10)%Qc <= 9)%Z).
    { apply floor_bounds; rewrite this_mult, this_num;
        change (inject_Z 0) with 0%Q in *; change (inject_Z 1) with 1%Q in *;
        change (inject_Z 10) with 10%Q; change (inject_Z (9+1)) with 10%Q; lra. }
    lia.
  - apply num_add.
Qed.

Lemma num_100_pos : (Q2Qc 0 < num 100)%Qc.
Proof. reflexivity. Qed.

Lemma nearest_hundredth_range (v : Qc) :
  (num 0 <= v)%Qc -> (v < num 20)%Qc ->
  (num 0 <= Analytics.nearest_hundredth v)%Qc
  /\ (Analytics.nearest_hundredth v <= num 20)%Qc.
Proof.
  intros H0 H1. apply le_num_this in H0. apply lt_num_this in H1.
  unfold Analytics.nearest_hundredth.
  remember (Qfloor (v * num 100 + Q2Qc (1 # 2))) as F eqn:EF.
  assert (HF : (0 <= F <= 2000)%Z).
  { subst F.
    apply floor_bounds; rewrite this_num;
      change (this (Q2Qc (1 # 2))) with (1 # 2)%Q;
      change (inject_Z 0) with 0%Q in *; change (inject_Z 20) with 20%Q in *;
      change (inject_Z 100) with 100%Q; change (inject_Z (2000+1)) with 2001%Q; lra. }
  assert (Hd : (num F / num 100 * num 100)%Qc = num F).
  { field. intros E. apply (f_equal this) in E. discriminate. }
  split; apply (Qcmult_lt_0_le_reg_r _ _ (num 100) num_100_pos); rewrite Hd.
  - replace (num 0 * num 100)%Qc with (num 0) by (apply Qc_is_canon; reflexivity).
    apply num_le. lia.
  - replace (num 20 * num 100)%Qc with (num 2000) by (apply Qc_is_canon; reflexivity).
    apply num_le. lia.
Qed.

Lemma volatility_range (x : Qc) :
  (num 0 <= x)%Qc -> (x < num 1)%Qc ->
  (num 0 <= Analytics.toFixed2 (x * num 20))%Qc
  /\ (Analytics.toFixed2 (x * num 20) <= num 20)%Qc.
Proof.
  intros H0 H1.
  assert (Hv : (num 0 <= x * num 20)%Qc /\ (x * num 20 < num 20)%Qc).
  { apply le_num_this in H0. apply lt_num_this in H1.
    unfold Qcle, Qclt. rewrite this_mult, !this_num.
    change (inject_Z 0) with 0%Q in *; change (inject_Z 1) with 1%Q in *;
    change (inject_Z 20) with 20%Q. lra. }
  destruct Hv as [Hv0 Hv1].
  unfold Analytics.toFixed2, gtb.
  destruct (Qccompare (num 0) (x * num 20)) eqn:E.
  - apply nearest_hundredth_range; assumption.
  - apply nearest_hundredth_range; assumption.
  - exfalso. unfold Qcle in Hv0. unfold Qccompare in E.
    apply Hv0. exact E.
Qed.

(** *** The simulated figures *)

Lemma In_firstn {A : Type} (n : nat) (l : list A) (a : A) :
  In a (firstn n l) -> In a l.
Proof.
  revert l. induction n as [|n IH]; intros [|x xs]; simpl; try tauto.
  intros [H|H]; [left; exact H | right; apply IH; exact H].
Qed.

Lemma calculateVolatility_figures (db : Supabase.Database) (r : Analytics.Rng) :
  fst (Analytics.calculateVolatility db r)
  = firstn 8
      (stable_sort
         (fun a b => geb (Analytics.volatility a) (Analytics.volatility b))
         (fst (Analytics.simulate (Supabase.materials db) r))).
Proof.
  unfold Analytics.calculateVolatility.
  destruct (Analytics.simulate (Supabase.materials db) r). reflexivity.
Qed.

Lemma simulate_cons (m : Materials.Row) (ms : list Materials.Row) (r : Analytics.Rng) :
  fst (Analytics.simulate (m :: ms) r)
  = Analytics.mkMaterialVolatility (Materials.name m)
      (Analytics.toFixed2 (Analytics.draws r (Analytics.drawn r) * num 20))
      (Materials.price m)
      (Analytics.Math_floor (Analytics.draws r (S (Analytics.drawn r)) * num 10) + num 1)
    :: fst (Analytics.simulate ms
              (Analytics.mkRng (Analytics.draws r) (S (S (Analytics.drawn r))))).
Proof.
  simpl. destruct (Analytics.simulate ms _). reflexivity.
Qed.

Lemma simulate_length (ms : list Materials.Row) (r : Analytics.Rng) :
  length (fst (Analytics.simulate ms r)) = length ms.
Proof.
  revert r. induction ms as [|m ms IH]; intros r; [reflexivity|].
  rewrite simulate_cons. simpl. rewrite IH. reflexivity.
Qed.

Lemma simulate_plausible (ms : list Materials.Row) (r : Analytics.Rng)
    (f : Analytics.MaterialVolatility) :
  in_unit_interval r ->
  In f (fst (Analytics.simulate ms r)) ->
  plausible_figure ms f.
Proof.
  revert r. induction ms as [|m ms IH]; intros r Hr Hin; [contradiction|].
  rewrite simulate_cons in Hin. destruct Hin as [Hf|Hin].
  - subst f. unfold plausible_figure. simpl.
    destruct (Hr (Analytics.drawn r)) as [Hx0 Hx1].
    destruct (Hr (S (Analytics.drawn r))) as [Hy0 Hy1].
    destruct (volatility_range _ Hx0 Hx1) as [Hv0 Hv1].
    repeat split; try assumption.
    + exists m. auto.
    + apply price_changes_range; assumption.
  - assert (Hr' : in_unit_interval
                    (Analytics.mkRng (Analytics.draws r) (S (S (Analytics.drawn r)))))
      by exact Hr.
    destruct (IH _ Hr' Hin) as [[m' [Hm' Hnm]] Hrest].
    split; [|exact Hrest]. exists m'. split; [right; exact Hm' | exact Hnm].
Qed.

Lemma simulate_same_draws (ms : list Materials.Row) (r1 r2 : Analytics.Rng) :
  same_next_draws (2 * length ms) r1 r2 ->
  fst (Analytics.simulate ms r1) = fst (Analytics.simulate ms r2).
Proof.
  revert r1 r2. induction ms as [|m ms IH]; intros r1 r2 Hs; [reflexivity|].
  rewrite !simulate_cons.
  assert (H0 : Analytics.draws r1 (Analytics.drawn r1)
               = Analytics.draws r2 (Analytics.drawn r2)).
  { pose proof (Hs 0%nat) as H. rewrite !Nat.add_0_r in H. apply H. simpl. lia. }
  assert (H1 : Analytics.draws r1 (S (Analytics.drawn r1))
               = Analytics.draws r2 (S (Analytics.drawn r2))).
  { pose proof (Hs 1%nat) as H. rewrite !Nat.add_1_r in H. apply H. simpl. lia. }
  rewrite H0, H1. f_equal. apply IH.
  intros i Hi. simpl.
  pose proof (Hs (S (S i))) as H.
  replace (Analytics.drawn r1 + S (S i))%nat with (S (S (Analytics.drawn r1 + i))) in H by lia.
  replace (Analytics.drawn r2 + S (S i))%nat with (S (S (Analytics.drawn r2 + i))) in H by lia.
  apply H. simpl in *. lia.
Qed.

Example figures_sample :
  map (fun f => (Analytics.material_name f, this (Analytics.volatility f),
                 this (Analytics.price_changes f)))
      (fst (Analytics.calculateVolatility SampleData.db0 RandomSample.always_half))
  = [("Turmeric", 10 # 1, 6 # 1); ("Chili", 10 # 1, 6 # 1)]
  /\ map (fun f => (Analytics.material_name f, this (Analytics.volatility f),
                    this (Analytics.price_changes f)))
       (fst (Analytics.calculateVolatility SampleData.db0 RandomSample.always_zero))
     = [("Turmeric", 0 # 1, 1 # 1); ("Chili", 0 # 1, 1 # 1)].
Proof. split; reflexivity. Qed.

(** C7, as stated, fails: over the same fetched materials, an evaluation
    in which [Math.random] returns 0 and one in which it returns 1/2
    give the figures 0% with 1 change and 10% with 6 changes. *)
Lemma figures_differ_between_evaluations :
  ~ figures_determined_by_fetched_data.
Proof.
  intros H.
  specialize (H SampleData.db0 RandomSample.always_zero RandomSample.always_half).
  apply (f_equal (map (fun f => this (Analytics.volatility f)))) in H.
  vm_compute in H. discriminate.
Qed.

(** C7, amended.  The figures are a function of the fetched materials and
    of the values [Math.random] returns: two evaluations that fetch the
    same materials and draw the same values, two per material, give the
    same figures, whatever the price history and the other tables hold.  Whatever is drawn, there are as many figures as materials,
    at most 8; each carries the name and the price of a fetched material,
    a volatility from 0 to 20 and a whole number of price changes from 1
    to 10. *)
Theorem figures_determined_by_data_and_draws
    (db : Supabase.Database) (r : Analytics.Rng) :
  in_unit_interval r ->
  let figs := fst (Analytics.calculateVolatility db r) in
  (forall db2 r2,
      Supabase.materials db2 = Supabase.materials db ->
      same_next_draws (2 * length (Supabase.materials db)) r r2 ->
      fst (Analytics.calculateVolatility db2 r2) = figs)
  /\ length figs = Nat.min 8 (length (Supabase.materials db))
  /\ (forall f, In f figs -> plausible_figure (Supabase.materials db) f).
Proof.
  intros Hr figs. unfold figs. rewrite calculateVolatility_figures.
  split; [|split].
  - intros db2 r2 Hm Hs. rewrite calculateVolatility_figures, Hm.
    rewrite (simulate_same_draws _ _ _ Hs). reflexivity.
  - rewrite length_firstn, stable_sort_length, simulate_length. reflexivity.
  - intros f Hf. apply In_firstn in Hf. apply stable_sort_In in Hf.
    apply (simulate_plausible _ r); assumption.
Qed.

Lemma figures_determined_by_data_and_draws_witness :
  length (fst (Analytics.calculateVolatility SampleData.db0 RandomSample.always_half))
  = Nat.min 8 (length (Supabase.materials SampleData.db0)).
Proof.
  refine (proj1 (proj2 (figures_determined_by_data_and_draws SampleData.db0
                          RandomSample.always_half _))).
  intros i. split; [vm_compute; discriminate | reflexivity].
Defined.

(** * Further properties of the code *)

(** ** The cart dialog *)

Lemma filter_of_map {A B : Type} (f : A -> B) (p : B -> bool) (l : list A) :
  filter p (map f l) = map f (filter (fun a => p (f a)) l).
Proof.
  induction l as [|a l IH]; simpl; [reflexivity|].
  destruct (p (f a)); simpl; rewrite IH; reflexivity.
Qed.

(** A rewrite of rows that keeps the filtered column passes through the
    filter. *)
Lemma filter_map_kept {A : Type} (p : A -> bool) (f : A -> A) (l : list A) :
  (forall a, p (f a) = p a) ->
  filter p (map f l) = map f (filter p l).
Proof.
  intros Hp. rewrite filter_of_map. f_equal. apply filter_ext. exact Hp.
Qed.

Lemma filter_swap {A : Type} (p q : A -> bool) (l : list A) :
  filter p (filter q l) = filter q (filter p l).
Proof.
  induction l as [|a l IH]; simpl; [reflexivity|].
  destruct (p a) eqn:Hp, (q a) eqn:Hq; simpl; rewrite ?Hp, ?Hq, IH; reflexivity.
Qed.

Example cart_view_sample :
  map (fun i => (CartItems.id (Cart.item_row i), this (CartItems.quantity (Cart.item_row i))))
      (Cart.cartItems
         (fst (Cart.updateQuantity "c3" (num 7) CartFlow.market_view CartFlow.market_db)))
  = [("c1", 2 # 1); ("c3", 7 # 1); ("c4", 4 # 1)]
  /\ map CartItems.id
       (Supabase.cart_items
          (snd (Cart.updateQuantity "c3" (num 0) CartFlow.market_view CartFlow.market_db)))
     = ["c1"; "c2"; "c4"].
Proof. split; reflexivity. Qed.

(** X1. A cart dialog that shows the stored cart of the vendor still shows
    it after [updateQuantity], whatever the new quantity, and after
    [removeFromCart]: the local edit of [cartItems] gives the list a fresh
    [fetchCartItems] would give. *)
Theorem cart_edits_keep_dialog_in_sync
    (uid cartItemId : string) (q : number) (st : Cart.State) (db : Supabase.Database) :
  Cart.cartItems st = Cart.select_cart_items uid db ->
  Cart.cartItems (fst (Cart.updateQuantity cartItemId q st db))
  = Cart.select_cart_items uid (snd (Cart.updateQuantity cartItemId q st db))
  /\ Cart.cartItems (fst (Cart.removeFromCart cartItemId st db))
     = Cart.select_cart_items uid (snd (Cart.removeFromCart cartItemId st db)).
Proof.
  intros Hsync.
  assert (Hrem : Cart.cartItems (fst (Cart.removeFromCart cartItemId st db))
                 = Cart.select_cart_items uid (snd (Cart.removeFromCart cartItemId st db))).
  { simpl. rewrite Hsync. unfold Cart.select_cart_items. simpl.
    rewrite filter_of_map. simpl. f_equal. apply filter_swap. }
  split; [|exact Hrem].
  unfold Cart.updateQuantity. destruct (geb (num 0) q); [exact Hrem|].
  simpl. rewrite Hsync. unfold Cart.select_cart_items, Supabase.update_eq_id. simpl.
  rewrite filter_map_kept.
  - rewrite !map_map. apply map_ext. intros r. simpl.
    destruct (String.eqb (CartItems.id r) cartItemId); reflexivity.
  - intros r. destruct (String.eqb (CartItems.id r) cartItemId); reflexivity.
Qed.

Lemma cart_edits_keep_dialog_in_sync_witness :
  Cart.cartItems
    (fst (Cart.updateQuantity "c3" (num 7) CartFlow.market_view CartFlow.market_db))
  = Cart.select_cart_items "v2"
      (snd (Cart.updateQuantity "c3" (num 7) CartFlow.market_view CartFlow.market_db)).
Proof.
  exact (proj1 (cart_edits_keep_dialog_in_sync "v2" "c3" (num 7)
                  CartFlow.market_view CartFlow.market_db eq_refl)).
Defined.

(** *** What the cart keeps *)

Lemma positive_is_truthy (x : number) : (num 0 < x)%Qc -> truthy x = true.
Proof.
  intros Hx. unfold truthy.
  destruct (Qc_eq_bool x (num 0)) eqn:E; [|reflexivity].
  apply Qc_eq_bool_correct in E. subst x. exfalso.
  apply (Qclt_not_le _ _ Hx). apply Qcle_refl.
Qed.

Lemma not_geb_zero (q : number) : geb (num 0) q = false -> (num 0 < q)%Qc.
Proof.
  unfold geb, Qclt, Qccompare, Qlt.
  destruct (Qcompare (num 0) q) eqn:E; try discriminate. intros _.
  rewrite <- Qlt_alt in E. exact E.
Qed.

Lemma this_plus (x y : Qc) : (this (x + y)%Qc == this x + this y)%Q.
Proof. unfold Qcplus. apply Qred_correct. Qed.

Lemma lt_num_this_l (z : Z) (x : Qc) : (num z < x)%Qc -> (inject_Z z < this x)%Q.
Proof. unfold Qclt. rewrite this_num. trivial. Qed.

Lemma positive_sum (a b : number) :
  (num 0 < a)%Qc -> (num 0 < b)%Qc -> (num 0 < a + b)%Qc.
Proof.
  intros Ha Hb. apply lt_num_this_l in Ha. apply lt_num_this_l in Hb.
  unfold Qclt. rewrite this_num, this_plus.
  change (inject_Z 0) with 0%Q in *. lra.
Qed.

Lemma length_filter_le {A : Type} (p : A -> bool) (l : list A) :
  (length (filter p l) <= length l)%nat.
Proof.
  induction l as [|a l IH]; simpl; [lia|]. destruct (p a); simpl; lia.
Qed.

Lemma remove_keeps_cart_invariants (cartItemId : string) (st : Cart.State)
    (db : Supabase.Database) :
  one_row_per_pair db -> positive_quantities db ->
  one_row_per_pair (snd (Cart.removeFromCart cartItemId st db))
  /\ positive_quantities (snd (Cart.removeFromCart cartItemId st db)).
Proof.
  intros Hone Hpos. split.
  - intros v m. unfold VendorDashboard.cart_rows_of. simpl.
    rewrite filter_swap.
    eapply Nat.le_trans; [apply length_filter_le | apply Hone].
  - intros r Hr. simpl in Hr. apply filter_In in Hr. apply Hpos. tauto.
Qed.

Lemma update_keeps_cart_invariants (cartItemId : string) (q : number)
    (st : Cart.State) (db : Supabase.Database) :
  one_row_per_pair db -> positive_quantities db ->
  one_row_per_pair (snd (Cart.updateQuantity cartItemId q st db))
  /\ positive_quantities (snd (Cart.updateQuantity cartItemId q st db)).
Proof.
  intros Hone Hpos. unfold Cart.updateQuantity.
  destruct (geb (num 0) q) eqn:Hq.
  - apply remove_keeps_cart_invariants; assumption.
  - apply not_geb_zero in Hq. split.
    + intros v m. unfold VendorDashboard.cart_rows_of, Supabase.update_eq_id. simpl.
      rewrite filter_map_length; [apply Hone|].
      intros a. destruct (String.eqb (CartItems.id a) cartItemId); reflexivity.
    + intros r Hr. simpl in Hr. unfold Supabase.update_eq_id in Hr.
      apply in_map_iff in Hr. destruct Hr as [r0 [Hr Hin]].
      destruct (String.eqb (CartItems.id r0) cartItemId); subst r.
      * exact Hq.
      * apply Hpos. exact Hin.
Qed.

Lemma add_keeps_cart_invariants (u : User) (materialId : string) (q : number)
    (g : Supabase.Generated) (st : VendorDashboard.State) (db : Supabase.Database) :
  VendorDashboard.user st = Some u ->
  (num 0 < q)%Qc ->
  one_row_per_pair db -> positive_quantities db ->
  one_row_per_pair (snd (VendorDashboard.addToCart materialId q g st db))
  /\ positive_quantities (snd (VendorDashboard.addToCart materialId q g st db)).
Proof.
  intros Hu Hq Hone Hpos. split.
  - apply (add_to_cart_keeps_one_row_per_pair u); try assumption.
    intros c Hc. apply positive_is_truthy. apply Hpos.
    unfold VendorDashboard.cart_rows_of in Hc. apply filter_In in Hc. tauto.
  - unfold VendorDashboard.addToCart. rewrite Hu.
    assert (Hins : positive_quantities
                     (Supabase.with_cart_items
                        (Supabase.insert
                           (CartItems.mk (Supabase.gen_id g) (user_id u) materialId q))
                        db)).
    { intros r Hr. simpl in Hr. unfold Supabase.insert in Hr.
      apply in_app_iff in Hr. destruct Hr as [Hr|[Hr|[]]].
      - apply Hpos. exact Hr.
      - subst r. exact Hq. }
    destruct (Supabase.maybeSingle _) as [item|] eqn:Hsingle; simpl; [|exact Hins].
    destruct (truthy (CartItems.quantity item)); [|exact Hins].
    assert (Hitem : In item (Supabase.cart_items db)).
    { unfold Supabase.maybeSingle in Hsingle.
      destruct (VendorDashboard.cart_rows_of (user_id u) materialId db)
        as [|c [|c' rest]] eqn:Hrows; try discriminate.
      inversion Hsingle; subst c.
      assert (Hin : In item (VendorDashboard.cart_rows_of (user_id u) materialId db))
        by (rewrite Hrows; left; reflexivity).
      unfold VendorDashboard.cart_rows_of in Hin. apply filter_In in Hin. tauto. }
    intros r Hr. simpl in Hr. unfold Supabase.update_eq_id in Hr.
    apply in_map_iff in Hr. destruct Hr as [r0 [Hr Hin]].
    destruct (String.eqb (CartItems.id r0) (CartItems.id item)); subst r.
    + simpl. apply positive_sum; [apply Hpos; exact Hitem | exact Hq].
    + apply Hpos. exact Hin.
Qed.



(** *** The carts the application can leave *)

(** The two invariants read [cart_items] alone. *)
Lemma cart_invariants_of_rows (db db' : Supabase.Database) :
  Supabase.cart_items db' = Supabase.cart_items db ->
  one_row_per_pair db /\ positive_quantities db ->
  one_row_per_pair db' /\ positive_quantities db'.
Proof.
  intros Hrows [Hone Hpos]. split.
  - intros v m. unfold VendorDashboard.cart_rows_of. rewrite Hrows. apply Hone.
  - intros r Hr. rewrite Hrows in Hr. apply Hpos. exact Hr.
Qed.

Lemma checkout_keeps_cart_invariants (user : option User)
    (gen : nat -> Supabase.Generated) (st : Cart.State) (db : Supabase.Database) :
  one_row_per_pair db /\ positive_quantities db ->
  one_row_per_pair (snd (fst (Cart.checkout user gen st db)))
  /\ positive_quantities (snd (fst (Cart.checkout user gen st db))).
Proof.
  intros [Hone Hpos]. unfold Cart.checkout.
  destruct user as [u|]; [|split; assumption].
  destruct (Cart.cartItems st); [split; assumption|].
  destruct (Cart.group_by_supplier _ _); [|split; assumption].
  simpl. split.
  - intros v m. unfold VendorDashboard.cart_rows_of. simpl.
    rewrite filter_swap.
    eapply Nat.le_trans; [apply length_filter_le | apply Hone].
  - intros r Hr. simpl in Hr. apply filter_In in Hr. apply Hpos. tauto.
Qed.

(** Every cart the application can leave has at most one row for each
    vendor and material, and quantities above 0. *)
Lemma reachable_cart_invariants (db : Supabase.Database) :
  CartFlow.reachable db -> one_row_per_pair db /\ positive_quantities db.
Proof.
  induction 1 as [db Hempty | db material g st _ IH | db k q st _ IH
                  | db k st _ IH | db user gen st _ IH | db db' _ IH Hrows].
  - split.
    + intros v m. unfold VendorDashboard.cart_rows_of. rewrite Hempty. simpl. lia.
    + intros r Hr. rewrite Hempty in Hr. contradiction.
  - destruct IH as [Hone Hpos]. unfold VendorDashboard.onAddToCartClick.
    destruct (VendorDashboard.user st) as [u|] eqn:Hu.
    + apply (add_keeps_cart_invariants u); try assumption. reflexivity.
    + unfold VendorDashboard.addToCart. rewrite Hu. split; assumption.
  - destruct IH as [Hone Hpos]. apply update_keeps_cart_invariants; assumption.
  - destruct IH as [Hone Hpos]. apply remove_keeps_cart_invariants; assumption.
  - apply checkout_keeps_cart_invariants. exact IH.
  - apply (cart_invariants_of_rows db db' Hrows IH).
Qed.



Example added_twice_sample :
  map (fun r => (CartItems.id r, this (CartItems.quantity r)))
    (Supabase.cart_items CartFlow.added_twice) = [("c1", 2%Q)]
  /\ map (fun r => (CartItems.id r, this (CartItems.quantity r)))
       (Supabase.cart_items
          (snd (VendorDashboard.addToCart "m1" (num 1) CartSample.gen_b
                  CartSample.cart_state CartFlow.added_twice)))
     = [("c1", 3%Q)].
Proof. split; reflexivity. Qed.

(** *** Grouping by key *)

Lemma push_own_perm {V : Type} (k : string) (v : V) (o : JsObject.t (list V)) :
  Permutation (concat (map snd (JsObject.push_own k v o))) (concat (map snd o) ++ [v]).
Proof.
  induction o as [|[k' vs] rest IH]; simpl.
  - apply Permutation_refl.
  - destruct (String.eqb k' k); simpl.
    + rewrite <- !app_assoc. apply Permutation_app_head. apply Permutation_app_comm.
    + rewrite <- app_assoc. apply Permutation_app_head. exact IH.
Qed.

Lemma push_own_In {V : Type} (k : string) (v : V) (o : JsObject.t (list V))
    (k' : string) (vs' : list V) (x : V) :
  In (k', vs') (JsObject.push_own k v o) -> In x vs' ->
  (k' = k /\ x = v) \/ (exists vs, In (k', vs) o /\ In x vs).
Proof.
  induction o as [|[k0 vs0] rest IH]; simpl.
  - intros [H|[]] Hx. inversion H; subst. destruct Hx as [Hx|[]]. left. auto.
  - destruct (String.eqb_spec k0 k) as [E|E]; simpl; intros [H|H] Hx.
    + inversion H; subst. apply in_app_iff in Hx. destruct Hx as [Hx|[Hx|[]]].
      * right. exists vs0. auto.
      * left. auto.
    + right. exists vs'. auto.
    + inversion H; subst. right. exists vs'. auto.
    + destruct (IH H Hx) as [Hl|[vs [Hin Hxs]]]; [left; exact Hl|].
      right. exists vs. auto.
Qed.

Lemma entries_perm {V : Type} (o : JsObject.t V) :
  Permutation (JsObject.entries o) o.
Proof.
  unfold JsObject.entries.
  eapply Permutation_trans.
  - apply Permutation_app_tail. apply stable_sort_perm.
  - induction o as [|a o IH]; simpl; [apply perm_nil|].
    destruct (JsObject.is_index (fst a)); simpl.
    + apply perm_skip. exact IH.
    + eapply Permutation_trans; [apply Permutation_sym, Permutation_middle|].
      apply perm_skip. exact IH.
Qed.

Lemma concat_map_perm {A B : Type} (f : A -> list B) (l l' : list A) :
  Permutation l l' -> Permutation (concat (map f l)) (concat (map f l')).
Proof.
  induction 1; simpl.
  - apply perm_nil.
  - apply Permutation_app_head. assumption.
  - rewrite !app_assoc. apply Permutation_app_tail. apply Permutation_app_comm.
  - eapply Permutation_trans; eassumption.
Qed.

Lemma sum_from (l : list number) (a : number) :
  fold_left Qcplus l a = (a + sum_numbers l)%Qc.
Proof.
  unfold sum_numbers. revert a. induction l as [|x l IH]; intros a; simpl.
  - symmetry. apply Qcplus_0_r.
  - rewrite IH, (IH (num 0 + x)%Qc).
    change (num 0) with (Q2Qc 0). rewrite Qcplus_0_l. symmetry. apply Qcplus_assoc.
Qed.

Lemma sum_numbers_perm (l l' : list number) :
  Permutation l l' -> sum_numbers l = sum_numbers l'.
Proof.
  unfold sum_numbers. intros HP. generalize (num 0).
  induction HP; intros a; simpl.
  - reflexivity.
  - apply IHHP.
  - f_equal. rewrite <- !Qcplus_assoc. f_equal. apply Qcplus_comm.
  - rewrite IHHP1. apply IHHP2.
Qed.

(** *** The grouping loop of the checkout *)

Lemma group_by_supplier_run (items : list Cart.CartItem)
    (acc : JsObject.t (list (CartItems.Row * Materials.Row))) :
  groupable items ->
  exists o,
    Cart.group_by_supplier items acc = Some o
    /\ Permutation (concat (map snd o)) (concat (map snd acc) ++ Cart.resolved items)
    /\ (forall k vs im,
           In (k, vs) o -> In im vs ->
           Materials.supplier_id (snd im) = k
           \/ exists vs0, In (k, vs0) acc /\ In im vs0).
Proof.
  revert acc. induction items as [|item rest IH]; intros acc Hok.
  - exists acc. simpl. rewrite app_nil_r. repeat split.
    + apply Permutation_refl.
    + intros k vs im Hin Him. right. exists vs. auto.
  - destruct (Hok item (or_introl eq_refl)) as [m [Hm Hkey]].
    assert (Hrest : groupable rest)
      by (intros i Hi; apply Hok; right; exact Hi).
    destruct (IH (JsObject.push_own (Materials.supplier_id m) (Cart.item_row item, m) acc)
                Hrest) as [o [Hrun [Hperm Hkeys]]].
    exists o. simpl. unfold JsObject.group_push. rewrite Hm, Hkey.
    split; [exact Hrun|]. split.
    + eapply Permutation_trans; [exact Hperm|].
      eapply Permutation_trans; [apply Permutation_app_tail, push_own_perm|].
      rewrite <- app_assoc. apply Permutation_refl.
    + intros k vs im Hin Him.
      destruct (Hkeys k vs im Hin Him) as [Hk|[vs0 [Hin0 Him0]]]; [left; exact Hk|].
      destruct (push_own_In _ _ _ _ _ _ Hin0 Him0) as [[Hk Hx]|Hold].
      * left. subst. reflexivity.
      * right. exact Hold.
Qed.

Lemma group_by_supplier_fails (items : list Cart.CartItem)
    (acc : JsObject.t (list (CartItems.Row * Materials.Row))) (bad : Cart.CartItem) :
  In bad items ->
  (Cart.item_materials bad = None
   \/ exists m, Cart.item_materials bad = Some m
                /\ JsObject.inherited (Materials.supplier_id m) = true) ->
  Cart.group_by_supplier items acc = None.
Proof.
  revert acc. induction items as [|item rest IH]; intros acc Hin Hbad; [contradiction|].
  simpl. destruct (Cart.item_materials item) as [m|] eqn:Hm; [|reflexivity].
  unfold JsObject.group_push.
  destruct (JsObject.inherited (Materials.supplier_id m)) eqn:Hk; [reflexivity|].
  destruct Hin as [Hin|Hin].
  - subst bad. destruct Hbad as [Hn|[m' [Hm' Hk']]]; [congruence|].
    rewrite Hm in Hm'. inversion Hm'; subst. congruence.
  - apply IH; assumption.
Qed.

(** *** The orders of a checkout *)

Lemma inserted_rows_view {V : Type} (view : Orders.Row -> V)
    (payloads : list (Supabase.Generated -> Orders.Row))
    (gen : nat -> Supabase.Generated) (g0 : Supabase.Generated) (s : nat) :
  (forall mk g, In mk payloads -> view (mk g) = view (mk g0)) ->
  map view (map (fun p => snd p (gen (fst p)))
              (combine (seq s (length payloads)) payloads))
  = map (fun mk => view (mk g0)) payloads.
Proof.
  revert s. induction payloads as [|mk rest IH]; intros s Hind; [reflexivity|].
  simpl. rewrite (Hind mk (gen s) (or_introl eq_refl)). f_equal.
  apply IH. intros mk' g Hin. apply Hind. right. exact Hin.
Qed.

Lemma grouped_orders_view (uid : string) (g0 : Supabase.Generated)
    (groups : list (string * list (CartItems.Row * Materials.Row))) :
  (forall k vs im, In (k, vs) groups -> In im vs ->
                   Materials.supplier_id (snd im) = k) ->
  map (fun mk => order_view (mk g0))
    (concat (map (Cart.supplier_orders uid) groups))
  = map (item_order uid) (concat (map snd groups)).
Proof.
  induction groups as [|[k vs] rest IH]; intros Hkeys; [reflexivity|].
  simpl. rewrite !map_app. f_equal.
  - unfold Cart.supplier_orders. simpl. rewrite map_map.
    apply map_ext_in. intros im Him. unfold item_order, order_view. simpl.
    rewrite (Hkeys k vs im (or_introl eq_refl) Him). reflexivity.
  - apply IH. intros k' vs' im Hin Him. apply (Hkeys k' vs' im); [right|]; assumption.
Qed.

Lemma totalAmount_is_sum (items : list (CartItems.Row * Materials.Row)) :
  Cart.totalAmount items
  = sum_numbers (map (fun im => (Materials.price (snd im) * CartItems.quantity (fst im))%Qc)
                   items).
Proof.
  unfold Cart.totalAmount, sum_numbers. generalize (num 0).
  induction items as [|im rest IH]; intros a; simpl; [reflexivity|]. apply IH.
Qed.

Lemma resolved_length (items : list Cart.CartItem) :
  groupable items -> length (Cart.resolved items) = length items.
Proof.
  induction items as [|item rest IH]; intros Hok; [reflexivity|].
  destruct (Hok item (or_introl eq_refl)) as [m [Hm _]].
  unfold Cart.resolved. simpl. rewrite Hm. simpl. f_equal.
  apply IH. intros i Hi. apply Hok. right. exact Hi.
Qed.

(** The result of a checkout whose grouping loop completes. *)
Lemma checkout_success (u : User) (gen : nat -> Supabase.Generated)
    (st : Cart.State) (db : Supabase.Database)
    (o : JsObject.t (list (CartItems.Row * Materials.Row))) :
  Cart.cartItems st <> [] ->
  Cart.group_by_supplier (Cart.cartItems st) [] = Some o ->
  Cart.checkout (Some u) gen st db
  = (Cart.mkState [] (Cart.loading st) false
       (Cart.toasts st ++ ["Checkout successful!"]),
     Supabase.with_cart_items
       (filter (fun r => negb (String.eqb (CartItems.vendor_id r) (user_id u))))
       (Supabase.with_order_summary_logs
          (Supabase.insert
             (OrderSummaryLogs.mk (user_id u) ""
                (Cart.checkout_summary (length (Cart.cartItems st))
                   (Cart.totalAmount (Cart.resolved (Cart.cartItems st))))))
          (Supabase.with_orders
             (Cart.insert_rows
                (concat (map (Cart.supplier_orders (user_id u)) (JsObject.entries o)))
                gen)
             db)),
     true).
Proof.
  intros Hne Hrun. unfold Cart.checkout. rewrite Hrun.
  destruct (Cart.cartItems st); [contradiction | reflexivity].
Qed.

Example checkout_sample :
  map (fun r => (Orders.id r, Orders.supplier_id r, Orders.material_id r,
                 this (Orders.total_price r)))
      (Supabase.orders
         (snd (fst (Cart.checkout (Some SampleData.vendor2) CartFlow.gen_seq
                      CartFlow.market_view CartFlow.market_db))))
  = [("a", "s1", "m1", 200 # 1); ("b", "s1", "m1", 400 # 1); ("c", "s2", "m3", 1500 # 1)]
  /\ map CartItems.id
       (Supabase.cart_items
          (snd (fst (Cart.checkout (Some SampleData.vendor2) CartFlow.gen_seq
                       CartFlow.market_view CartFlow.market_db))))
     = ["c2"].
Proof. split; reflexivity. Qed.

(** X3. A checkout of a non-empty cart whose items all have their
    material appends one order row for each cart item: the new rows are,
    up to their order, the items' orders (the vendor, the supplier of the
    material, the material, the quantity, price times quantity,
    'individual'), and their [total_price] columns add up to the total
    amount the dialog shows. *)
Theorem checkout_places_one_order_per_item
    (u : User) (gen : nat -> Supabase.Generated) (st : Cart.State)
    (db : Supabase.Database) :
  Cart.cartItems st <> [] ->
  groupable (Cart.cartItems st) ->
  exists new,
    Supabase.orders (snd (fst (Cart.checkout (Some u) gen st db)))
    = Supabase.orders db ++ new
    /\ length new = length (Cart.cartItems st)
    /\ Permutation (map order_view new)
         (map (item_order (user_id u)) (Cart.resolved (Cart.cartItems st)))
    /\ sum_numbers (map Orders.total_price new)
       = Cart.totalAmount (Cart.resolved (Cart.cartItems st)).
Proof.
  intros Hne Hok.
  destruct (group_by_supplier_run _ [] Hok) as [o [Hrun [Hperm Hkeys]]].
  rewrite (checkout_success u gen st db o Hne Hrun).
  remember (Cart.cartItems st) as items eqn:Hitems. clear Hitems.
  simpl in Hperm.
  assert (Hkeys' : forall k vs im, In (k, vs) (JsObject.entries o) -> In im vs ->
                                   Materials.supplier_id (snd im) = k).
  { intros k vs im Hin Him.
    apply (Permutation_in _ (entries_perm o)) in Hin.
    destruct (Hkeys k vs im Hin Him) as [Hk|[vs0 [[] _]]]. exact Hk. }
  simpl. unfold Cart.insert_rows.
  eexists. split; [reflexivity|].
  assert (Hview : Permutation
                    (map order_view
                       (map (fun p => snd p (gen (fst p)))
                          (combine
                             (seq 0 (length (concat (map (Cart.supplier_orders (user_id u))
                                                       (JsObject.entries o)))))
                             (concat (map (Cart.supplier_orders (user_id u))
                                        (JsObject.entries o))))))
                    (map (item_order (user_id u)) (Cart.resolved items))).
  { rewrite (inserted_rows_view order_view _ gen (gen 0%nat)).
    - rewrite (grouped_orders_view _ _ _ Hkeys'). apply Permutation_map.
      eapply Permutation_trans; [|exact Hperm].
      apply concat_map_perm. apply entries_perm.
    - intros mk g Hin. apply in_concat in Hin. destruct Hin as [l [Hl Hmk]].
      apply in_map_iff in Hl. destruct Hl as [grp [Hl _]]. subst l.
      unfold Cart.supplier_orders in Hmk. apply in_map_iff in Hmk.
      destruct Hmk as [im [Hmk _]]. subst mk. reflexivity. }
  split; [|split].
  - rewrite <- (resolved_length items Hok).
    apply Permutation_length in Hview. rewrite !length_map in Hview.
    rewrite length_map. exact Hview.
  - exact Hview.
  - rewrite totalAmount_is_sum.
    replace (map Orders.total_price
               (map (fun p => snd p (gen (fst p)))
                  (combine
                     (seq 0 (length (concat (map (Cart.supplier_orders (user_id u))
                                               (JsObject.entries o)))))
                     (concat (map (Cart.supplier_orders (user_id u))
                                (JsObject.entries o))))))
      with (map (fun v => snd (fst v))
              (map order_view
                 (map (fun p => snd p (gen (fst p)))
                    (combine
                       (seq 0 (length (concat (map (Cart.supplier_orders (user_id u))
                                                 (JsObject.entries o)))))
                       (concat (map (Cart.supplier_orders (user_id u))
                                  (JsObject.entries o)))))))
      by (rewrite map_map; reflexivity).
    rewrite (sum_numbers_perm _ _ (Permutation_map (fun v => snd (fst v)) Hview)).
    rewrite map_map. reflexivity.
Qed.

Lemma filter_all {A : Type} (p : A -> bool) (l : list A) :
  (forall a, In a l -> p a = true) -> filter p l = l.
Proof.
  induction l as [|a l IH]; intros Hall; simpl; [reflexivity|].
  rewrite (Hall a (or_introl eq_refl)). f_equal.
  apply IH. intros b Hb. apply Hall. right. exact Hb.
Qed.

Lemma market_view_groupable : groupable (Cart.cartItems CartFlow.market_view).
Proof.
  intros item Hin. simpl in Hin.
  destruct Hin as [H|[H|[H|[]]]]; subst item; eexists; split; reflexivity.
Qed.

Lemma checkout_places_one_order_per_item_witness :
  exists new,
    Supabase.orders
      (snd (fst (Cart.checkout (Some SampleData.vendor2) CartFlow.gen_seq
                   CartFlow.market_view CartFlow.market_db)))
    = Supabase.orders CartFlow.market_db ++ new
    /\ length new = length (Cart.cartItems CartFlow.market_view)
    /\ Permutation (map order_view new)
         (map (item_order (user_id SampleData.vendor2))
            (Cart.resolved (Cart.cartItems CartFlow.market_view)))
    /\ sum_numbers (map Orders.total_price new)
       = Cart.totalAmount (Cart.resolved (Cart.cartItems CartFlow.market_view)).
Proof.
  apply (checkout_places_one_order_per_item SampleData.vendor2 CartFlow.gen_seq
           CartFlow.market_view CartFlow.market_db).
  - simpl. discriminate.
  - intros item Hin. simpl in Hin.
    destruct Hin as [H|[H|[H|[]]]]; subst item; eexists; split; reflexivity.
Defined.

(** X4. A checkout that goes through deletes the cart rows of the vendor
    and no other cart row, so that the emptied dialog shows what a fetch
    would show and the carts of the other vendors read as before; it adds
    one summary log row, and it leaves the materials (their stock
    included) and the group orders as they are. *)
Theorem checkout_empties_own_cart_only
    (u : User) (gen : nat -> Supabase.Generated) (st : Cart.State)
    (db : Supabase.Database) :
  Cart.cartItems st <> [] ->
  groupable (Cart.cartItems st) ->
  let st' := fst (fst (Cart.checkout (Some u) gen st db)) in
  let db' := snd (fst (Cart.checkout (Some u) gen st db)) in
  Supabase.cart_items db'
  = filter (fun r => negb (String.eqb (CartItems.vendor_id r) (user_id u)))
      (Supabase.cart_items db)
  /\ Cart.cartItems st' = Cart.select_cart_items (user_id u) db'
  /\ Cart.cartItems st' = []
  /\ (forall v, v <> user_id u ->
                Cart.select_cart_items v db' = Cart.select_cart_items v db)
  /\ length (Supabase.order_summary_logs db')
     = S (length (Supabase.order_summary_logs db))
  /\ Supabase.materials db' = Supabase.materials db
  /\ Supabase.group_orders db' = Supabase.group_orders db.
Proof.
  intros Hne Hok st' db'.
  destruct (group_by_supplier_run _ [] Hok) as [o [Hrun _]].
  unfold st', db'. rewrite (checkout_success u gen st db o Hne Hrun). simpl.
  assert (Hown : filter (fun r => String.eqb (CartItems.vendor_id r) (user_id u))
                   (filter (fun r => negb (String.eqb (CartItems.vendor_id r) (user_id u)))
                      (Supabase.cart_items db)) = []).
  { induction (Supabase.cart_items db) as [|r l IH]; simpl; [reflexivity|].
    destruct (String.eqb (CartItems.vendor_id r) (user_id u)) eqn:E; simpl;
      rewrite ?E; exact IH. }
  repeat split.
  - unfold Cart.select_cart_items. simpl. rewrite Hown. reflexivity.
  - intros v Hv. unfold Cart.select_cart_items. simpl. f_equal.
    rewrite filter_swap. apply filter_all. intros r Hr.
    apply filter_In in Hr. destruct Hr as [_ Hr].
    apply String.eqb_eq in Hr. rewrite Hr.
    destruct (String.eqb_spec v (user_id u)); [contradiction | reflexivity].
  - unfold Supabase.insert. rewrite length_app. simpl. lia.
Qed.

Lemma checkout_empties_own_cart_only_witness :
  Cart.select_cart_items "v1"
    (snd (fst (Cart.checkout (Some SampleData.vendor2) CartFlow.gen_seq
                 CartFlow.market_view CartFlow.market_db)))
  = Cart.select_cart_items "v1" CartFlow.market_db.
Proof.
  refine (proj1 (proj2 (proj2 (proj2
            (checkout_empties_own_cart_only SampleData.vendor2 CartFlow.gen_seq
               CartFlow.market_view CartFlow.market_db _ market_view_groupable))))
            "v1" _).
  - simpl. discriminate.
  - simpl. discriminate.
Defined.

(** X5. A checkout writes nothing and calls neither [onClose] nor
    [onRefresh] when nobody is signed in, when the cart is empty, or when
    some item lacks its material or has a supplier id that is a name
    objects inherit (such as 'constructor'); in the last case the dialog
    keeps its items. *)
Theorem checkout_without_effect
    (user : option User) (gen : nat -> Supabase.Generated) (st : Cart.State)
    (db : Supabase.Database) :
  user = None
  \/ Cart.cartItems st = []
  \/ (exists bad,
         In bad (Cart.cartItems st)
         /\ (Cart.item_materials bad = None
             \/ exists m, Cart.item_materials bad = Some m
                          /\ JsObject.inherited (Materials.supplier_id m) = true)) ->
  snd (fst (Cart.checkout user gen st db)) = db
  /\ snd (Cart.checkout user gen st db) = false
  /\ Cart.cartItems (fst (fst (Cart.checkout user gen st db))) = Cart.cartItems st.
Proof.
  intros Hcase. unfold Cart.checkout.
  destruct user as [u|]; [|repeat split].
  destruct (Cart.cartItems st) as [|i0 items0] eqn:Hitems;
    [repeat split; exact Hitems|].
  destruct Hcase as [Hn|[He|[bad [Hin Hbad]]]];
    [discriminate Hn | discriminate He |].
  rewrite (group_by_supplier_fails _ [] bad Hin Hbad). simpl. repeat split.
Qed.

Lemma checkout_without_effect_witness :
  snd (fst (Cart.checkout (Some SampleData.vendor2) CartFlow.gen_seq
              (Cart.mkState
                 [Cart.mkCartItem (CartItems.mk "c9" "v2" "gone" (num 1)) None]
                 false false [])
              CartFlow.market_db))
  = CartFlow.market_db.
Proof.
  refine (proj1 (checkout_without_effect (Some SampleData.vendor2) CartFlow.gen_seq
                   _ CartFlow.market_db _)).
  right. right. eexists. split; [left; reflexivity|]. left. reflexivity.
Defined.

(** *** From the catalog into the cart *)

Example add_then_open_cart_sample :
  map (fun i => (CartItems.id (Cart.item_row i),
                 this (CartItems.quantity (Cart.item_row i)),
                 option_map Materials.name (Cart.item_materials i)))
      (Cart.select_cart_items "v2"
         (snd (VendorDashboard.addToCart "m3" (num 1) CartSample.gen_b
                 CartSample.cart_state CartFlow.market_db)))
  = [("c1", 2 # 1, Some "Turmeric"); ("c3", 4 # 1, Some "Saffron");
     ("c4", 4 # 1, Some "Turmeric")].
Proof. reflexivity. Qed.

(** X6. What a signed-in vendor adds to the cart is what the cart dialog
    fetches next.  With no cart row yet for the material, the fetched
    cart is the former one followed by one item of the added quantity;
    with a single row of a quantity other than 0, the fetched cart is the
    former one with the added quantity on top of the quantity of the
    items of that row id. *)
Theorem add_to_cart_then_fetch
    (u : User) (materialId : string) (q : number) (g : Supabase.Generated)
    (st : VendorDashboard.State) (db : Supabase.Database) :
  VendorDashboard.user st = Some u ->
  let db' := snd (VendorDashboard.addToCart materialId q g st db) in
  (VendorDashboard.cart_rows_of (user_id u) materialId db = [] ->
   Cart.select_cart_items (user_id u) db'
   = Cart.select_cart_items (user_id u) db
     ++ [Cart.mkCartItem (CartItems.mk (Supabase.gen_id g) (user_id u) materialId q)
           (Supabase.embed_material db materialId)])
  /\ (forall row,
         VendorDashboard.cart_rows_of (user_id u) materialId db = [row] ->
         truthy (CartItems.quantity row) = true ->
         Cart.select_cart_items (user_id u) db'
         = map (fun item =>
                  if String.eqb (CartItems.id (Cart.item_row item)) (CartItems.id row)
                  then Cart.mkCartItem
                         (CartItems.update_quantity (CartItems.quantity row + q)
                            (Cart.item_row item))
                         (Cart.item_materials item)
                  else item)
             (Cart.select_cart_items (user_id u) db)).
Proof.
  intros Hu db'. unfold db', VendorDashboard.addToCart. rewrite Hu. split.
  - intros Hnone. rewrite Hnone. simpl.
    unfold Cart.select_cart_items, Supabase.insert. simpl.
    rewrite filter_app, map_app. simpl. rewrite String.eqb_refl. reflexivity.
  - intros row Hone Htruthy. rewrite Hone. simpl. rewrite Htruthy. simpl.
    unfold Cart.select_cart_items, Supabase.update_eq_id. simpl.
    rewrite filter_map_kept.
    + rewrite !map_map. apply map_ext. intros r. simpl.
      destruct (String.eqb (CartItems.id r) (CartItems.id row)); reflexivity.
    + intros r. destruct (String.eqb (CartItems.id r) (CartItems.id row)); reflexivity.
Qed.

Lemma add_to_cart_then_fetch_witness :
  Cart.select_cart_items "v2"
    (snd (VendorDashboard.addToCart "m2" (num 1) CartSample.gen_b
            CartSample.cart_state CartFlow.market_db))
  = Cart.select_cart_items "v2" CartFlow.market_db
    ++ [Cart.mkCartItem (CartItems.mk "c2" "v2" "m2" (num 1)) (Some SampleData.chili)].
Proof.
  exact (proj1 (add_to_cart_then_fetch SampleData.vendor2 "m2" (num 1) CartSample.gen_b
                  CartSample.cart_state CartFlow.market_db eq_refl) eq_refl).
Defined.

(** ** The supplier's catalog *)

Example add_material_sample :
  let '(dlg, st, db) :=
    SupplierCatalog.addMaterial SampleData.gen1
      (SupplierCatalog.mkDialog
         (SupplierCatalog.mkNewMaterial "Cumin" "Whole seeds" (num 60) (num 0) "kg") true)
      SampleData.supplier_state SampleData.db0 in
  map Materials.name (SupplierDashboard.materials st) = ["Turmeric"; "Cumin"]
  /\ map Materials.name (select_materials_in_stock db) = ["Turmeric"]
  /\ SupplierCatalog.isAddingMaterial dlg = false.
Proof. repeat split. Qed.

(** X7. [addMaterial] of a signed-in supplier appends to [materials] one
    row owned by that supplier with the values of the form.  The
    supplier's list, refetched, is the owned rows followed by the new
    one; the lists of the other suppliers read as before; the vendors'
    catalog gains the new material only if its stock is above 0, which
    the untouched form (stock 0) is not.  The form is reset and the
    dialog closed. *)
Theorem add_material_lists_new_row
    (u : User) (g : Supabase.Generated) (dlg : SupplierCatalog.Dialog)
    (st : SupplierDashboard.State) (db : Supabase.Database) :
  SupplierDashboard.user st = Some u ->
  let form := SupplierCatalog.newMaterial dlg in
  let new :=
    Materials.mk (Supabase.gen_id g) (SupplierCatalog.name form)
      (Some (SupplierCatalog.description form)) (SupplierCatalog.price form)
      (SupplierCatalog.stock form) (SupplierCatalog.unit form) (user_id u) in
  let dlg' := fst (fst (SupplierCatalog.addMaterial g dlg st db)) in
  let st' := snd (fst (SupplierCatalog.addMaterial g dlg st db)) in
  let db' := snd (SupplierCatalog.addMaterial g dlg st db) in
  Supabase.materials db' = Supabase.materials db ++ [new]
  /\ SupplierDashboard.materials st'
     = SupplierDashboard.select_materials (user_id u) db ++ [new]
  /\ (forall v, v <> user_id u ->
                SupplierDashboard.select_materials v db'
                = SupplierDashboard.select_materials v db)
  /\ select_materials_in_stock db'
     = select_materials_in_stock db
       ++ (if gtb (SupplierCatalog.stock form) (num 0) then [new] else [])
  /\ gtb (SupplierCatalog.stock SupplierCatalog.emptyForm) (num 0) = false
  /\ dlg' = SupplierCatalog.mkDialog SupplierCatalog.emptyForm false.
Proof.
  intros Hu form new dlg' st' db'.
  unfold dlg', st', db', SupplierCatalog.addMaterial. rewrite Hu. simpl.
  unfold SupplierDashboard.select_materials, select_materials_in_stock,
    Supabase.insert. simpl.
  rewrite !filter_app. simpl. rewrite String.eqb_refl.
  repeat split.
  intros v Hv. rewrite filter_app. simpl.
  destruct (String.eqb_spec (user_id u) v) as [E|E];
    [symmetry in E; contradiction | apply app_nil_r].
Qed.

Lemma add_material_lists_new_row_witness :
  select_materials_in_stock
    (snd (SupplierCatalog.addMaterial SampleData.gen1
            (SupplierCatalog.mkDialog SupplierCatalog.emptyForm true)
            SampleData.supplier_state SampleData.db0))
  = select_materials_in_stock SampleData.db0 ++ [].
Proof.
  exact (proj1 (proj2 (proj2 (proj2
           (add_material_lists_new_row SampleData.supplier1 SampleData.gen1
              (SupplierCatalog.mkDialog SupplierCatalog.emptyForm true)
              SampleData.supplier_state SampleData.db0 eq_refl))))).
Defined.

(** ** Ordering and the stock *)

(** X8. A material that is out of stock cannot be ordered from the vendor
    dashboard: on a freshly fetched catalog and a table with unique
    material ids, [placeIndividualOrder] for its id returns without any
    write in the first version and returns no [confirmOrder] in the
    second, and the confirm button, with that material selected, writes
    nothing. *)
Theorem out_of_stock_material_cannot_be_ordered
    (m : Materials.Row) (q : number) (g : Supabase.Generated)
    (db : Supabase.Database)
    (st1 : VendorDashboardV1.State) (st2 : VendorDashboard.State) :
  NoDup (map Materials.id (Supabase.materials db)) ->
  In m (Supabase.materials db) ->
  gtb (Materials.stock m) (num 0) = false ->
  let s1 := VendorDashboardV1.fetchMaterials st1 db in
  let s2 := VendorDashboard.fetchMaterials st2 db in
  VendorDashboardV1.placeIndividualOrder (Materials.id m) q g s1 db = (s1, db)
  /\ VendorDashboard.placeIndividualOrder (Materials.id m) q s2 = (s2, None)
  /\ snd (VendorDashboard.confirmIndividualOrder g
            (VendorDashboard.setSelectedMaterial (Some m) s2) db)
     = db.
Proof.
  intros Hnd Hin Hstock s1 s2.
  assert (Hfind : find (fun x => String.eqb (Materials.id x) (Materials.id m))
                    (select_materials_in_stock db) = None).
  { destruct (find _ _) as [m'|] eqn:Hf; [|reflexivity].
    apply find_some in Hf. destruct Hf as [Hin' Hid].
    apply String.eqb_eq in Hid.
    unfold select_materials_in_stock in Hin'. apply filter_In in Hin'.
    destruct Hin' as [Hin' Hs].
    rewrite (unique_key Materials.id _ _ _ Hnd Hin' Hin Hid) in Hs. congruence. }
  split; [|split].
  - unfold VendorDashboardV1.placeIndividualOrder. simpl. rewrite Hfind.
    destruct (VendorDashboardV1.user st1), (VendorDashboardV1.profile st1); reflexivity.
  - unfold VendorDashboard.placeIndividualOrder. simpl. rewrite Hfind.
    destruct (VendorDashboard.user st2), (VendorDashboard.profile st2); reflexivity.
  - unfold VendorDashboard.confirmIndividualOrder, VendorDashboard.placeIndividualOrder.
    simpl. rewrite Hfind.
    destruct (VendorDashboard.user st2), (VendorDashboard.profile st2); reflexivity.
Qed.

Lemma out_of_stock_material_cannot_be_ordered_witness :
  VendorDashboardV1.placeIndividualOrder "m2" (num 1) SampleData.gen1
    SampleData.v1_state SampleData.db0
  = (SampleData.v1_state, SampleData.db0).
Proof.
  refine (proj1 (out_of_stock_material_cannot_be_ordered SampleData.chili (num 1)
                   SampleData.gen1 SampleData.db0
                   (VendorDashboardV1.fetchGroupOrders 1000%Z
                      (VendorDashboardV1.mkState (Some SampleData.vendor2)
                         (Some SampleData.vendor2_profile) [] [] true [])
                      SampleData.db0)
                   SampleData.v2_state _ _ eq_refl)).
  - simpl. repeat constructor; simpl; intuition discriminate.
  - simpl. right. left. reflexivity.
Defined.

(** Case analysis on every test a handler makes before it writes. *)
Ltac handler_cases :=
  repeat match goal with
         | |- context [match ?x with _ => _ end] => destruct x
         end.

(** X9. No handler of the vendor dashboard, the cart, the group-order
    dialog or the order list writes to [materials]: placing, confirming
    or checking out an order, whatever its quantity, leaves the stock of
    every material as it was. *)
Theorem purchases_never_touch_materials (db : Supabase.Database) :
  (forall k q g st,
      Supabase.materials (snd (VendorDashboardV1.placeIndividualOrder k q g st db))
      = Supabase.materials db)
  /\ (forall g st,
         Supabase.materials (snd (VendorDashboard.confirmIndividualOrder g st db))
         = Supabase.materials db)
  /\ (forall k q g st,
         Supabase.materials (snd (VendorDashboard.addToCart k q g st db))
         = Supabase.materials db)
  /\ (forall user gen st,
         Supabase.materials (snd (fst (Cart.checkout user gen st db)))
         = Supabase.materials db)
  /\ (forall k q st,
         Supabase.materials (snd (Cart.updateQuantity k q st db))
         = Supabase.materials db)
  /\ (forall k now st,
         Supabase.materials (snd (VendorDashboardV1.joinGroupOrder k now st db))
         = Supabase.materials db)
  /\ (forall k q now st,
         Supabase.materials (snd (VendorDashboard.joinGroupOrder k q now st db))
         = Supabase.materials db)
  /\ (forall tz user material now g st,
         Supabase.materials
           (snd (fst (GroupOrderModal.createGroupOrder tz user material now g st db)))
         = Supabase.materials db)
  /\ (forall k s st,
         Supabase.materials (snd (SupplierDashboard.updateOrderStatus k s st db))
         = Supabase.materials db).
Proof.
  repeat split; intros.
  - unfold VendorDashboardV1.placeIndividualOrder. handler_cases; reflexivity.
  - unfold VendorDashboard.confirmIndividualOrder, VendorDashboard.placeIndividualOrder.
    destruct (VendorDashboard.user st); [|reflexivity].
    destruct (VendorDashboard.profile st); [|reflexivity].
    destruct (find _ _); reflexivity.
  - unfold VendorDashboard.addToCart. handler_cases; reflexivity.
  - unfold Cart.checkout. handler_cases; reflexivity.
  - unfold Cart.updateQuantity. handler_cases; reflexivity.
  - unfold VendorDashboardV1.joinGroupOrder. handler_cases; reflexivity.
  - unfold VendorDashboard.joinGroupOrder. handler_cases; reflexivity.
  - unfold GroupOrderModal.createGroupOrder. handler_cases; reflexivity.
Qed.

(** ** The supplier's order list after a status change *)

Lemma insert_sorted_map {A : Type} (p : A -> A -> bool) (f : A -> A)
    (a : A) (l : list A) :
  (forall x y, p (f x) (f y) = p x y) ->
  insert_sorted p (f a) (map f l) = map f (insert_sorted p a l).
Proof.
  intros Hp. induction l as [|x l IH]; simpl; [reflexivity|].
  rewrite Hp. destruct (p a x); simpl; [reflexivity|]. rewrite IH. reflexivity.
Qed.

Lemma stable_sort_map {A : Type} (p : A -> A -> bool) (f : A -> A) (l : list A) :
  (forall x y, p (f x) (f y) = p x y) ->
  stable_sort p (map f l) = map f (stable_sort p l).
Proof.
  intros Hp. induction l as [|x l IH]; simpl; [reflexivity|].
  rewrite IH. apply insert_sorted_map. exact Hp.
Qed.

(** X10. After [updateOrderStatus] by a signed-in supplier, the
    refetched list holds the supplier's orders of the table with the new
    status on the orders of that id, each with its material and its other
    columns as before, none dropped or added.  Where the list shown
    before the click was the one fetched from the table as it was, the
    new list is the shown one with the new status on the orders of that
    id, up to the order of the cards. *)
Theorem status_change_keeps_the_orders
    (u : User) (orderId status : string)
    (st : SupplierDashboard.State) (db : Supabase.Database) :
  SupplierDashboard.user st = Some u ->
  let restatus o :=
    if String.eqb (Orders.id (SupplierDashboard.order_row o)) orderId
    then SupplierDashboard.mkOrder
           (Orders.update_status status (SupplierDashboard.order_row o))
           (SupplierDashboard.order_materials o)
    else o in
  let st' := fst (SupplierDashboard.updateOrderStatus orderId status st db) in
  Permutation (SupplierDashboard.orders st')
    (map restatus (SupplierDashboard.select_orders (user_id u) db))
  /\ (SupplierDashboard.orders st = SupplierDashboard.select_orders (user_id u) db ->
      Permutation (SupplierDashboard.orders st')
        (map restatus (SupplierDashboard.orders st)))
  /\ length (SupplierDashboard.orders st')
     = length (SupplierDashboard.select_orders (user_id u) db).
Proof.
  intros Hu restatus st'.
  assert (Heq : SupplierDashboard.orders st'
                = map restatus (SupplierDashboard.select_orders (user_id u) db)).
  { unfold st', SupplierDashboard.updateOrderStatus, SupplierDashboard.fetchOrders.
    simpl. rewrite Hu. simpl.
    unfold SupplierDashboard.select_orders, Supabase.update_eq_id.
    simpl. rewrite filter_map_kept.
    - rewrite stable_sort_map.
      + rewrite !map_map. apply map_ext. intros r. unfold restatus. simpl.
        destruct (String.eqb (Orders.id r) orderId); reflexivity.
      + intros x y.
        destruct (String.eqb (Orders.id x) orderId), (String.eqb (Orders.id y) orderId);
          reflexivity.
    - intros r. destruct (String.eqb (Orders.id r) orderId); reflexivity. }
  split; [|split].
  - rewrite Heq. apply Permutation_refl.
  - intros Hfresh. rewrite Heq, Hfresh. apply Permutation_refl.
  - rewrite Heq. apply length_map.
Qed.

Lemma status_change_keeps_the_orders_witness :
  Permutation
    (SupplierDashboard.orders
       (fst (SupplierDashboard.updateOrderStatus "o1" "confirmed"
               (SupplierDashboard.fetchOrders SampleData.supplier_state SampleData.db0)
               SampleData.db0)))
    [SupplierDashboard.mkOrder SampleData.order3 (Some SampleData.turmeric);
     SupplierDashboard.mkOrder (Orders.update_status "confirmed" SampleData.order1)
       (Some SampleData.turmeric)].
Proof.
  exact (proj1 (status_change_keeps_the_orders SampleData.supplier1 "o1" "confirmed"
                  (SupplierDashboard.fetchOrders SampleData.supplier_state
                     SampleData.db0)
                  SampleData.db0 eq_refl)).
Defined.

(** ** The life of a group order *)

(** X11. Whoever forms a group order is already counted in it and cannot
    join it: when the new row's id is not the id of an older row, a join
    of that id by the creator, from a list fetched at any time, writes
    nothing in either version of the dashboard. *)
Theorem creator_cannot_join_own_group_order
    (tz : JsDate.TimeZone) (u : User) (m : Materials.Row) (now : timestamp)
    (g : Supabase.Generated) (mst : GroupOrderModal.State) (db : Supabase.Database) :
  (forall r, In r (Supabase.group_orders db) -> GroupOrders.id r <> Supabase.gen_id g) ->
  let db' :=
    snd (fst (GroupOrderModal.createGroupOrder tz (Some u) (Some m) now g mst db)) in
  (forall t t' st,
      VendorDashboardV1.user st = Some u ->
      snd (VendorDashboardV1.joinGroupOrder (Supabase.gen_id g) t'
             (VendorDashboardV1.fetchGroupOrders t st db') db')
      = db')
  /\ (forall q t t' st,
         VendorDashboard.user st = Some u ->
         snd (VendorDashboard.joinGroupOrder (Supabase.gen_id g) q t'
                (VendorDashboard.fetchGroupOrders t st db') db')
         = db').
Proof.
  intros Hfresh db'.
  assert (Hfound : forall t go,
             find (fun x => String.eqb (GroupOrders.id (row x)) (Supabase.gen_id g))
               (select_group_orders t db') = Some go ->
             includes (GroupOrders.participants (row go)) (user_id u) = true).
  { intros t go Hf. apply find_some in Hf. destruct Hf as [Hin Hid].
    apply String.eqb_eq in Hid. apply select_group_orders_In in Hin.
    destruct Hin as [Hin _]. unfold db', GroupOrderModal.createGroupOrder in Hin.
    destruct (GroupOrderModal.expiryDate tz now (GroupOrderModal.formData mst));
      simpl in Hin.
    - unfold Supabase.insert in Hin. apply in_app_iff in Hin.
      destruct Hin as [Hin|[Hin|[]]].
      + exfalso. apply (Hfresh _ Hin Hid).
      + rewrite <- Hin. simpl. rewrite String.eqb_refl. reflexivity.
    - exfalso. apply (Hfresh _ Hin Hid). }
  split.
  - intros t t' st Hu. unfold VendorDashboardV1.joinGroupOrder. simpl. rewrite Hu.
    destruct (find _ (select_group_orders t db')) as [go|] eqn:Hf; [|reflexivity].
    rewrite (Hfound t go Hf). reflexivity.
  - intros q t t' st Hu. unfold VendorDashboard.joinGroupOrder. simpl. rewrite Hu.
    destruct (find _ (select_group_orders t db')) as [go|] eqn:Hf; [|reflexivity].
    rewrite (Hfound t go Hf). reflexivity.
Qed.

Lemma creator_cannot_join_own_group_order_witness :
  snd (VendorDashboard.joinGroupOrder "g9" (num 3) 2100%Z
         (VendorDashboard.fetchGroupOrders 2000%Z SampleData.v2_state
            SampleData.db_created)
         SampleData.db_created)
  = SampleData.db_created.
Proof.
  refine (proj2 (creator_cannot_join_own_group_order JsDate.kolkata
                   SampleData.vendor2 SampleData.turmeric 1000%Z SampleData.gen_open
                   SampleData.modal_state SampleData.db0 _)
            (num 3) 2000%Z 2100%Z SampleData.v2_state eq_refl).
  intros r Hr. simpl in Hr.
  destruct Hr as [H|[H|[H|[]]]]; subst r; simpl; discriminate.
Defined.



(** *** Vendors joining one after the other *)

Lemma join_in_turn_step (db : Supabase.Database) (r : GroupOrders.Row)
    (v : User) (q : number) (t : timestamp) :
  NoDup (map GroupOrders.id (Supabase.group_orders db)) ->
  In r (Supabase.group_orders db) ->
  GroupOrders.status r = "open" ->
  (t < GroupOrders.expires_at r)%Z ->
  ~ In (user_id v) (GroupOrders.participants r) ->
  Supabase.group_orders (GroupFlow.join_in_turn (GroupOrders.id r) db (v, q, t))
  = map (fun x => if String.eqb (GroupOrders.id x) (GroupOrders.id r)
                  then join_effect (user_id v) q x else x)
      (Supabase.group_orders db).
Proof.
  intros Hnd Hin Hopen Hlive Hnew.
  set (go := mkGroupOrder r (Supabase.embed_material db (GroupOrders.material_id r))).
  assert (Hlisted : In go (select_group_orders t db)).
  { unfold select_group_orders. apply in_map_iff. exists r. split; [reflexivity|].
    apply filter_In. split; [exact Hin|]. unfold open_and_unexpired.
    rewrite Hopen. simpl. apply Z.ltb_lt. exact Hlive. }
  destruct (find_listed_group_order t db go Hnd Hlisted) as [go' [Hfind Hrow]].
  simpl in Hfind, Hrow.
  unfold GroupFlow.join_in_turn, VendorDashboard.joinGroupOrder. simpl.
  rewrite Hfind, Hrow. apply includes_false_iff in Hnew. rewrite Hnew. simpl.
  apply update_from_own_row. intros x Hx Hk.
  apply (unique_key GroupOrders.id (Supabase.group_orders db)); assumption.
Qed.

Lemma joined_by_cons (v : User) (q : number) (t : timestamp)
    (rest : list (User * number * timestamp)) (r : GroupOrders.Row) :
  GroupFlow.joined_by rest (join_effect (user_id v) q r)
  = GroupFlow.joined_by ((v, q, t) :: rest) r.
Proof.
  unfold GroupFlow.joined_by, join_effect. simpl. f_equal.
  - unfold sum_numbers at 2. simpl. rewrite sum_from.
    change (num 0) with (Q2Qc 0). rewrite Qcplus_0_l. symmetry. apply Qcplus_assoc.
  - rewrite <- app_assoc. reflexivity.
Qed.

Lemma joined_by_nil (r : GroupOrders.Row) : GroupFlow.joined_by [] r = r.
Proof.
  unfold GroupFlow.joined_by, sum_numbers. simpl.
  change (num 0) with (Q2Qc 0). rewrite Qcplus_0_r, app_nil_r.
  destruct r; reflexivity.
Qed.

Example join_all_sample :
  map (fun r => (GroupOrders.id r, this (GroupOrders.total_quantity r),
                 GroupOrders.participants r))
      (Supabase.group_orders
         (GroupFlow.join_all "g1" GroupFlow.three_joiners SampleData.db0))
  = [("g1", 17 # 1, ["v1"; "v2"; "v3"; "v4"]); ("g2", 3 # 1, ["v1"]);
     ("g3", 2 # 1, ["v3"])].
Proof. reflexivity. Qed.



(** ** Which dashboard a user gets *)

(** X14. The dashboard page shows the vendor dashboard exactly when the
    [profiles] table holds one single row for the signed-in user and its
    role is 'vendor', and the supplier dashboard exactly when that single
    row has the role 'supplier'.  With no row, or with several rows for
    the user, it shows the profile-setup notice. *)
Theorem dashboard_follows_single_profile (u : User) (profiles : list Profile) :
  let own := filter (fun p => String.eqb (profile_user_id p) (user_id u)) profiles in
  let view := Routing.Dashboard (Routing.useProfile (Some u) profiles) in
  (view = Routing.VendorDashboardView <-> exists p, own = [p] /\ role p = "vendor")
  /\ (view = Routing.SupplierDashboardView <->
      exists p, own = [p] /\ role p = "supplier")
  /\ (length own <> 1%nat -> view = Routing.ProfileSetupRequired).
Proof.
  intros own view. unfold view, Routing.useProfile. fold own.
  destruct own as [|p [|p' rest]]; unfold Routing.Dashboard; simpl.
  - split; [|split]; [split | split | reflexivity].
    + discriminate.
    + intros [p [H _]]. discriminate.
    + discriminate.
    + intros [p [H _]]. discriminate.
  - destruct (String.eqb_spec (role p) "vendor") as [Ev|Ev];
      [|destruct (String.eqb_spec (role p) "supplier") as [Es|Es]];
      (split; [|split]; [split | split | intros H; contradiction]);
      try (intros [p0 [H0 H1]]; inversion H0; subst; congruence);
      try discriminate; try (intros _; eauto).
  - split; [|split]; [split | split | reflexivity].
    + discriminate.
    + intros [p0 [H _]]. discriminate.
    + discriminate.
    + intros [p0 [H _]]. discriminate.
Qed.

Example dashboard_sample :
  Routing.Dashboard (Routing.useProfile (Some (mkUser "v2")) RoutingSample.profiles)
  = Routing.VendorDashboardView
  /\ Routing.Dashboard (Routing.useProfile (Some (mkUser "d1")) RoutingSample.profiles)
     = Routing.ProfileSetupRequired
  /\ Routing.Dashboard (Routing.useProfile (Some (mkUser "zz")) RoutingSample.profiles)
     = Routing.ProfileSetupRequired.
Proof. repeat split. Qed.

(** ** The discount badge of the group-order dialog *)

Lemma truthy_nonzero (x : number) : truthy x = true <-> x <> num 0.
Proof.
  unfold truthy. split.
  - intros H E. subst x. discriminate H.
  - intros Hx. destruct (Qc_eq_bool x (num 0)) eqn:E; [|reflexivity].
    apply Qc_eq_bool_correct in E. contradiction.
Qed.

(** X15. For a material with a price other than 0, the badge of the
    untouched form reads 10% off, and a form whose discounted price is
    the regular price reads 0% off. *)
Theorem discount_badge_of_default_form (m : Materials.Row) :
  Materials.price m <> num 0 ->
  DiscountBadge.discountPercentage m (GroupOrderModal.defaultFormData (Some m))
  = Some (num 10)
  /\ (forall form,
         GroupOrderModal.discountedPrice form = Materials.price m ->
         DiscountBadge.discountPercentage m form = Some (num 0)).
Proof.
  intros Hp. unfold DiscountBadge.discountPercentage.
  rewrite (proj2 (truthy_nonzero _) Hp). split.
  - f_equal. simpl.
    replace ((Materials.price m - Materials.price m * GroupOrderModal.nine_tenths)
             / Materials.price m * num 100)%Qc with (num 10).
    + reflexivity.
    + unfold number in *.
      change (num 10) with (Q2Qc 10). change (num 100) with (Q2Qc 100).
      change GroupOrderModal.nine_tenths with (Q2Qc (9 # 10)).
      change (num 0) with (Q2Qc 0) in Hp.
      transitivity ((1 - Q2Qc (9 # 10)) * Q2Qc 100)%Qc;
        [apply Qc_is_canon; reflexivity | field; exact Hp].
  - intros form Hsame. f_equal. rewrite Hsame.
    replace ((Materials.price m - Materials.price m) / Materials.price m * num 100)%Qc
      with (num 0).
    + reflexivity.
    + unfold number in *. change (num 100) with (Q2Qc 100).
      change (num 0) with (Q2Qc 0) in *. field. exact Hp.
Qed.

Lemma discount_badge_of_default_form_witness :
  DiscountBadge.discountPercentage SampleData.turmeric
    (GroupOrderModal.defaultFormData (Some SampleData.turmeric))
  = Some (num 10).
Proof.
  refine (proj1 (discount_badge_of_default_form SampleData.turmeric _)).
  intros E. apply (f_equal this) in E. discriminate E.
Defined.

(** ** The search box *)

Lemma prefix_refl (s : string) : String.prefix s s = true.
Proof.
  induction s as [|c s IH]; simpl; [reflexivity|].
  destruct (Ascii.ascii_dec c c); [exact IH | contradiction].
Qed.

Lemma string_includes_empty (s : string) : VendorSearch.string_includes s "" = true.
Proof. unfold VendorSearch.string_includes. destruct s; reflexivity. Qed.

Lemma string_includes_self (s : string) : VendorSearch.string_includes s s = true.
Proof.
  unfold VendorSearch.string_includes. destruct s as [|c s]; [reflexivity|].
  cbn [String.index]. rewrite prefix_refl. reflexivity.
Qed.

(** X16. With an empty search box the vendor sees the whole fetched
    catalog; typing the exact name of a listed material keeps that
    material on the list; and a search never shows a material that was
    not fetched.  This holds for any lower-casing that maps the empty
    text to itself. *)
Theorem search_keeps_what_matches (toLowerCase : string -> string) :
  toLowerCase "" = "" ->
  (forall materials,
      VendorSearch.filteredMaterials toLowerCase "" materials = materials)
  /\ (forall m materials,
         In m materials ->
         In m (VendorSearch.filteredMaterials toLowerCase (Materials.name m) materials))
  /\ (forall term m materials,
         In m (VendorSearch.filteredMaterials toLowerCase term materials) ->
         In m materials).
Proof.
  intros Hempty. split; [|split].
  - intros materials. unfold VendorSearch.filteredMaterials. apply filter_all.
    intros m _. unfold VendorSearch.matches. rewrite Hempty.
    rewrite string_includes_empty. reflexivity.
  - intros m materials Hin. unfold VendorSearch.filteredMaterials.
    apply filter_In. split; [exact Hin|]. unfold VendorSearch.matches.
    rewrite string_includes_self. reflexivity.
  - intros term m materials Hin. unfold VendorSearch.filteredMaterials in Hin.
    apply filter_In in Hin. tauto.
Qed.

Example search_sample :
  map Materials.name
    (VendorSearch.filteredMaterials SearchSample.lower "GROUND"
       [SampleData.turmeric; SampleData.chili; CartFlow.saffron])
  = ["Turmeric"]
  /\ map Materials.name
       (VendorSearch.filteredMaterials SearchSample.lower "r"
          [SampleData.turmeric; SampleData.chili; CartFlow.saffron])
     = ["Turmeric"; "Saffron"].
Proof. split; reflexivity. Qed.

Lemma search_keeps_what_matches_witness :
  VendorSearch.filteredMaterials SearchSample.lower ""
    [SampleData.turmeric; SampleData.chili]
  = [SampleData.turmeric; SampleData.chili].
Proof.
  exact (proj1 (search_keeps_what_matches SearchSample.lower eq_refl)
           [SampleData.turmeric; SampleData.chili]).
Defined.

(** ** The price history of the analytics page *)

Example price_history_sample :
  map (fun h => (PriceCharts.material_name h, PriceCharts.date h))
    (PriceCharts.fetchPriceHistory ChartSample.history_db)
  = [("Chili", 10%Z); ("Turmeric", 20%Z); ("Turmeric", 30%Z); ("Unknown", 40%Z)]
  /\ option_map (fun grouped =>
                   map (fun b => (PriceCharts.bar_name b, this (PriceCharts.bar_price b)))
                     (PriceCharts.latestPrices grouped))
       (PriceCharts.groupedPriceData
          (PriceCharts.fetchPriceHistory ChartSample.history_db))
     = Some [("Chili", 80 # 1); ("Turmeric", 100 # 1); ("Unknown", 7 # 1)]
  /\ PriceCharts.groupedPriceData
       (PriceCharts.fetchPriceHistory ChartSample.broken_db) = None.
Proof. repeat split. Qed.

Section SortedByKey.
Context {A : Type} (key : A -> Z).

Let le_key (a b : A) : Prop := (key a <= key b)%Z.
Let leb_key (a b : A) : bool := Z.leb (key a) (key b).

Lemma insert_sorted_by_key (a : A) (l : list A) :
  StronglySorted le_key l -> StronglySorted le_key (insert_sorted leb_key a l).
Proof.
  induction l as [|x l IH]; intros Hs; simpl.
  - constructor; constructor.
  - inversion Hs as [|? ? Hl Hx]; subst.
    unfold leb_key at 1. destruct (Z.leb_spec (key a) (key x)) as [Hle|Hgt].
    + constructor; [exact Hs|]. constructor; [exact Hle|].
      rewrite Forall_forall in *. intros y Hy. specialize (Hx y Hy).
      unfold le_key in *. lia.
    + constructor; [apply IH; exact Hl|].
      rewrite Forall_forall in *. intros y Hy.
      apply (Permutation_in _ (insert_sorted_perm leb_key a l)) in Hy.
      destruct Hy as [Hy|Hy]; [subst y; unfold le_key; lia | apply Hx; exact Hy].
Qed.

Lemma stable_sort_by_key (l : list A) :
  StronglySorted le_key (stable_sort leb_key l).
Proof.
  induction l as [|x l IH]; simpl; [constructor|].
  apply insert_sorted_by_key. exact IH.
Qed.

Lemma sorted_split (l1 l2 : list A) :
  StronglySorted le_key (l1 ++ l2) ->
  StronglySorted le_key l1
  /\ forall a b, In a l1 -> In b l2 -> (key a <= key b)%Z.
Proof.
  induction l1 as [|x l1 IH]; simpl; intros Hs.
  - split; [constructor | intros a b []].
  - inversion Hs as [|? ? Hl Hx]; subst. destruct (IH Hl) as [Hs1 Hcross].
    rewrite Forall_forall in Hx. split.
    + constructor; [exact Hs1|]. rewrite Forall_forall. intros y Hy.
      apply Hx. apply in_app_iff. left. exact Hy.
    + intros a b [Ha|Ha] Hb.
      * subst a. apply Hx. apply in_app_iff. right. exact Hb.
      * apply Hcross; assumption.
Qed.

Lemma sorted_keys (l : list A) :
  StronglySorted le_key l -> StronglySorted Z.le (map key l).
Proof.
  induction 1 as [|x l Hs IH Hx]; simpl; constructor; [exact IH|].
  rewrite Forall_forall in *. intros k Hk. apply in_map_iff in Hk.
  destruct Hk as [y [Hy Hin]]. subst k. apply Hx. exact Hin.
Qed.
End SortedByKey.

(** X17. [fetchPriceHistory] keeps the 100 earliest records: what it
    returns is in ascending date order, holds 100 records or every record
    if there are fewer, and any record it leaves out is dated no earlier
    than each record it returns. *)
Theorem price_history_is_the_earliest_hundred (db : Supabase.Database) :
  exists kept dropped,
    Permutation (Supabase.price_history db) (kept ++ dropped)
    /\ map (fun h => (PriceCharts.material_id h, PriceCharts.date h, PriceCharts.price h))
         (PriceCharts.fetchPriceHistory db)
       = map (fun r => (PriceHistory.material_id r, PriceHistory.date r,
                        PriceHistory.price r)) kept
    /\ length (PriceCharts.fetchPriceHistory db)
       = Nat.min 100 (length (Supabase.price_history db))
    /\ StronglySorted Z.le (map PriceCharts.date (PriceCharts.fetchPriceHistory db))
    /\ (forall k d, In k kept -> In d dropped ->
                    (PriceHistory.date k <= PriceHistory.date d)%Z).
Proof.
  set (sorted := stable_sort
                   (fun a b => Z.leb (PriceHistory.date a) (PriceHistory.date b))
                   (Supabase.price_history db)).
  assert (Hsorted : StronglySorted
                      (fun a b => (PriceHistory.date a <= PriceHistory.date b)%Z)
                      (firstn 100 sorted ++ skipn 100 sorted)).
  { rewrite firstn_skipn. apply (stable_sort_by_key PriceHistory.date). }
  apply (sorted_split PriceHistory.date) in Hsorted. destruct Hsorted as [Hkept Hcross].
  exists (firstn 100 sorted), (skipn 100 sorted).
  unfold PriceCharts.fetchPriceHistory. fold sorted.
  split; [|split; [|split; [|split]]].
  - rewrite firstn_skipn. apply Permutation_sym. apply stable_sort_perm.
  - rewrite map_map. reflexivity.
  - rewrite length_map, length_firstn. unfold sorted.
    rewrite stable_sort_length. reflexivity.
  - rewrite map_map. simpl.
    apply (sorted_keys PriceHistory.date). exact Hkept.
  - exact Hcross.
Qed.

(** *** Grouping the history by material name *)

Lemma push_own_keys {V : Type} (k : string) (v : V) (o : JsObject.t (list V)) :
  (In k (map fst o) -> map fst (JsObject.push_own k v o) = map fst o)
  /\ (~ In k (map fst o) -> map fst (JsObject.push_own k v o) = map fst o ++ [k]).
Proof.
  induction o as [|[k0 vs0] rest [IHin IHout]]; simpl.
  - split; [intros [] | reflexivity].
  - destruct (String.eqb_spec k0 k) as [E|E]; simpl.
    + split; [reflexivity | intros Hn; exfalso; apply Hn; left; exact E].
    + split.
      * intros [H|H]; [contradiction | rewrite (IHin H); reflexivity].
      * intros Hn. rewrite IHout; [reflexivity|]. intros H. apply Hn. right. exact H.
Qed.

Lemma push_own_entry {V : Type} (k : string) (v : V) (o : JsObject.t (list V))
    (k' : string) (vs' : list V) :
  NoDup (map fst o) ->
  In (k', vs') (JsObject.push_own k v o) ->
  (k' <> k /\ In (k', vs') o)
  \/ (k' = k /\ exists vs, In (k, vs) o /\ vs' = vs ++ [v])
  \/ (k' = k /\ ~ In k (map fst o) /\ vs' = [v]).
Proof.
  induction o as [|[k0 vs0] rest IH]; simpl; intros Hnd Hin.
  - destruct Hin as [H|[]]. inversion H; subst. right. right. auto.
  - inversion Hnd as [|? ? Hfresh Hnd']; subst.
    destruct (String.eqb_spec k0 k) as [E|E]; simpl in Hin.
    + subst k0. destruct Hin as [H|H].
      * inversion H; subst. right. left. split; [reflexivity|]. exists vs0. auto.
      * left. split; [|right; exact H]. intros Ek. subst k'.
        apply Hfresh. apply (in_map fst) in H. exact H.
    + destruct Hin as [H|H].
      * inversion H; subst. left. split; [exact E | left; reflexivity].
      * destruct (IH Hnd' H) as [[Hk Ho]|[[Hk [vs [Ho Hv]]]|[Hk [Hn Hv]]]].
        -- left. split; [exact Hk | right; exact Ho].
        -- right. left. split; [exact Hk|]. exists vs. split; [right; exact Ho | exact Hv].
        -- right. right. split; [exact Hk|]. split; [|exact Hv].
           intros [Hc|Hc]; [apply E; exact Hc | apply Hn; exact Hc].
Qed.

Lemma grouped_so_far_push (acc : JsObject.t (list (timestamp * number)))
    (seen : list PriceCharts.PriceHistory) (h : PriceCharts.PriceHistory) :
  grouped_so_far acc seen ->
  grouped_so_far
    (JsObject.push_own (PriceCharts.material_name h)
       (PriceCharts.date h, PriceCharts.price h) acc)
    (seen ++ [h]).
Proof.
  intros [Hnd [Hpts Hall]].
  destruct (push_own_keys (PriceCharts.material_name h)
              (PriceCharts.date h, PriceCharts.price h) acc) as [Hkin Hkout].
  assert (Hkeys : forall k, In k (map fst acc) ->
                    In k (map fst (JsObject.push_own (PriceCharts.material_name h)
                                     (PriceCharts.date h, PriceCharts.price h) acc))).
  { intros k Hk.
    destruct (in_dec string_dec (PriceCharts.material_name h) (map fst acc)) as [Hi|Hi].
    - rewrite (Hkin Hi). exact Hk.
    - rewrite (Hkout Hi). apply in_app_iff. left. exact Hk. }
  split; [|split].
  - destruct (in_dec string_dec (PriceCharts.material_name h) (map fst acc)) as [Hi|Hi].
    + rewrite (Hkin Hi). exact Hnd.
    + rewrite (Hkout Hi). apply NoDup_app; [exact Hnd | repeat constructor; intros [] |].
      intros k Hk [Hk'|[]]. subst k. contradiction.
  - intros k pts Hin. rewrite filter_app, map_app. simpl.
    destruct (push_own_entry _ _ _ _ _ Hnd Hin)
      as [[Hk Ho]|[[Hk [vs [Ho Hv]]]|[Hk [Hn Hv]]]].
    + destruct (Hpts k pts Ho) as [Heq Hne].
      destruct (String.eqb_spec (PriceCharts.material_name h) k) as [E|E];
        [symmetry in E; contradiction|].
      simpl. rewrite app_nil_r. auto.
    + subst k pts. destruct (Hpts _ vs Ho) as [Heq _].
      rewrite String.eqb_refl. simpl. rewrite Heq. split; [reflexivity|].
      intros Hc. apply app_eq_nil in Hc. destruct Hc as [_ Hc]. discriminate.
    + subst k pts. rewrite String.eqb_refl. simpl.
      assert (Hnone : filter (fun x => String.eqb (PriceCharts.material_name x)
                                         (PriceCharts.material_name h)) seen = []).
      { destruct (filter _ seen) as [|x l] eqn:Hf; [reflexivity|]. exfalso.
        assert (Hx : In x (filter (fun x => String.eqb (PriceCharts.material_name x)
                                               (PriceCharts.material_name h)) seen))
          by (rewrite Hf; left; reflexivity).
        apply filter_In in Hx. destruct Hx as [Hx He].
        apply String.eqb_eq in He. apply Hn. rewrite <- He. apply Hall. exact Hx. }
      rewrite Hnone. simpl. split; [reflexivity | discriminate].
  - intros x Hx. apply in_app_iff in Hx. destruct Hx as [Hx|[Hx|[]]].
    + apply Hkeys. apply Hall. exact Hx.
    + subst x.
      destruct (in_dec string_dec (PriceCharts.material_name h) (map fst acc)) as [Hi|Hi].
      * rewrite (Hkin Hi). exact Hi.
      * rewrite (Hkout Hi). apply in_app_iff. right. left. reflexivity.
Qed.

Lemma groupedPriceData_from_spec (history seen : list PriceCharts.PriceHistory)
    (acc grouped : JsObject.t (list (timestamp * number))) :
  grouped_so_far acc seen ->
  PriceCharts.groupedPriceData_from history acc = Some grouped ->
  grouped_so_far grouped (seen ++ history).
Proof.
  revert seen acc. induction history as [|h rest IH]; intros seen acc Hinv Hrun.
  - simpl in Hrun. inversion Hrun; subst. rewrite app_nil_r. exact Hinv.
  - simpl in Hrun. unfold JsObject.group_push in Hrun.
    destruct (JsObject.inherited (PriceCharts.material_name h)); [discriminate|].
    replace (seen ++ h :: rest) with ((seen ++ [h]) ++ rest)
      by (rewrite <- app_assoc; reflexivity).
    apply (IH _ _ (grouped_so_far_push _ _ _ Hinv) Hrun).
Qed.

Lemma or_zero (x : number) : (if truthy x then x else num 0) = x.
Proof.
  unfold truthy. destruct (Qc_eq_bool x (num 0)) eqn:E; simpl; [|reflexivity].
  apply Qc_eq_bool_correct in E. symmetry. exact E.
Qed.

Lemma bar_of_last (k : string) (earlier : list (timestamp * number))
    (z : timestamp * number) :
  PriceCharts.bar_name (PriceCharts.bar_of (k, earlier ++ [z])) = k
  /\ PriceCharts.bar_price (PriceCharts.bar_of (k, earlier ++ [z])) = snd z.
Proof.
  unfold PriceCharts.bar_of, PriceCharts.last_two. simpl.
  rewrite rev_app_distr. simpl.
  destruct (rev earlier); simpl; rewrite or_zero; auto.
Qed.

Lemma NoDup_firstn {A : Type} (n : nat) (l : list A) :
  NoDup l -> NoDup (firstn n l).
Proof.
  revert l. induction n as [|n IH]; intros [|a l] Hnd; simpl; try constructor.
  - inversion Hnd; subst. intros Hin. apply In_firstn in Hin. contradiction.
  - inversion Hnd; subst. apply IH. assumption.
Qed.

(** X18. When the grouping of the price history goes through, the bar
    chart of latest prices has one bar for each material name, at most 6
    bars and no name twice, and the price of a bar is the price of the
    last record of the history with that name; every record's name has a
    group. *)
Theorem latest_prices_show_last_record
    (history : list PriceCharts.PriceHistory)
    (grouped : JsObject.t (list (timestamp * number))) :
  PriceCharts.groupedPriceData history = Some grouped ->
  let bars := PriceCharts.latestPrices grouped in
  length bars = Nat.min 6 (length grouped)
  /\ NoDup (map PriceCharts.bar_name bars)
  /\ (forall bar, In bar bars ->
        exists earlier h,
          filter (fun x => String.eqb (PriceCharts.material_name x)
                             (PriceCharts.bar_name bar)) history
          = earlier ++ [h]
          /\ PriceCharts.bar_price bar = PriceCharts.price h)
  /\ (forall h, In h history -> In (PriceCharts.material_name h) (map fst grouped)).
Proof.
  intros Hrun bars.
  assert (Hinv : grouped_so_far grouped history).
  { apply (groupedPriceData_from_spec history [] [] grouped); [|exact Hrun].
    split; [constructor | split; [intros k pts [] | intros h []]]. }
  destruct Hinv as [Hnd [Hpts Hall]].
  assert (Hbar : forall e, In e grouped ->
            exists earlier h,
              filter (fun x => String.eqb (PriceCharts.material_name x) (fst e)) history
              = earlier ++ [h]
              /\ PriceCharts.bar_name (PriceCharts.bar_of e) = fst e
              /\ PriceCharts.bar_price (PriceCharts.bar_of e) = PriceCharts.price h).
  { intros [k pts] He. destruct (Hpts k pts He) as [Heq Hne]. simpl.
    destruct (exists_last
                (l := filter (fun x => String.eqb (PriceCharts.material_name x) k) history))
      as [earlier [h Hl]].
    { intros Hc. rewrite Hc in Heq. simpl in Heq. contradiction. }
    exists earlier, h. split; [exact Hl|].
    rewrite Heq, Hl, map_app. simpl.
    destruct (bar_of_last k
                (map (fun h0 => (PriceCharts.date h0, PriceCharts.price h0)) earlier)
                (PriceCharts.date h, PriceCharts.price h)) as [Hn Hp].
    split; assumption. }
  assert (Hnames : map PriceCharts.bar_name (map PriceCharts.bar_of (JsObject.entries grouped))
                   = map fst (JsObject.entries grouped)).
  { rewrite map_map. apply map_ext_in. intros e He.
    apply (Permutation_in _ (entries_perm grouped)) in He.
    destruct (Hbar e He) as [_ [_ [_ [Hn _]]]]. exact Hn. }
  split; [|split; [|split]].
  - unfold bars, PriceCharts.latestPrices.
    rewrite length_firstn, length_map.
    rewrite (Permutation_length (entries_perm grouped)). reflexivity.
  - unfold bars, PriceCharts.latestPrices. rewrite <- firstn_map.
    apply NoDup_firstn. rewrite Hnames.
    apply (Permutation_NoDup (Permutation_sym (Permutation_map fst (entries_perm grouped)))).
    exact Hnd.
  - intros bar Hin. unfold bars, PriceCharts.latestPrices in Hin.
    apply In_firstn in Hin. apply in_map_iff in Hin. destruct Hin as [e [Hb He]].
    apply (Permutation_in _ (entries_perm grouped)) in He.
    destruct (Hbar e He) as [earlier [h [Hl [Hn Hp]]]]. subst bar.
    exists earlier, h. rewrite Hn. split; assumption.
  - exact Hall.
Qed.

Lemma latest_prices_show_last_record_witness :
  exists grouped,
    PriceCharts.groupedPriceData (PriceCharts.fetchPriceHistory ChartSample.history_db)
    = Some grouped
    /\ length (PriceCharts.latestPrices grouped) = Nat.min 6 (length grouped).
Proof.
  eexists. split; [reflexivity|].
  exact (proj1 (latest_prices_show_last_record
                  (PriceCharts.fetchPriceHistory ChartSample.history_db) _ eq_refl)).
Defined.

(** X19. One record whose material is named like a property every object
    inherits ('constructor', 'toString', '__proto__' and the like) makes
    the grouping of the price history throw, so that the page has no
    chart data at all. *)
Theorem inherited_name_breaks_grouping
    (history : list PriceCharts.PriceHistory) (h : PriceCharts.PriceHistory) :
  In h history ->
  JsObject.inherited (PriceCharts.material_name h) = true ->
  PriceCharts.groupedPriceData history = None.
Proof.
  unfold PriceCharts.groupedPriceData. generalize (@nil (string * list (timestamp * number))).
  induction history as [|x rest IH]; intros acc Hin Hbad; [contradiction|].
  simpl. unfold JsObject.group_push.
  destruct (JsObject.inherited (PriceCharts.material_name x)) eqn:Hx; [reflexivity|].
  destruct Hin as [Hin|Hin]; [subst x; congruence|].
  apply IH; assumption.
Qed.

Lemma inherited_name_breaks_grouping_witness :
  PriceCharts.groupedPriceData (PriceCharts.fetchPriceHistory ChartSample.broken_db)
  = None.
Proof.
  refine (inherited_name_breaks_grouping
            (PriceCharts.fetchPriceHistory ChartSample.broken_db)
            (PriceCharts.mkPriceHistory "m7" 50%Z (num 5) "constructor") _ eq_refl).
  simpl. right. right. right. right. left. reflexivity.
Defined.

(** ** The minus button *)

Lemma geb_false_iff (a b : number) : geb a b = false <-> (a < b)%Qc.
Proof.
  unfold geb, Qccompare, Qclt. rewrite Qlt_alt.
  destruct (Qcompare a b); split; intros H; try discriminate; reflexivity.
Qed.

Lemma this_minus (x y : Qc) : (this (x - y)%Qc == this x - this y)%Q.
Proof.
  unfold Qcminus, Qcplus, Qcopp.
  change (this (Q2Qc (this x + this (Q2Qc (- this y)))))
    with (Qred (this x + Qred (- this y))).
  rewrite !Qred_correct. reflexivity.
Qed.

Lemma above_one_minus_one (q : number) :
  geb (num 1) q = false -> geb (num 0) (q - num 1) = false.
Proof.
  rewrite !geb_false_iff. intros Hlt. apply lt_num_this_l in Hlt.
  unfold Qclt. rewrite this_minus, !this_num.
  change (inject_Z 0) with 0%Q. change (inject_Z 1) with 1%Q in *. lra.
Qed.

(** X20. The minus button cannot delete an item: where it is enabled
    (quantity above 1) a click keeps every cart row and every item of the
    dialog, and stores the quantity less one on the rows of that id. *)
Theorem minus_button_never_removes
    (item : Cart.CartItem) (st : Cart.State) (db : Supabase.Database) :
  Cart.minusDisabled item = false ->
  let k := CartItems.id (Cart.item_row item) in
  let q := (CartItems.quantity (Cart.item_row item) - num 1)%Qc in
  Supabase.cart_items (snd (Cart.onMinusClick item st db))
  = map (fun r => if String.eqb (CartItems.id r) k
                  then CartItems.update_quantity q r else r)
      (Supabase.cart_items db)
  /\ length (Cart.cartItems (fst (Cart.onMinusClick item st db)))
     = length (Cart.cartItems st)
  /\ (num 0 < q)%Qc.
Proof.
  intros Henabled k q. unfold Cart.minusDisabled in Henabled.
  pose proof (above_one_minus_one _ Henabled) as Hq.
  subst k q. unfold Cart.onMinusClick, Cart.updateQuantity. rewrite Hq. simpl.
  split; [reflexivity|]. split; [apply length_map|].
  apply not_geb_zero. exact Hq.
Qed.

Lemma minus_button_never_removes_witness :
  length
    (Cart.cartItems
       (fst (Cart.onMinusClick
               (Cart.mkCartItem (CartItems.mk "c3" "v2" "m3" (num 3))
                  (Some CartFlow.saffron))
               CartFlow.market_view CartFlow.market_db)))
  = length (Cart.cartItems CartFlow.market_view).
Proof.
  exact (proj1 (proj2 (minus_button_never_removes
                         (Cart.mkCartItem (CartItems.mk "c3" "v2" "m3" (num 3))
                            (Some CartFlow.saffron))
                         CartFlow.market_view CartFlow.market_db eq_refl))).
Defined.

